(** * dapis server: the multi-format search-and-dispatch engine

    A shallow embedding of [dapis_server.py]: the extension dispatch of
    [search_file], the three extraction handlers, the two document
    converters, the session registry ([SESSIONS]), the per-session SQLite
    result table and the [/search] and [/get_targets] endpoints.

    Everything the server obtains from outside itself (the [re] module, the
    file system, openpyxl, PyMuPDF, [os.path], [subprocess], COM automation)
    is one record, [World]; the code of the repository is translated
    function by function on top of it. *)

From Stdlib Require Import ZArith String Ascii List Floats DecimalString.
From stdpp Require Import gmap strings list.

Set Default Proof Using "Type".

(* ------------------------------------------------------------------ *)
(** ** Python values *)

(** Exceptions that can leave a function of the server. *)
Inductive exn : Type :=
  | re_error              (* re.compile on a pattern that does not parse *)
  | COMError              (* Word automation failed (Windows) *)
  | CalledProcessError    (* subprocess.run(..., check=True), non-zero exit *)
  | OperationalError      (* sqlite3: the database file cannot be opened or written *)
  | RuntimeError (msg : string).

(** The outcome of a call: a value, or an exception on its way up. *)
Inductive result (A : Type) : Type :=
  | Ok (a : A)
  | Raise (e : exn).
Arguments Ok {A} a.
Arguments Raise {A} e.

Global Instance result_ret : MRet result := @Ok.
Global Instance result_bind : MBind result :=
  λ A B f r, match r with Ok a => f a | Raise e => Raise e end.

Definition is_Ok {A} (r : result A) : Prop := ∃ a, r = Ok a.
Definition is_Raise {A} (r : result A) : Prop := ∃ e, r = Raise e.

(** An iterator as a [for] loop sees it: the items it yields, then either
    [StopIteration] or an exception (an I/O error in the middle of a file, a
    worksheet whose XML stops parsing, a page that cannot be loaded). *)
Inductive ending : Type := Exhausted | Broken.

Record Iter (A : Type) : Type := MkIter { yielded : list A; finish : ending }.
Arguments MkIter {A} yielded finish.
Arguments yielded {A} i.
Arguments finish {A} i.

Definition iter_of {A} (l : list A) : Iter A := MkIter l Exhausted.

Module PyStr.

(** [c.lower()] on one ASCII character. Paths are modelled over the ASCII
    range; other bytes are left as they are. *)
Definition lower_ascii (c : ascii) : ascii :=
  let n := nat_of_ascii c in
  if (65 <=? n)%nat && (n <=? 90)%nat then ascii_of_nat (n + 32) else c.

(** [s.lower()] *)
Fixpoint lower (s : string) : string :=
  match s with
  | EmptyString => EmptyString
  | String c r => String (lower_ascii c) (lower r)
  end.

(** [s.split(sep)] for a separator of one character: never the empty
    list, and empty fields are kept. *)
Fixpoint split (sep : ascii) (s : string) : list string :=
  match s with
  | EmptyString => [EmptyString]
  | String c r =>
      if Ascii.eqb c sep then EmptyString :: split sep r
      else match split sep r with
           | h :: t => String c h :: t
           | [] => [String c EmptyString]
           end
  end.

(** [l[-1]] on a list of strings ([split] never returns an empty one). *)
Definition last_item (l : list string) : string := List.last l EmptyString.

(** [needle in hay] when [hay] is a string: the substring test. *)
Fixpoint contains (hay needle : string) : bool :=
  String.prefix needle hay
  || match hay with
     | EmptyString => false
     | String _ r => contains r needle
     end.

(** [x in (a, b, ...)] when the right-hand side is a tuple of strings. *)
Definition in_tuple (x : string) (t : list string) : bool :=
  existsb (String.eqb x) t.

(** [s.rstrip(ch)] for one character: every trailing [ch] goes. *)
Fixpoint rstrip (ch : ascii) (s : string) : string :=
  match s with
  | EmptyString => EmptyString
  | String c r =>
      match rstrip ch r with
      | EmptyString => if Ascii.eqb c ch then EmptyString else String c EmptyString
      | r' => String c r'
      end
  end.

(** [str(n)] for an [int]. *)
Definition str_int (n : Z) : string := NilZero.string_of_int (Z.to_int n).

(** [l[:stop]]: a negative [stop] counts from the end. *)
Definition slice_to {A} (l : list A) (stop : Z) : list A :=
  if (0 <=? stop)%Z then take (Z.to_nat stop) l
  else take (Z.to_nat (Z.of_nat (length l) + stop)) l.

(** [enumerate(l, start)] *)
Fixpoint enumerate {A} (start : Z) (l : list A) : list (Z * A) :=
  match l with
  | [] => []
  | x :: r => (start, x) :: enumerate (start + 1) r
  end.

Definition enumerate_iter {A} (start : Z) (it : Iter A) : Iter (Z * A) :=
  MkIter (enumerate start (yielded it)) (finish it).

Definition newline : ascii := "010"%char.

End PyStr.

Module PyFloat.

(** [a / b] on floats: Python raises [ZeroDivisionError] where IEEE 754
    would give an infinity or a NaN. [None] stands for the exception. *)
Definition truediv (a b : float) : option float :=
  if PrimFloat.eqb b 0%float then None else Some (a / b)%float.

(** [round(x, 1)] as CPython computes it: the exact value of [x] is
    rounded half-to-even at the first fractional digit, and the double
    nearest to that decimal is returned. Zeros, infinities, NaN and
    doubles without a fractional part come back as they are. *)
Definition round1 (x : float) : float :=
  match Prim2SF x with
  | S754_finite s m e =>
      if (0 <=? e)%Z then x
      else
        let den := (2 ^ (- e))%Z in
        let q := (10 * Z.pos m / den)%Z in
        let r := ((10 * Z.pos m) mod den)%Z in
        let tenths :=
          if (2 * r <? den)%Z then q
          else if (den <? 2 * r)%Z then (q + 1)%Z
          else if Z.even q then q else (q + 1)%Z in
        let '(mz, ez, lz) := SFdiv_core_binary prec emax tenths 0 10 0 in
        SF2Prim (binary_round_aux prec emax s mz ez lz)
  | _ => x
  end.

End PyFloat.

(* ------------------------------------------------------------------ *)
(** ** Match records and the outside world *)

(** One element of a handler's [out] list: the dictionary with the keys
    ["path"], ["sheet"], ["line"], ["column"], ["page"], ["value"] and, for
    PDF matches only, ["x%"] and ["y%"]. [None] is Python's [None], or for
    the last two an absent key. *)
Record Match : Type := MkMatch {
  path : string;
  sheet : option string;
  line : string;
  column : option string;
  page : option string;
  value : string;
  x_pct : option float;
  y_pct : option float
}.

(** A compiled pattern is used through [rx.search(s)] only, and only for
    the truth value of what it returns. *)
Definition Pattern : Type := string → bool.

Definition IGNORECASE : Z := 2.

(** A cell value as [iter_rows(values_only=True)] hands it over. *)
Inductive cell : Type :=
  | CNone
  | CStr (s : string)
  | CInt (n : Z)
  | CBool (b : bool)
  | COther (shown : string).   (* float, datetime, ...: carried with its str() *)

(** [str(cell)] *)
Definition str_cell (c : cell) : string :=
  match c with
  | CNone => "None"
  | CStr s => s
  | CInt n => PyStr.str_int n
  | CBool true => "True"
  | CBool false => "False"
  | COther shown => shown
  end.

(** A workbook opened read-only: the sheets in declared order, each with
    the iterator [iter_rows] gives. *)
Definition Workbook : Type := list (string * Iter (list cell)).

Definition sheetnames (wb : Workbook) : list string := wb.*1.

(** [wb[name]]; [None] is [KeyError]. *)
Fixpoint getitem (wb : Workbook) (name : string) : option (Iter (list cell)) :=
  match wb with
  | [] => None
  | (title, ws) :: rest => if String.eqb title name then Some ws else getitem rest name
  end.

(** One tuple of [page.get_text("words")]. *)
Record Word : Type := MkWord {
  x0 : float; y0 : float; x1 : float; y1 : float;
  word : string;
  block_no : Z; line_no : Z; word_no : Z
}.

Record Page : Type := MkPage {
  get_text_words : option (list Word);   (* [None]: get_text raises *)
  rect_width : float;
  rect_height : float
}.

Definition Document : Type := Iter Page.

(** What the server calls but does not define. A failing call is [None]
    (or [false] for a command or an automation that does not succeed). *)
Record World : Type := MkWorld {
  re_compile : string → Z → option Pattern;
  open_text : string → option (Iter string);
  load_workbook : string → option Workbook;
  fitz_open : string → option Document;
  platform_system : string;
  splitext_root : string → string;          (* os.path.splitext(p)[0] *)
  dirname : string → string;                (* os.path.dirname *)
  subprocess_run : list string → bool;      (* exit status 0 *)
  word_save_as_pdf : string → string → bool;
  powerpoint_save_as_pdf : string → string → bool
}.

Definition LIBREOFFICE : string := "/Applications/LibreOffice.app/Contents/MacOS/soffice".

(* ------------------------------------------------------------------ *)
(** ** The body of a [try] block

    A handler's [try] block works on the list [out]. It either runs to its
    end or is left by an exception; in both cases [out] keeps what was
    appended so far. *)

Inductive status : Type := Completed | Excepted.

Definition Block (S : Type) : Type := S → S * status.

Fixpoint for_each {A S} (body : A → Block S) (xs : list A) : Block S :=
  λ s,
    match xs with
    | [] => (s, Completed)
    | x :: rest =>
        match body x s with
        | (s', Completed) => for_each body rest s'
        | (s', Excepted) => (s', Excepted)
        end
    end.

Definition for_iter {A S} (body : A → Block S) (it : Iter A) : Block S :=
  λ s,
    match for_each body (yielded it) s with
    | (s', Completed) =>
        (s', match finish it with Exhausted => Completed | Broken => Excepted end)
    | (s', Excepted) => (s', Excepted)
    end.

Definition append_if {A} (test : bool) (x : A) : Block (list A) :=
  λ out, (if test then out ++ [x] else out, Completed).

(** A block that appends [full] when it completes and an initial part of
    [full] when an exception leaves it. *)
Definition appends_upto {B} (full : list B) (blk : Block (list B)) : Prop :=
  ∀ out, ∃ l st, blk out = (out ++ l, st)
                 ∧ l `prefix_of` full
                 ∧ (st = Completed → l = full).

(* ------------------------------------------------------------------ *)
(** ** Extraction handlers *)

Section Handlers.

Variable W : World.

(** [re.compile(pattern, flags)]: the first statement of every handler,
    in front of its [try]. *)
Definition compile (pattern : string) (flags : Z) : result Pattern :=
  match re_compile W pattern flags with
  | Some rx => Ok rx
  | None => Raise re_error
  end.

Definition text_match (fp : string) (i : Z) (ln : string) : Match :=
  {| path := fp; sheet := None; line := PyStr.str_int i; column := None;
     page := None; value := PyStr.rstrip PyStr.newline ln;
     x_pct := None; y_pct := None |}.

(** The [try] block of [search_text_file]. *)
Definition search_text_try (rx : Pattern) (fp : string) : Block (list Match) :=
  λ out,
    match open_text W fp with
    | None => (out, Excepted)
    | Some fh =>
        for_iter (λ '(i, ln), append_if (rx ln) (text_match fp i ln))
                 (PyStr.enumerate_iter 1 fh) out
    end.

Definition search_text_file (fp pattern : string) (flags : Z) : result (list Match) :=
  rx ← compile pattern flags;
  let out := [] in
  let '(out, _) := search_text_try rx fp out in   (* except Exception: pass *)
  Ok out.

(** [str(cell) if cell is not None else ""] *)
Definition cell_val (c : cell) : string :=
  match c with
  | CNone => ""
  | _ => str_cell c
  end.

Definition excel_match (fp sh : string) (i j : Z) (val : string) : Match :=
  {| path := fp; sheet := Some sh; line := PyStr.str_int i;
     column := Some (PyStr.str_int j); page := None; value := val;
     x_pct := None; y_pct := None |}.

Definition excel_row (rx : Pattern) (fp sh : string) (i : Z) (row : list cell)
  : Block (list Match) :=
  for_each (λ '(j, c), let val := cell_val c in
                       append_if (rx val) (excel_match fp sh i j val))
           (PyStr.enumerate 1 row).

Definition excel_sheet (rx : Pattern) (fp : string) (wb : Workbook) (sh : string)
  : Block (list Match) :=
  λ out,
    match getitem wb sh with
    | None => (out, Excepted)
    | Some ws =>
        for_iter (λ '(i, row), excel_row rx fp sh i row) (PyStr.enumerate_iter 1 ws) out
    end.

(** The [try] block of [search_excel_file]. *)
Definition search_excel_try (rx : Pattern) (fp : string) : Block (list Match) :=
  λ out,
    match load_workbook W fp with
    | None => (out, Excepted)
    | Some wb => for_each (excel_sheet rx fp wb) (sheetnames wb) out
    end.

Definition search_excel_file (fp pattern : string) (flags : Z) : result (list Match) :=
  rx ← compile pattern flags;
  let out := [] in
  let '(out, _) := search_excel_try rx fp out in   (* except Exception: pass *)
  Ok out.

Definition pdf_match (fp_alias : string) (page_num : Z) (w : Word) (x_pct y_pct : float)
  : Match :=
  {| path := fp_alias; sheet := None; line := PyStr.str_int (line_no w);
     column := None; page := Some (PyStr.str_int page_num); value := word w;
     x_pct := Some (PyFloat.round1 x_pct); y_pct := Some (PyFloat.round1 y_pct) |}.

(** The body of [for w in words]. *)
Definition pdf_word (rx : Pattern) (fp_alias : string) (page_num : Z) (pg : Page) (w : Word)
  : Block (list Match) :=
  λ out,
    if rx (word w) then
      let page_width := rect_width pg in
      let page_height := rect_height pg in
      match PyFloat.truediv (x0 w) page_width with
      | None => (out, Excepted)
      | Some qx =>
          let x_pct := (qx * 100)%float in
          match PyFloat.truediv (y0 w) page_height with
          | None => (out, Excepted)
          | Some qy =>
              let y_pct := (qy * 100)%float in
              (out ++ [pdf_match fp_alias page_num w x_pct y_pct], Completed)
          end
      end
    else (out, Completed).

Definition pdf_page (rx : Pattern) (fp_alias : string) (page_num : Z) (pg : Page)
  : Block (list Match) :=
  λ out,
    match get_text_words pg with
    | None => (out, Excepted)
    | Some words => for_each (pdf_word rx fp_alias page_num pg) words out
    end.

(** The [try] block of [search_pdf_file]. *)
Definition search_pdf_try (rx : Pattern) (fp : string) (fp_alias : option string)
  : Block (list Match) :=
  λ out,
    let fp_alias := match fp_alias with None => fp | Some a => a end in
    match fitz_open W fp with
    | None => (out, Excepted)
    | Some doc =>
        for_iter (λ '(page_num, pg), pdf_page rx fp_alias page_num pg)
                 (PyStr.enumerate_iter 1 doc) out
    end.

Definition search_pdf_file (fp pattern : string) (flags : Z) (fp_alias : option string)
  : result (list Match) :=
  rx ← compile pattern flags;
  let out := [] in
  let '(out, _) := search_pdf_try rx fp fp_alias out in   (* except Exception: pass *)
  Ok out.

(* ---------------------------------------------------------------- *)
(** ** Conversion to PDF

    A converter writes the PDF next to the document and leaves it there.
    The world of a task is the world as that task finds it: for a task that
    converts, [fitz_open W] at the output path is the PDF just written.
    Another task, or a later run, may find another world. *)

Definition default_output (input_path : string) (output_path : option string) : string :=
  match output_path with
  | None => splitext_root W input_path +:+ ".pdf"
  | Some p => p
  end.

Definition convert_word_to_pdf (input_path : string) (output_path : option string)
  : result string :=
  let output_path := default_output input_path output_path in
  if String.eqb (platform_system W) "Windows" then
    if word_save_as_pdf W input_path output_path then Ok output_path
    else Raise COMError
  else
    if subprocess_run W [LIBREOFFICE; "--headless"; "--convert-to"; "pdf"; "--outdir";
                         dirname W output_path; input_path]
    then Ok output_path
    else Raise CalledProcessError.

(** The text of the caught exception, which the source appends to the
    message, is not kept. *)
Definition ppt_failure : exn := RuntimeError "Failed to convert PowerPoint to PDF: ".

Definition convert_ppt_to_pdf (input_path : string) (output_path : option string)
  : result string :=
  let output_path := default_output input_path output_path in
  if String.eqb (platform_system W) "Windows"
     && powerpoint_save_as_pdf W input_path output_path
  then Ok output_path
  else
    if subprocess_run W [LIBREOFFICE; "--headless"; "--convert-to"; "pdf"; input_path;
                         "--outdir"; dirname W output_path]
    then Ok output_path
    else Raise ppt_failure.

(* ---------------------------------------------------------------- *)
(** ** Dispatch on the extension *)

(** [fp.lower().split(".")[-1]] *)
Definition ext_of (fp : string) : string :=
  PyStr.last_item (PyStr.split "." (PyStr.lower fp)).

(** In the source the second and third tests read [ext in ("docx")] and
    [ext in ("pptx")]: the parentheses hold a string, not a tuple, so
    [in] is the substring test. *)
Definition search_file (fp pattern : string) (flags : Z) : result (list Match) :=
  let ext := ext_of fp in
  if PyStr.in_tuple ext ["xlsx"; "xlsm"; "xls"] then
    search_excel_file fp pattern flags
  else if PyStr.contains "docx" ext then
    let word_fp := fp in
    pdf_fp ← convert_word_to_pdf word_fp None;
    search_pdf_file pdf_fp pattern flags (Some word_fp)
  else if PyStr.contains "pptx" ext then
    let ppt_fp := fp in
    pdf_fp ← convert_ppt_to_pdf ppt_fp None;
    search_pdf_file pdf_fp pattern flags (Some ppt_fp)
  else if String.eqb ext "pdf" then
    search_pdf_file fp pattern flags None
  else if PyStr.in_tuple ext ["txt"; "py"; "md"; "csv"] then
    search_text_file fp pattern flags
  else Ok [].

End Handlers.

(* ------------------------------------------------------------------ *)
(** ** The result table and the server state *)

Module Results.

(** A row of the table [results]; [None] is SQL [NULL]. *)
Record row : Type := MkRow {
  id : Z;
  query : option string;
  file_path : option string;
  sheet : option string;
  line : option string;
  column : option string;
  page : option string;
  value : option string
}.

(** One SQLite file: the rows of [results] in insertion order, and the
    counter [AUTOINCREMENT] keeps (the largest id ever given out). *)
Record table : Type := MkTable { rows : list row; last_id : Z }.

(** What [CREATE TABLE] leaves when there was no table. *)
Definition empty : table := {| rows := []; last_id := 0 |}.

(** The seven data columns of a row. *)
Definition data (r : row) :=
  (query r, file_path r, sheet r, line r, column r, page r, value r).

End Results.

(** The arguments of one [executor.submit(search_file, fp, pattern, flags)]. *)
Definition Task : Type := string * string * Z.

Record Server : Type := MkServer {
  SESSIONS : gmap string (list string);
  databases : gmap string Results.table;   (* RESULTS_DIR/<session_id>.sqlite *)
  submitted : list Task                    (* every task handed to the pool *)
}.

(** What an endpoint returns: a [JSONResponse] with an error, or a body that
    FastAPI serialises with status 200. *)
Inductive Response (A : Type) : Type :=
  | JSONResponse (error : string) (status_code : Z)
  | Body (a : A).
Arguments JSONResponse {A} error status_code.
Arguments Body {A} a.

Record SearchBody : Type := MkSearchBody {
  matches : list Match;
  version : string;
  program : string
}.

Definition VERSION : string := "0.1.1".
Definition PROGRAM : string := "Dapis Server".

(** How a request ends: with a response, with an exception nobody caught,
    or never (it waits on a future that is never completed). *)
Inductive Outcome (A : Type) : Type :=
  | Returned (a : A)
  | Uncaught (e : exn)
  | Blocked.
Arguments Returned {A} a.
Arguments Uncaught {A} e.
Arguments Blocked {A}.

(** A call that comes back, seen as the end of the request that made it. *)
Definition outcome_of {A} (r : result A) : Outcome A :=
  match r with
  | Ok a => Returned a
  | Raise e => Uncaught e
  end.


Section Endpoints.

Variable W : World.
Variable TARGETS_COUNT_DEFAULT : Z.

Definition submit_targets (st : Server) (session_id : string) (paths : list string)
  : Server :=
  {| SESSIONS := <[session_id := paths]> (SESSIONS st);
     databases := databases st;
     submitted := submitted st |}.

Definition more_entry (n : Z) : string :=
  "...and " +:+ PyStr.str_int n +:+ " more".

Definition get_targets (st : Server) (session_id : string) : Response (list string) :=
  match SESSIONS st !! session_id with
  | None => JSONResponse "unknown session_id" 400
  | Some paths =>
      let max_count := TARGETS_COUNT_DEFAULT in
      let displayed := PyStr.slice_to paths max_count in
      let displayed :=
        if (max_count <? Z.of_nat (length paths))%Z
        then displayed ++ [more_entry (Z.of_nat (length paths) - max_count)]
        else displayed in
      Body displayed
  end.

(** [init_db] for a session whose identifier names a file of its own that
    can be opened: the connection it returns is identified with the session.
    [Disk.init_db] below is [init_db] without that assumption. *)
Definition init_db (st : Server) (session_id : string) : Server :=
  {| SESSIONS := SESSIONS st;
     databases := match databases st !! session_id with
                  | None => <[session_id := Results.empty]> (databases st)
                  | Some _ => databases st
                  end;
     submitted := submitted st |}.

(** The [INSERT] of [save_result] on one table. *)
Definition insert_row (t : Results.table)
    (query file_path sheet line column page value : option string) : Results.table :=
  let new_id := (Results.last_id t + 1)%Z in
  {| Results.rows := Results.rows t ++
       [ {| Results.id := new_id; Results.query := query;
            Results.file_path := file_path; Results.sheet := sheet;
            Results.line := line; Results.column := column;
            Results.page := page; Results.value := value |} ];
     Results.last_id := new_id |}.

Definition save_result (st : Server) (conn : string)
    (query file_path sheet line column page value : option string) : Server :=
  {| SESSIONS := SESSIONS st;
     databases := alter (λ t, insert_row t query file_path sheet line column page value)
                        conn (databases st);
     submitted := submitted st |}.

(** ** The process pool

    Futures are the positions of the tasks in the list handed over by
    one request. The workers finish them in some order, [sched]; each
    finished task leaves its value or its exception in its future. The
    tasks of one request are run in one world: none of them is taken to
    read a file that the conversion of another writes. *)
Definition run_task (t : Task) : result (list Match) :=
  let '(fp, pattern, flags) := t in search_file W fp pattern flags.

Definition run_workers (tasks : list Task) (sched : list nat)
  : gmap nat (result (list Match)) :=
  foldl (λ done i, match tasks !! i with
                   | Some t => <[i := run_task t]> done
                   | None => done
                   end) ∅ sched.

(** [for f in futures: results.extend(f.result())] *)
Fixpoint gather (done : gmap nat (result (list Match))) (futures : list nat)
    (results : list Match) : Outcome (list Match) :=
  match futures with
  | [] => Returned results
  | f :: rest =>
      match done !! f with
      | None => Blocked
      | Some (Raise e) => Uncaught e
      | Some (Ok ms) => gather done rest (results ++ ms)
      end
  end.

Definition submit_all (st : Server) (tasks : list Task) : Server :=
  {| SESSIONS := SESSIONS st;
     databases := databases st;
     submitted := submitted st ++ tasks |}.

Definition save_match (conn pattern : string) (st : Server) (r : Match) : Server :=
  save_result st conn (Some pattern) (Some (path r)) (sheet r) (Some (line r))
              (column r) (page r) (Some (value r)).

(** [re.IGNORECASE if ignore_case else 0] *)
Definition query_flags (ignore_case : bool) : Z :=
  if ignore_case then IGNORECASE else 0%Z.

Definition search (sched : list nat) (st : Server)
    (session_id pattern : string) (ignore_case : bool)
  : Outcome (Response SearchBody) * Server :=
  match SESSIONS st !! session_id with
  | None => (Returned (JSONResponse "unknown session_id" 400), st)
  | Some paths =>
      let st := init_db st session_id in
      let conn := session_id in
      let flags := query_flags ignore_case in
      let tasks := (λ fp, (fp, pattern, flags)) <$> paths in
      let st := submit_all st tasks in
      let futures := seq 0 (length tasks) in
      match gather (run_workers tasks sched) futures [] with
      | Blocked => (Blocked, st)
      | Uncaught e => (Uncaught e, st)
      | Returned results =>
          let st := foldl (save_match conn pattern) st results in
          (Returned (Body {| matches := results; version := VERSION;
                             program := PROGRAM |}), st)
      end
  end.

(** The requests of the HTTP interface that reach the state. *)
Inductive request : Type :=
  | SubmitTargets (session_id : string) (paths : list string)
  | GetTargets (session_id : string)
  | Search (sched : list nat) (session_id pattern : string) (ignore_case : bool).

(** The state a request leaves behind. *)
Definition handle (req : request) (st : Server) : Server :=
  match req with
  | SubmitTargets session_id paths => submit_targets st session_id paths
  | GetTargets _ => st
  | Search sched session_id pattern ignore_case =>
      (search sched st session_id pattern ignore_case).2
  end.

End Endpoints.

(* ------------------------------------------------------------------ *)
(** ** A small concrete world

    Used to run the definitions: three files, a pattern language reduced
    to literal words (on which it agrees with [re]) and the malformed
    pattern ["("], and a converter that succeeds or not. *)

Module Sample.

Definition nl : string := String PyStr.newline EmptyString.

Definition literal (pattern : string) (flags : Z) : option Pattern :=
  if String.eqb pattern "(" then None
  else Some (λ s, if Z.testbit flags 1
                  then PyStr.contains (PyStr.lower s) (PyStr.lower pattern)
                  else PyStr.contains s pattern).

Definition notes : Iter string :=
  iter_of ["alpha" +:+ nl; "beta" +:+ nl; "Alphabet"].

Definition text_files (fp : string) : option (Iter string) :=
  if String.eqb fp "notes.txt" then Some notes else None.

Definition book : Workbook :=
  [ ("Sheet1", iter_of [ [CStr "id"; CStr "name"];
                         [CInt 1; CNone];
                         [CInt 2; CStr "beta"] ]);
    ("Totals", iter_of [ [CStr "beta"; CBool true] ]) ].

(** A workbook whose second sheet stops parsing at its first row. *)
Definition damaged : Workbook :=
  [ ("Sheet1", iter_of [ [CStr "beta"] ]);
    ("Sheet2", MkIter [] Broken) ].

Definition workbooks (fp : string) : option Workbook :=
  if String.eqb fp "book.xlsx" then Some book
  else if String.eqb fp "damaged.xlsx" then Some damaged
  else None.

Definition token (x y : float) (text : string) (ln : Z) : Word :=
  {| x0 := x; y0 := y; x1 := (x + 30)%float; y1 := (y + 10)%float;
     word := text; block_no := 0; line_no := ln; word_no := 0 |}.

Definition sheet_of_paper (words : list Word) : Page :=
  {| get_text_words := Some words; rect_width := 200; rect_height := 100 |}.

Definition paper : Document :=
  iter_of [ sheet_of_paper [token 0 0 "alpha" 0; token 100 50 "beta" 1];
            sheet_of_paper [token 100 0 "beta" 0] ].

Definition pdf_files (fp : string) : option Document :=
  if String.eqb fp "paper.pdf" || String.eqb fp "main.pdf" then Some paper else None.

(** Everything in front of the last dot. *)
Fixpoint root (s : string) : string :=
  match s with
  | EmptyString => EmptyString
  | String c r =>
      if PyStr.contains r "." then String c (root r)
      else if Ascii.eqb c "." then EmptyString
      else String c (root r)
  end.

Definition world (soffice_ok : bool) : World :=
  {| re_compile := literal;
     open_text := text_files;
     load_workbook := workbooks;
     fitz_open := pdf_files;
     platform_system := "Linux";
     splitext_root := root;
     dirname := λ _, "";
     subprocess_run := λ _, soffice_ok;
     word_save_as_pdf := λ _ _, false;
     powerpoint_save_as_pdf := λ _ _, false |}.

(** The same world with one PDF, found under every path. *)
Definition holding (doc : Document) : World :=
  {| re_compile := literal;
     open_text := text_files;
     load_workbook := workbooks;
     fitz_open := λ _, Some doc;
     platform_system := "Linux";
     splitext_root := root;
     dirname := λ _, EmptyString;
     subprocess_run := λ _, false;
     word_save_as_pdf := λ _ _, false;
     powerpoint_save_as_pdf := λ _ _, false |}.

Definition registry : Server :=
  {| SESSIONS := {[ "s1" := ["notes.txt"; "book.xlsx"; "paper.pdf"; "photo.png"] ]};
     databases := ∅;
     submitted := [] |}.

End Sample.

(* ------------------------------------------------------------------ *)
(** ** What the handlers and a query are expected to produce

    Written from the description of each component, as list comprehensions
    over the content of a file that is read to its end; compared below with
    the loops of the source. *)

Module Expected.

(** One match per line in which the pattern is found: 1-based line number,
    no sheet, column or page, the line without its trailing newline. *)
Definition text_matches (rx : Pattern) (fp : string) (lines : list string) : list Match :=
  '(i, ln) ← PyStr.enumerate 1 lines;
  if rx ln
  then [ {| path := fp; sheet := None; line := PyStr.str_int i; column := None;
            page := None; value := PyStr.rstrip PyStr.newline ln;
            x_pct := None; y_pct := None |} ]
  else [].

(** A cell as text: the empty string for an empty cell. *)
Definition cell_text (c : cell) : string :=
  match c with
  | CNone => ""
  | CStr s => s
  | CInt n => PyStr.str_int n
  | CBool b => if b then "True" else "False"
  | COther shown => shown
  end.

(** What one row contributes: its cells from the left, 1-based. *)
Definition row_matches (rx : Pattern) (fp sh : string) (i : Z) (row : list cell)
  : list Match :=
  '(j, c) ← PyStr.enumerate 1 row;
  if rx (cell_text c)
  then [ {| path := fp; sheet := Some sh; line := PyStr.str_int i;
            column := Some (PyStr.str_int j); page := None; value := cell_text c;
            x_pct := None; y_pct := None |} ]
  else [].

(** Sheets in declared order, rows from the top with 1-based numbers. *)
Definition excel_matches (rx : Pattern) (fp : string) (wb : Workbook) : list Match :=
  '(sh, ws) ← wb;
  '(i, row) ← PyStr.enumerate 1 (yielded ws);
  row_matches rx fp sh i row.

(** The position of a token on its page: 100 times the offset over the page
    size, rounded to one decimal. *)
Definition percent (offset size : float) : float :=
  PyFloat.round1 (100 * (offset / size))%float.

(** What one word token contributes. *)
Definition word_matches (rx : Pattern) (reported : string) (page_num : Z) (pg : Page)
    (w : Word) : list Match :=
  if rx (word w)
  then [ {| path := reported; sheet := None; line := PyStr.str_int (line_no w);
            column := None; page := Some (PyStr.str_int page_num); value := word w;
            x_pct := Some (percent (x0 w) (rect_width pg));
            y_pct := Some (percent (y0 w) (rect_height pg)) |} ]
  else [].

(** Pages in order with 1-based numbers, the word tokens of each page in the
    order PyMuPDF lists them. *)
Definition pdf_matches (rx : Pattern) (reported : string) (doc : Document) : list Match :=
  '(page_num, pg) ← PyStr.enumerate 1 (yielded doc);
  w ← default [] (get_text_words pg);
  word_matches rx reported page_num pg w.

(** A page whose words can be listed and whose rectangle is not empty. *)
Definition page_readable (pg : Page) : Prop :=
  is_Some (get_text_words pg)
  ∧ PrimFloat.eqb (rect_width pg) 0 = false
  ∧ PrimFloat.eqb (rect_height pg) 0 = false.

(** The outputs of the targets taken one after the other in the order of
    the target list: the concatenation, or the exception of the first target
    that has one. *)
Fixpoint aggregate (outputs : list (result (list Match))) (results : list Match)
  : result (list Match) :=
  match outputs with
  | [] => Ok results
  | Ok ms :: rest => aggregate rest (results ++ ms)
  | Raise e :: _ => Raise e
  end.

(** The row stored for a match. *)
Definition row_of (id : Z) (pattern : string) (m : Match) : Results.row :=
  {| Results.id := id; Results.query := Some pattern;
     Results.file_path := Some (path m); Results.sheet := sheet m;
     Results.line := Some (line m); Results.column := column m;
     Results.page := page m; Results.value := Some (value m) |}.

(** The rows a list of matches adds to a table whose last id is [last]. *)
Definition added_rows (last : Z) (pattern : string) (ms : list Match) : list Results.row :=
  imap (λ k m, row_of (last + 1 + Z.of_nat k) pattern m) ms.

End Expected.

(* ------------------------------------------------------------------ *)
(** ** Shapes, support and numbering

    Notions the properties of the dispatch, of the handlers and of the
    result table are stated with. *)

(** The five extension tests of [search_file], as one test. *)
Definition handled (fp : string) : bool :=
  let ext := ext_of fp in
  PyStr.in_tuple ext ["xlsx"; "xlsm"; "xls"]
  || PyStr.contains "docx" ext
  || PyStr.contains "pptx" ext
  || String.eqb ext "pdf"
  || PyStr.in_tuple ext ["txt"; "py"; "md"; "csv"].

(** The paths [search_file] converts to PDF before it searches them. *)
Definition converted (fp : string) : bool :=
  let ext := ext_of fp in
  negb (PyStr.in_tuple ext ["xlsx"; "xlsm"; "xls"])
  && (PyStr.contains "docx" ext || PyStr.contains "pptx" ext).

(** A string without a dot. *)
Fixpoint dotless (s : string) : bool :=
  match s with
  | EmptyString => true
  | String c r => negb (Ascii.eqb c ".") && dotless r
  end.

(** The keys a text match fills. *)
Definition text_shaped (m : Match) : Prop :=
  sheet m = None ∧ column m = None ∧ page m = None ∧ x_pct m = None ∧ y_pct m = None.

(** The keys a spreadsheet match fills. *)
Definition excel_shaped (m : Match) : Prop :=
  is_Some (sheet m) ∧ is_Some (column m) ∧ page m = None
  ∧ x_pct m = None ∧ y_pct m = None.

(** The keys a PDF match fills. *)
Definition pdf_shaped (m : Match) : Prop :=
  sheet m = None ∧ column m = None ∧ is_Some (page m)
  ∧ is_Some (x_pct m) ∧ is_Some (y_pct m).

(** A table whose rows carry the ids 1, 2, ... in insertion order and whose
    counter is the number of rows. *)
Definition consecutive_ids (t : Results.table) : Prop :=
  Results.id <$> Results.rows t = seqZ 1 (Z.of_nat (length (Results.rows t)))
  ∧ Results.last_id t = Z.of_nat (length (Results.rows t)).

(** The state after a sequence of requests. *)
Definition serve (W : World) (reqs : list request) (st : Server) : Server :=
  foldl (λ s req, handle W req s) st reqs.

(* ------------------------------------------------------------------ *)
(** ** What a handler has read when a failure stops it *)

(** The items of a list in front of the first one at which [stops] holds. *)
Fixpoint upto_first {A} (stops : A → bool) (xs : list A) : list A :=
  match xs with
  | [] => []
  | x :: rest => if stops x then [] else x :: upto_first stops rest
  end.

(** The same items, and the one at which [stops] holds. *)
Fixpoint through_first {A} (stops : A → bool) (xs : list A) : list A :=
  match xs with
  | [] => []
  | x :: rest => x :: (if stops x then [] else through_first stops rest)
  end.

(** The iterator ends with an exception. *)
Definition broken {A} (it : Iter A) : bool :=
  match finish it with
  | Broken => true
  | Exhausted => false
  end.

(** The sheets the spreadsheet handler gets to: the search goes on to the
    next sheet unless the rows of a sheet end with an exception, and the rows
    that sheet delivered have been searched by then. *)
Definition sheets_reached (wb : Workbook) : Workbook :=
  through_first (λ '(_, ws), broken ws) wb.

(** A page at which the PDF handler stops: its words cannot be listed, or
    one of its words matches and the page rectangle is empty, so that the
    position of that word is a division by zero. Nothing has been appended
    for such a page when the exception comes. *)
Definition page_stops (rx : Pattern) (pg : Page) : bool :=
  match get_text_words pg with
  | None => true
  | Some words =>
      existsb (λ w, rx (word w)) words
      && (PrimFloat.eqb (rect_width pg) 0 || PrimFloat.eqb (rect_height pg) 0)
  end.

(** The pages in front of the first one at which the handler stops. *)
Definition pages_passed (rx : Pattern) (doc : Document) : Document :=
  iter_of (upto_first (page_stops rx) (yielded doc)).

(** The position as the specification words it, [100 * x0 / page_width]
    rounded to one decimal: the product is taken first. *)
Definition claimed_percent (offset size : float) : float :=
  PyFloat.round1 (100 * offset / size)%float.

(* ------------------------------------------------------------------ *)
(** ** The result store as files

    Above, the table of a session is found under its identifier: that is
    the store of identifiers each of which names a file of its own that can
    be opened and written. [init_db] opens [RESULTS_DIR/<session_id>.sqlite];
    which file that is (pathlib and the file system resolve the path, so that
    ["s1"] and ["./s1"] name one file) and whether it can be opened is for
    the world to say. Here a table is found under the file it is in, opening
    it can fail, and so can an [INSERT]. *)

Module Disk.

(** What SQLite does with the [INSERT]s of one request: it takes them all,
    or it takes the first [k] and raises at the next one. *)
Inductive inserts : Type :=
  | TakesAll
  | FailsAfter (k : nat) (e : exn).

Section Store.

Variable W : World.

(** [Path(RESULTS_DIR).mkdir(exist_ok=True)], [sqlite3.connect(db_path)] and
    [CREATE TABLE IF NOT EXISTS] for a session identifier: the file the
    connection is on, or the exception of the statement that fails. *)
Variable connect : string → result string.

Definition init_db (st : Server) (session_id : string) : result (string * Server) :=
  conn ← connect session_id;
  Ok (conn,
      {| SESSIONS := SESSIONS st;
         databases := match databases st !! conn with
                      | None => <[conn := Results.empty]> (databases st)
                      | Some _ => databases st
                      end;
         submitted := submitted st |}).

(** [for r in results: save_result(conn, ...)]. Every [INSERT] is committed
    on its own, so the rows saved before one raises stay in the file. *)
Definition save_all (ins : inserts) (conn pattern : string) (st : Server)
    (results : list Match) : option exn * Server :=
  match ins with
  | TakesAll => (None, foldl (save_match conn pattern) st results)
  | FailsAfter k e =>
      if (k <? length results)%nat
      then (Some e, foldl (save_match conn pattern) st (take k results))
      else (None, foldl (save_match conn pattern) st results)
  end.

Definition search (sched : list nat) (ins : inserts) (st : Server)
    (session_id pattern : string) (ignore_case : bool)
  : Outcome (Response SearchBody) * Server :=
  match SESSIONS st !! session_id with
  | None => (Returned (JSONResponse "unknown session_id" 400), st)
  | Some paths =>
      match init_db st session_id with
      | Raise e => (Uncaught e, st)
      | Ok (conn, st) =>
          let flags := query_flags ignore_case in
          let tasks := (λ fp, (fp, pattern, flags)) <$> paths in
          let st := submit_all st tasks in
          let futures := seq 0 (length tasks) in
          match gather (run_workers W tasks sched) futures [] with
          | Blocked => (Blocked, st)
          | Uncaught e => (Uncaught e, st)
          | Returned results =>
              match save_all ins conn pattern st results with
              | (Some e, st) => (Uncaught e, st)
              | (None, st) =>
                  (Returned (Body {| matches := results; version := VERSION;
                                     program := PROGRAM |}), st)
              end
          end
      end
  end.

(** The requests that reach the state, each query with the order in which
    the workers finish and with what SQLite does with its rows. *)
Inductive request : Type :=
  | SubmitTargets (session_id : string) (paths : list string)
  | GetTargets (session_id : string)
  | Search (sched : list nat) (ins : inserts) (session_id pattern : string)
           (ignore_case : bool).

Definition handle (req : request) (st : Server) : Server :=
  match req with
  | SubmitTargets session_id paths => submit_targets st session_id paths
  | GetTargets _ => st
  | Search sched ins session_id pattern ignore_case =>
      (search sched ins st session_id pattern ignore_case).2
  end.

End Store.

(** A results directory without subdirectories: ["./s1"] is the file of
    ["s1"], and an identifier with any other directory in it cannot be
    opened. *)
Definition flat (session_id : string) : result string :=
  if String.eqb session_id "./s1" then Ok "results/s1.sqlite"
  else if PyStr.contains session_id "/" then Raise OperationalError
  else Ok ("results/" +:+ session_id +:+ ".sqlite").

End Disk.

(* ------------------------------------------------------------------ *)
(** ** Configuration

    [load_config_file] and [Config] of the server. Strings are ASCII, as
    for paths; [argparse] and [int] stay outside. *)

Module PyText.

(** The ASCII characters [str.strip()] and [str.split()] treat as
    whitespace: tab to carriage return, the four separators 28 to 31, and
    the space. Python also counts characters outside ASCII (U+0085, U+00A0,
    U+3000 and other Unicode spaces), which this test does not know: what is
    said below of the exact words of a line is said of lines within ASCII
    ([is_ascii]). *)
Definition is_space (c : ascii) : bool :=
  let n := nat_of_ascii c in
  ((9 <=? n)%nat && (n <=? 13)%nat) || ((28 <=? n)%nat && (n <=? 32)%nat).

Fixpoint lstrip (s : string) : string :=
  match s with
  | EmptyString => EmptyString
  | String c r => if is_space c then lstrip r else s
  end.

Fixpoint rstrip (s : string) : string :=
  match s with
  | EmptyString => EmptyString
  | String c r =>
      match rstrip r with
      | EmptyString => if is_space c then EmptyString else String c EmptyString
      | r' => String c r'
      end
  end.

(** [s.strip()] *)
Definition strip (s : string) : string := rstrip (lstrip s).

(** [s.split()], with [cur] the word being read: runs of whitespace
    separate the words and none of them is empty. *)
Fixpoint split_from (cur : string) (s : string) : list string :=
  match s with
  | EmptyString => match cur with EmptyString => [] | _ => [cur] end
  | String c r =>
      if is_space c
      then match cur with
           | EmptyString => split_from EmptyString r
           | _ => cur :: split_from EmptyString r
           end
      else split_from (cur +:+ String c EmptyString) r
  end.

Definition split (s : string) : list string := split_from EmptyString s.

(** [s.startswith(prefix)] *)
Definition startswith (s prefix : string) : bool := String.prefix prefix s.

(** Every character of [s] is in the ASCII range. *)
Fixpoint is_ascii (s : string) : bool :=
  match s with
  | EmptyString => true
  | String c r => (nat_of_ascii c <? 128)%nat && is_ascii r
  end.

(** No whitespace in [s]. *)
Fixpoint spaceless (s : string) : bool :=
  match s with
  | EmptyString => true
  | String c r => negb (is_space c) && spaceless r
  end.

End PyText.

Module Config.

(** What the server reads of the file system for its configuration:
    [os.path.exists], and [open] in text mode ([None]: it raises). *)
Record Files : Type := MkFiles {
  path_exists : string → bool;
  open_utf8 : string → option (Iter string)
}.

(** The body of [for line in f]. *)
Definition config_line (ln : string) : Block (list string) :=
  λ argv,
    let ln := PyText.strip ln in
    if String.eqb ln EmptyString || PyText.startswith ln "#" then (argv, Completed)
    else (argv ++ PyText.split ln, Completed).

(** [load_config_file]; [None] when an exception leaves it (nothing catches
    a failure of [open] or of the decoding of a line). *)
Definition load_config_file (fs : Files) (file_path : string) : option (list string) :=
  let argv := [] in
  if negb (path_exists fs file_path) then Some argv
  else
    match open_utf8 fs file_path with
    | None => None
    | Some f =>
        match for_iter config_line f argv with
        | (argv, Completed) => Some argv
        | (_, Excepted) => None
        end
    end.

(** A configured value: the parser's [type=str] and [type=int]. *)
Inductive value : Type :=
  | VStr (s : string)
  | VInt (n : Z).

(** The namespace [parse_args] returns. *)
Record Namespace : Type := MkNamespace {
  host : option string;
  port : option Z;
  results_dir : option string;
  targets_count_default : option Z;
  config_file : option string
}.

(** [getattr(ns, key, None)] *)
Definition getattr (ns : Namespace) (key : string) : option value :=
  if String.eqb key "host" then VStr <$> host ns
  else if String.eqb key "port" then VInt <$> port ns
  else if String.eqb key "results_dir" then VStr <$> results_dir ns
  else if String.eqb key "targets_count_default" then VInt <$> targets_count_default ns
  else if String.eqb key "config_file" then VStr <$> config_file ns
  else None.

Definition DEFAULTS : gmap string value :=
  <["host" := VStr "127.0.0.1"]>
  (<["port" := VInt 8000]>
  (<["results_dir" := VStr "results"]>
  (<["targets_count_default" := VInt 99]> ∅))).

Definition ENV_VARS : gmap string string :=
  <["host" := "DAPIS_HOST"]>
  (<["port" := "DAPIS_PORT"]>
  (<["results_dir" := "DAPIS_RESULTS_DIR"]>
  (<["targets_count_default" := "DAPIS_TARGETS_COUNT_DEFAULT"]> ∅))).

(** A [Config] object. *)
Record t : Type := MkConfig { args : Namespace; file_args : Namespace }.

(** How [get] ends. *)
Inductive outcome : Type :=
  | Got (v : value)
  | KeyError (key : string).

Section Get.

(** [int(s)] ([None]: [ValueError]) and [os.environ]. *)
Variable int_of_str : string → option Z.
Variable environ : gmap string string.

(** [self.DEFAULTS[key]] *)
Definition default_of (key : string) : outcome :=
  match DEFAULTS !! key with
  | Some v => Got v
  | None => KeyError key
  end.

Definition get (self : t) (key : string) : outcome :=
  match getattr (args self) key with
  | Some val => Got val
  | None =>
      match getattr (file_args self) key with
      | Some val => Got val
      | None =>
          match ENV_VARS !! key with
          | Some env_var =>
              match (if String.eqb env_var EmptyString then None else environ !! env_var) with
              | Some env_val =>
                  match DEFAULTS !! key with
                  | None => KeyError key
                  | Some (VInt _) =>
                      match int_of_str env_val with
                      | Some n => Got (VInt n)
                      | None => Got (VStr env_val)
                      end
                  | Some (VStr _) => Got (VStr env_val)
                  end
              | None => default_of key
              end
          | None => default_of key
          end
      end
  end.

(** [parse_args] ([None]: the parser exits). *)
Variable parse_args : list string → option Namespace.
Variable fs : Files.

(** [Config.__init__] on the command line [argv]. *)
Definition init (argv : list string) : option t :=
  a ← parse_args argv;
  from_file ← match config_file a with
              | Some file_path =>
                  if String.eqb file_path EmptyString then Some []
                  else load_config_file fs file_path
              | None => Some []
              end;
  fa ← parse_args from_file;
  Some {| args := a; file_args := fa |}.

End Get.

(** The value has the type of the key's default. *)
Definition typed (key : string) (v : value) : Prop :=
  match DEFAULTS !! key, v with
  | Some (VInt _), VInt _ => True
  | Some (VStr _), VStr _ => True
  | _, _ => False
  end.

End Config.

(* ------------------------------------------------------------------ *)
(** ** The client

    [dapis_client.py] as the list of what it does (prints, the POST, the
    command that opens the browser) and its exit status. *)

Module Client.

(** How the POST ends: an exception (of [urlopen], of the JSON decoding),
    or a JSON answer whose ["ok"] is true or not. [shown] is the text that
    gets printed. *)
Inductive reply : Type :=
  | Refused (shown : string)
  | Answered (ok : bool) (shown : string).

Record Host : Type := MkHost {
  abspath : string → string;
  uuid4 : string;
  urlopen : string → string → list string → reply;   (* url, session_id, paths *)
  platform_system : string;
  spawn : list string → bool → bool   (* [false]: the command cannot be started *)
}.

Inductive action : Type :=
  | Print (text : string)
  | Post (url session_id : string) (paths : list string)
  | Run (argv : list string) (shell : bool).

Definition SUBMIT : string := "http://127.0.0.1:8000/submit_targets".

Definition search_page (sid : string) : string :=
  "http://127.0.0.1:8000/?session_id=" +:+ sid.

(** The command for the default browser. *)
Definition browser (h : Host) (url : string) : list string * bool :=
  if String.eqb (platform_system h) "Darwin" then (["open"; url], false)
  else if String.eqb (platform_system h) "Windows" then (["start"; url], true)
  else (["xdg-open"; url], false).

(** The script, run as [prog args]: what it did and its exit status. *)
Definition main (h : Host) (prog : string) (args : list string) : list action * Z :=
  match args with
  | [] => ([Print ("Usage: " +:+ prog +:+ " path1 [path2 ...]")], 1%Z)
  | _ =>
      let paths := abspath h <$> args in
      let sid := uuid4 h in
      let post := Post SUBMIT sid paths in
      match urlopen h SUBMIT sid paths with
      | Refused shown => ([post; Print ("Failed to submit targets: " +:+ shown)], 1%Z)
      | Answered false shown => ([post; Print ("Failed to submit targets: " +:+ shown)], 1%Z)
      | Answered true _ =>
          let url := search_page sid in
          let '(cmd, shell) := browser h url in
          if spawn h cmd shell
          then ([post; Run cmd shell;
                 Print ("Targets submitted. Browser opened for session_id=" +:+ sid)], 0%Z)
          else ([post; Run cmd shell], 1%Z)
      end
  end.

(** What the server does with an action of the client: [submit_targets]
    on a POST, nothing otherwise. *)
Definition deliver (st : Server) (act : action) : Server :=
  match act with
  | Post _ session_id paths => submit_targets st session_id paths
  | _ => st
  end.

End Client.

(* ================================================================== *)
(** * Properties *)

Example lower_mixed : PyStr.lower "Report.XLSX" = "report.xlsx".
Proof. reflexivity. Qed.

Example split_dots : PyStr.split "." "a.tar.gz" = ["a"; "tar"; "gz"].
Proof. reflexivity. Qed.

Example split_no_dot : PyStr.split "." "Makefile" = ["Makefile"].
Proof. reflexivity. Qed.

Example split_trailing_dot : PyStr.split "." "notes." = ["notes"; ""].
Proof. reflexivity. Qed.

Example contains_sub : PyStr.contains "docx" "oc" = true.
Proof. reflexivity. Qed.

Example contains_not : PyStr.contains "docx" "dx" = false.
Proof. reflexivity. Qed.

Example rstrip_line : PyStr.rstrip PyStr.newline (String "a" (String PyStr.newline EmptyString)) = "a".
Proof. reflexivity. Qed.

Example slice_to_negative : PyStr.slice_to [1; 2; 3] (-1) = [1; 2].
Proof. reflexivity. Qed.

Example round1_quarter : PyFloat.round1 0.25%float = (2 / 10)%float.
Proof. vm_compute. reflexivity. Qed.

Example round1_three_quarters : PyFloat.round1 0.75%float = (8 / 10)%float.
Proof. vm_compute. reflexivity. Qed.

Example ext_of_upper : ext_of "Report.XLSX" = "xlsx".
Proof. reflexivity. Qed.

Example ext_of_no_dot : ext_of "/srv/data/csv" = "/srv/data/csv".
Proof. reflexivity. Qed.

Example ext_of_bare_name (W : World) (pattern : string) (flags : Z) :
  search_file W "csv" pattern flags = search_text_file W "csv" pattern flags.
Proof. reflexivity. Qed.

Example sample_text :
  ∃ out, search_file (Sample.world false) "notes.txt" "alpha" 0 = Ok out
         ∧ (line <$> out) = ["1"].
Proof. eexists. split; [reflexivity|]. reflexivity. Qed.

Example sample_text_ignore_case :
  ∃ out, search_file (Sample.world false) "notes.txt" "alpha" IGNORECASE = Ok out
         ∧ ((λ m, (line m, value m)) <$> out) = [("1", "alpha"); ("3", "Alphabet")].
Proof. eexists. split; [reflexivity|]. reflexivity. Qed.

Example sample_book :
  ∃ out, search_file (Sample.world false) "book.xlsx" "beta" 0 = Ok out
         ∧ ((λ m, (sheet m, line m, column m)) <$> out)
           = [(Some "Sheet1", "3", Some "2"); (Some "Totals", "1", Some "1")].
Proof. eexists. split; [reflexivity|]. reflexivity. Qed.

(* ------------------------------------------------------------------ *)
(** ** Strings and tuples *)

Lemma in_tuple_elem_of (x : string) (t : list string) :
  PyStr.in_tuple x t = true ↔ x ∈ t.
Proof.
  unfold PyStr.in_tuple. induction t as [|y t IH]; simpl.
  - split; [discriminate | by intros ?%elem_of_nil].
  - rewrite orb_true_iff, IH, elem_of_cons, String.eqb_eq. tauto.
Qed.

Lemma str_eqb_false (x y : string) : x ≠ y → String.eqb x y = false.
Proof. intros. by apply String.eqb_neq. Qed.

(* ------------------------------------------------------------------ *)
(** ** Where [search_file] sends a path *)

Section Dispatch.

Variable W : World.
Variables (fp pattern : string) (flags : Z).



Lemma dispatch_text :
  ext_of fp ∈ ["txt"; "py"; "md"; "csv"] →
  search_file W fp pattern flags = search_text_file W fp pattern flags.
Proof.
  intros Hext. unfold search_file.
  repeat (apply elem_of_cons in Hext as [-> | Hext]; [reflexivity|]).
  by apply elem_of_nil in Hext.
Qed.

Lemma dispatch_docx :
  ext_of fp = "docx" →
  search_file W fp pattern flags
  = (pdf_fp ← convert_word_to_pdf W fp None;
     search_pdf_file W pdf_fp pattern flags (Some fp)).
Proof. intros Hext. unfold search_file. by rewrite Hext. Qed.

Lemma dispatch_pptx :
  ext_of fp = "pptx" →
  search_file W fp pattern flags
  = (pdf_fp ← convert_ppt_to_pdf W fp None;
     search_pdf_file W pdf_fp pattern flags (Some fp)).
Proof. intros Hext. unfold search_file. by rewrite Hext. Qed.

(** A path that passes none of the five tests gives the empty list. *)
Lemma dispatch_else :
  ext_of fp ∉ ["xlsx"; "xlsm"; "xls"] →
  PyStr.contains "docx" (ext_of fp) = false →
  PyStr.contains "pptx" (ext_of fp) = false →
  ext_of fp ≠ "pdf" →
  ext_of fp ∉ ["txt"; "py"; "md"; "csv"] →
  search_file W fp pattern flags = Ok [].
Proof.
  intros Hx Hd Hp Hpdf Ht. unfold search_file.
  rewrite Hd, Hp, (str_eqb_false _ _ Hpdf).
  destruct (PyStr.in_tuple (ext_of fp) ["xlsx"; "xlsm"; "xls"]) eqn:E1.
  { by apply in_tuple_elem_of in E1. }
  destruct (PyStr.in_tuple (ext_of fp) ["txt"; "py"; "md"; "csv"]) eqn:E2.
  { by apply in_tuple_elem_of in E2. }
  reflexivity.
Qed.

End Dispatch.

Lemma lower_ascii_idemp (c : ascii) :
  PyStr.lower_ascii (PyStr.lower_ascii c) = PyStr.lower_ascii c.
Proof. destruct c as [[] [] [] [] [] [] [] []]; reflexivity. Qed.

Lemma lower_idemp (s : string) : PyStr.lower (PyStr.lower s) = PyStr.lower s.
Proof.
  induction s as [|c s IH]; [done|]. simpl. by rewrite IH, lower_ascii_idemp.
Qed.

(** The extension is read off the lower-cased path. *)
Lemma ext_of_lower (fp : string) : ext_of (PyStr.lower fp) = ext_of fp.
Proof. unfold ext_of. by rewrite lower_idemp. Qed.

Example photo_png_unsupported (W : World) (pattern : string) (flags : Z) :
  search_file W "photo.png" pattern flags = Ok [].
Proof. reflexivity. Qed.

(** C1 (the code departs from it): the extension tests for the two
    convertible formats are substring tests, so a path such as ["main.c"],
    whose extension is in no line of the mapping, is sent to the Word
    converter and then to the PDF handler. With a converter that fails the
    call raises; with one that succeeds it returns matches reported under
    ["main.c"]. The specification asks there for the empty list, with no
    handler invoked and no error. *)
Theorem search_file_c_source_is_converted :
  (∀ W pattern flags,
      search_file W "main.c" pattern flags
      = (pdf_fp ← convert_word_to_pdf W "main.c" None;
         search_pdf_file W pdf_fp pattern flags (Some "main.c")))
  ∧ search_file (Sample.world false) "main.c" "alpha" 0 = Raise CalledProcessError
  ∧ ∃ m, search_file (Sample.world true) "main.c" "alpha" 0 = Ok [m]
         ∧ path m = "main.c" ∧ value m = "alpha".
Proof.
  split; [reflexivity|]. split; [reflexivity|].
  eexists. split; [vm_compute; reflexivity|]. done.
Qed.

(** The same slip on the presentation side: [".ppt"] and [".p"] are
    substrings of ["pptx"]. *)
Example search_file_ppt_is_converted (W : World) (pattern : string) (flags : Z) :
  search_file W "slides.ppt" pattern flags
  = (pdf_fp ← convert_ppt_to_pdf W "slides.ppt" None;
     search_pdf_file W pdf_fp pattern flags (Some "slides.ppt")).
Proof. reflexivity. Qed.

(* ------------------------------------------------------------------ *)
(** ** The session registry: [get_targets] *)

Lemma slice_to_nonneg {A} (l : list A) (stop : Z) :
  (0 ≤ stop)%Z → PyStr.slice_to l stop = take (Z.to_nat stop) l.
Proof. intros H. unfold PyStr.slice_to. by rewrite (proj2 (Z.leb_le _ _) H). Qed.

(** C4: for a registered session with N paths and a display limit L (a
    count, so not negative), [get_targets] answers with a list that starts
    with the first min(N, L) paths; it is exactly the N paths when N ≤ L,
    and the first L paths followed by the one entry "...and (N-L) more"
    when N > L. *)
Theorem get_targets_display (L : Z) (st : Server) (session_id : string)
    (paths : list string) :
  SESSIONS st !! session_id = Some paths →
  (0 ≤ L)%Z →
  let N := Z.of_nat (length paths) in
  ∃ displayed,
    get_targets L st session_id = Body displayed
    ∧ take (Z.to_nat (Z.min N L)) displayed = take (Z.to_nat (Z.min N L)) paths
    ∧ ((N ≤ L)%Z → displayed = paths)
    ∧ ((L < N)%Z →
       displayed = take (Z.to_nat L) paths
                   ++ ["...and " +:+ PyStr.str_int (N - L) +:+ " more"]).
Proof.
  intros Hreg HL N. unfold get_targets. rewrite Hreg. cbv zeta.
  rewrite slice_to_nonneg by done. fold N.
  destruct (Z.ltb_spec L N) as [Hlt | Hge].
  - eexists. split; [reflexivity|]. split; [|split].
    + rewrite Z.min_r by lia.
      rewrite take_app_le by (rewrite length_take; lia).
      by rewrite take_take, Nat.min_id.
    + lia.
    + by intros _.
  - exists paths. rewrite take_ge by lia.
    split; [reflexivity|]. split; [reflexivity|]. split; [done | lia].
Qed.

Lemma get_targets_display_witness :
  ∃ displayed,
    get_targets 2 Sample.registry "s1" = Body displayed
    ∧ take 2 displayed = ["notes.txt"; "book.xlsx"]
    ∧ displayed = ["notes.txt"; "book.xlsx"; "...and 2 more"].
Proof.
  destruct (get_targets_display 2 Sample.registry "s1"
              ["notes.txt"; "book.xlsx"; "paper.pdf"; "photo.png"])
    as (displayed & Hget & Htake & _ & Hmore); [reflexivity | lia |].
  exists displayed. split; [exact Hget|]. split; [exact Htake|].
  apply Hmore. simpl. lia.
Defined.

(** An unregistered session is answered with the error response. *)
Lemma get_targets_unknown (L : Z) (st : Server) (session_id : string) :
  SESSIONS st !! session_id = None →
  get_targets L st session_id = JSONResponse "unknown session_id" 400.
Proof. intros H. unfold get_targets. by rewrite H. Qed.

(** The list handed out is a copy: the registry is not touched. With a
    negative limit the slice counts from the end of the list. *)
Example get_targets_negative_limit :
  get_targets (-1) Sample.registry "s1"
  = Body ["notes.txt"; "book.xlsx"; "paper.pdf"; "...and 5 more"].
Proof. reflexivity. Qed.

(* ------------------------------------------------------------------ *)
(** ** [/search] on an unknown session *)

(** C8: a query that names a session which is not registered returns the
    "unknown session" error response; the server state is left as it was,
    so no task has been submitted to the pool and the session's result
    database has been neither created nor written. *)
Theorem search_unknown_session (W : World) (sched : list nat) (st : Server)
    (session_id pattern : string) (ignore_case : bool) :
  SESSIONS st !! session_id = None →
  search W sched st session_id pattern ignore_case
    = (Returned (JSONResponse "unknown session_id" 400), st)
  ∧ submitted (search W sched st session_id pattern ignore_case).2 = submitted st
  ∧ databases (search W sched st session_id pattern ignore_case).2 = databases st.
Proof. intros H. unfold search. by rewrite H. Qed.

Lemma search_unknown_session_witness :
  search (Sample.world false) [0] Sample.registry "nobody" "alpha" false
    = (Returned (JSONResponse "unknown session_id" 400), Sample.registry)
  ∧ databases (search (Sample.world false) [0] Sample.registry "nobody" "alpha" false).2
      !! "nobody" = None.
Proof.
  destruct (search_unknown_session (Sample.world false) [0] Sample.registry
              "nobody" "alpha" false) as (Hret & _ & Hdb); [reflexivity|].
  split; [exact Hret|]. rewrite Hdb. reflexivity.
Defined.


(* ------------------------------------------------------------------ *)
(** ** Loops that only append *)

Lemma append_if_emits {A} (test : bool) (x : A) (out : list A) :
  append_if test x out = (out ++ (if test then [x] else []), Completed).
Proof. unfold append_if. destruct test; [done|]. by rewrite app_nil_r. Qed.

(** A loop whose body appends [g x] for each item appends them all, in the
    order of the items. *)
Lemma for_each_emits {A B} (g : A → list B) (body : A → Block (list B)) (xs : list A) :
  (∀ x, x ∈ xs → ∀ out, body x out = (out ++ g x, Completed)) →
  ∀ out, for_each body xs out = (out ++ (xs ≫= g), Completed).
Proof.
  induction xs as [|x xs IH]; intros Hbody out; cbn [for_each].
  - by rewrite app_nil_r.
  - rewrite Hbody by left. rewrite IH.
    + by rewrite bind_cons, (assoc_L (++)).
    + intros y Hy. apply Hbody. by right.
Qed.

Lemma for_iter_fst {A S} (body : A → Block S) (it : Iter A) (s : S) :
  (for_iter body it s).1 = (for_each body (yielded it) s).1.
Proof. unfold for_iter. by destruct (for_each body (yielded it) s) as [? []]. Qed.

Lemma for_iter_exhausted {A S} (body : A → Block S) (it : Iter A) (s : S) :
  finish it = Exhausted → for_iter body it s = for_each body (yielded it) s.
Proof.
  intros Hfin. unfold for_iter. rewrite Hfin.
  by destruct (for_each body (yielded it) s) as [? []].
Qed.

Lemma compile_Some (W : World) (pattern : string) (flags : Z) (rx : Pattern) :
  re_compile W pattern flags = Some rx → compile W pattern flags = Ok rx.
Proof. intros H. unfold compile. by rewrite H. Qed.


(* ------------------------------------------------------------------ *)
(** ** The text handler *)

Section Text.

Variable W : World.
Variables (fp pattern : string) (flags : Z) (rx : Pattern).
Hypothesis Hrx : re_compile W pattern flags = Some rx.

(** The loop over the lines, whether or not the file can be read to its
    end: the matches of the lines that were delivered. *)
Lemma search_text_try_fst (fh : Iter string) (out : list Match) :
  open_text W fp = Some fh →
  (search_text_try W rx fp out).1 = out ++ Expected.text_matches rx fp (yielded fh).
Proof.
  intros Hopen. unfold search_text_try. rewrite Hopen, for_iter_fst. simpl.
  erewrite for_each_emits; [reflexivity|].
  intros [i ln] _ out'. by rewrite append_if_emits.
Qed.

Lemma search_text_file_opened (fh : Iter string) :
  open_text W fp = Some fh →
  search_text_file W fp pattern flags = Ok (Expected.text_matches rx fp (yielded fh)).
Proof using Hrx.
  intros Hopen. unfold search_text_file. rewrite (compile_Some _ _ _ _ Hrx). simpl.
  pose proof (search_text_try_fst fh [] Hopen) as H.
  destruct (search_text_try W rx fp []) as [out st]. simpl in H. by rewrite H.
Qed.

Lemma search_text_file_unopened :
  open_text W fp = None → search_text_file W fp pattern flags = Ok [].
Proof using Hrx.
  intros Hopen. unfold search_text_file, search_text_try.
  by rewrite (compile_Some _ _ _ _ Hrx), Hopen.
Qed.

End Text.

(** [enumerate] numbers the items from [start] upwards. *)
Lemma enumerate_lookup {A} (start : Z) (l : list A) (i : nat) :
  PyStr.enumerate start l !! i = (λ x, ((start + Z.of_nat i)%Z, x)) <$> l !! i.
Proof.
  revert start i. induction l as [|x l IH]; intros start [|i]; simpl; try done.
  - by rewrite Z.add_0_r.
  - rewrite IH. destruct (l !! i); simpl; [|done]. do 2 f_equal. lia.
Qed.

Lemma elem_of_enumerate {A} (start : Z) (l : list A) (k : Z) (x : A) :
  (k, x) ∈ PyStr.enumerate start l
  ↔ ∃ i : nat, l !! i = Some x ∧ k = (start + Z.of_nat i)%Z.
Proof.
  rewrite list_elem_of_lookup. split.
  - intros [i Hi]. rewrite enumerate_lookup in Hi. exists i.
    destruct (l !! i); simplify_eq/=. done.
  - intros (i & Hi & ->). exists i. by rewrite enumerate_lookup, Hi.
Qed.

Lemma length_enumerate_select {A B} (t : A → bool) (f : Z → A → B) (start : Z) (l : list A) :
  length ('(i, x) ← PyStr.enumerate start l; if t x then [f i x] else [])
  = length (filter (λ x, Is_true (t x)) l).
Proof.
  revert start. induction l as [|x l IH]; intros start; [done|].
  cbn [PyStr.enumerate]. rewrite bind_cons, length_app, IH, filter_cons.
  destruct (t x); simpl; [|done]. by destruct (decide True).
Qed.

(** C5: for a text-format path whose file is read to its end, the handler
    returns exactly one match for each line in which the pattern is found:
    in file order, with the 1-based line number as [line], no [sheet],
    [column] or [page], and the line without its trailing newline as
    [value]. The pattern is compiled with [re.IGNORECASE] when the query's
    flag is set and with no flag otherwise. *)
Theorem text_handler_matches (W : World) (fp pattern : string) (ignore_case : bool)
    (rx : Pattern) (fh : Iter string) :
  ext_of fp ∈ ["txt"; "py"; "md"; "csv"] →
  open_text W fp = Some fh →
  finish fh = Exhausted →
  re_compile W pattern (if ignore_case then 2 else 0)%Z = Some rx →
  ∃ out,
    search_file W fp pattern (query_flags ignore_case) = Ok out
    ∧ out = Expected.text_matches rx fp (yielded fh)
    ∧ length out = length (filter (λ ln, Is_true (rx ln)) (yielded fh))
    ∧ (∀ m, m ∈ out ↔
         ∃ (i : nat) (ln : string),
           yielded fh !! i = Some ln ∧ rx ln = true
           ∧ m = {| path := fp; sheet := None;
                    line := PyStr.str_int (Z.of_nat i + 1); column := None;
                    page := None; value := PyStr.rstrip PyStr.newline ln;
                    x_pct := None; y_pct := None |}).
Proof.
  intros Hext Hopen _ Hrx. eexists. split; [|split; [reflexivity|split]].
  - rewrite dispatch_text by done.
    apply search_text_file_opened with (rx := rx); [|done].
    by destruct ignore_case.
  - apply length_enumerate_select.
  - intros m. unfold Expected.text_matches. rewrite list_elem_of_bind. split.
    + intros ([k ln] & Hm & Hin). apply elem_of_enumerate in Hin as (i & Hi & ->).
      destruct (rx ln) eqn:E; [|by apply elem_of_nil in Hm].
      apply list_elem_of_singleton in Hm as ->.
      exists i, ln. rewrite (Z.add_comm 1). done.
    + intros (i & ln & Hi & E & ->). exists ((1 + Z.of_nat i)%Z, ln). split.
      * rewrite E, (Z.add_comm 1). apply list_elem_of_singleton. done.
      * apply elem_of_enumerate. eauto.
Qed.

Lemma text_handler_matches_witness :
  ∃ out,
    search_file (Sample.world false) "notes.txt" "alpha" (query_flags true) = Ok out
    ∧ length out = 2
    ∧ (line <$> out) = ["1"; "3"]
    ∧ (value <$> out) = ["alpha"; "Alphabet"].
Proof.
  destruct (text_handler_matches (Sample.world false) "notes.txt" "alpha" true
              (λ s, PyStr.contains (PyStr.lower s) "alpha") Sample.notes)
    as (out & Hout & -> & Hlen & _).
  - apply in_tuple_elem_of. reflexivity.
  - reflexivity.
  - reflexivity.
  - reflexivity.
  - exists (Expected.text_matches (λ s, PyStr.contains (PyStr.lower s) "alpha")
              "notes.txt" (yielded Sample.notes)).
    split; [exact Hout|]. split; [exact Hlen|]. split; reflexivity.
Defined.

(** [rstrip] takes off the newline that ends a line and nothing else. *)
Lemma rstrip_newline_end (body : string) :
  PyStr.rstrip PyStr.newline body = body →
  PyStr.rstrip PyStr.newline (body +:+ String PyStr.newline EmptyString) = body.
Proof.
  induction body as [|c body IH]; [done|].
  change (String c body +:+ String PyStr.newline EmptyString)
    with (String c (body +:+ String PyStr.newline EmptyString)).
  cbn [PyStr.rstrip].
  destruct (PyStr.rstrip PyStr.newline body) as [|a r] eqn:E.
  - destruct (Ascii.eqb c PyStr.newline) eqn:Ec; [discriminate|].
    intros [= <-].
    change (PyStr.rstrip PyStr.newline (EmptyString +:+ String PyStr.newline EmptyString))
      with EmptyString.
    reflexivity.
  - intros [= Hb]. rewrite IH by congruence. by rewrite <- Hb.
Qed.

(* ------------------------------------------------------------------ *)
(** ** The spreadsheet handler *)

Lemma bind_ext_in {A B} (f g : A → list B) (l : list A) :
  (∀ x, x ∈ l → f x = g x) → l ≫= f = l ≫= g.
Proof.
  induction l as [|x l IH]; intros H; [done|].
  rewrite !bind_cons, H by left. f_equal. apply IH. intros y Hy. apply H. by right.
Qed.

Lemma bind_fmap {A B C} (h : A → B) (f : B → list C) (l : list A) :
  (h <$> l) ≫= f = l ≫= (λ x, f (h x)).
Proof.
  induction l as [|x l IH]; [done|]. by rewrite fmap_cons, !bind_cons, IH.
Qed.

Lemma cell_val_text (c : cell) : cell_val c = Expected.cell_text c.
Proof. by destruct c as [| | |[]|]. Qed.

(** With distinct titles, [wb[title]] is the sheet declared under it. *)
Lemma getitem_declared (wb : Workbook) (sh : string) (ws : Iter (list cell)) :
  NoDup (sheetnames wb) → (sh, ws) ∈ wb → getitem wb sh = Some ws.
Proof.
  unfold sheetnames. induction wb as [|[title ws'] wb IH]; intros Hnd Hin.
  - by apply elem_of_nil in Hin.
  - rewrite fmap_cons in Hnd. apply NoDup_cons in Hnd as [Hfresh Hnd]. simpl.
    apply elem_of_cons in Hin as [[= -> ->] | Hin].
    + by rewrite String.eqb_refl.
    + rewrite str_eqb_false; [by apply IH|].
      intros ->. apply Hfresh. simpl.
      apply list_elem_of_fmap. by exists (sh, ws).
Qed.

Section Excel.

Variable W : World.
Variables (fp : string) (rx : Pattern).

Lemma excel_row_emits (sh : string) (i : Z) (row : list cell) (out : list Match) :
  excel_row rx fp sh i row out = (out ++ Expected.row_matches rx fp sh i row, Completed).
Proof.
  unfold excel_row. apply for_each_emits.
  intros [j c] _ out'. cbv zeta. by rewrite append_if_emits, cell_val_text.
Qed.

Lemma excel_sheet_emits (wb : Workbook) (sh : string) (ws : Iter (list cell))
    (out : list Match) :
  getitem wb sh = Some ws →
  finish ws = Exhausted →
  excel_sheet rx fp wb sh out
  = (out ++ ('(i, row) ← PyStr.enumerate 1 (yielded ws); Expected.row_matches rx fp sh i row), Completed).
Proof.
  intros Hget Hfin. unfold excel_sheet. rewrite Hget.
  rewrite for_iter_exhausted by done. simpl.
  apply for_each_emits. intros [i row] _ out'. apply excel_row_emits.
Qed.

Lemma search_excel_try_readable (wb : Workbook) (out : list Match) :
  load_workbook W fp = Some wb →
  NoDup (sheetnames wb) →
  (∀ sh ws, (sh, ws) ∈ wb → finish ws = Exhausted) →
  search_excel_try W rx fp out = (out ++ Expected.excel_matches rx fp wb, Completed).
Proof.
  intros Hload Hnd Hfin. unfold search_excel_try. rewrite Hload.
  rewrite (for_each_emits
             (λ sh, match getitem wb sh with
                    | Some ws => '(i, row) ← PyStr.enumerate 1 (yielded ws);
                                 Expected.row_matches rx fp sh i row
                    | None => []
                    end)).
  - f_equal. f_equal. unfold sheetnames, Expected.excel_matches.
    rewrite bind_fmap. apply bind_ext_in. intros [sh ws] Hin. simpl.
    by rewrite (getitem_declared wb sh ws).
  - intros sh Hsh out'. apply list_elem_of_fmap in Hsh as ([sh' ws] & -> & Hin).
    simpl. rewrite (getitem_declared wb sh' ws) by done.
    apply excel_sheet_emits; [by apply getitem_declared | by eapply Hfin].
Qed.

End Excel.

Lemma search_excel_file_unopened (W : World) (fp pattern : string) (flags : Z)
    (rx : Pattern) :
  re_compile W pattern flags = Some rx →
  load_workbook W fp = None →
  search_excel_file W fp pattern flags = Ok [].
Proof.
  intros Hrx Hload. unfold search_excel_file, search_excel_try.
  by rewrite (compile_Some _ _ _ _ Hrx), Hload.
Qed.

(** C6: for a workbook that is read to its end, the spreadsheet handler
    goes through the sheets in declared order, the rows from the top with
    1-based row numbers and the cells from the left with 1-based column
    numbers; the text of a cell (the empty string for an empty cell) is
    tested against the pattern, and every match carries the sheet name as
    [sheet], the row number as [line], the column number as [column] and no
    [page]. Sheet titles are distinct, as openpyxl keeps them. *)
Theorem excel_handler_matches (W : World) (fp pattern : string) (flags : Z)
    (rx : Pattern) (wb : Workbook) :
  load_workbook W fp = Some wb →
  NoDup (sheetnames wb) →
  (∀ sh ws, (sh, ws) ∈ wb → finish ws = Exhausted) →
  re_compile W pattern flags = Some rx →
  ∃ out,
    search_excel_file W fp pattern flags = Ok out
    ∧ out = Expected.excel_matches rx fp wb
    ∧ (∀ m, m ∈ out ↔
         ∃ (s r c : nat) (sh : string) (ws : Iter (list cell)) (row : list cell) (cl : cell),
           wb !! s = Some (sh, ws) ∧ yielded ws !! r = Some row ∧ row !! c = Some cl
           ∧ rx (match cl with CNone => "" | _ => str_cell cl end) = true
           ∧ m = {| path := fp; sheet := Some sh;
                    line := PyStr.str_int (Z.of_nat r + 1);
                    column := Some (PyStr.str_int (Z.of_nat c + 1));
                    page := None;
                    value := match cl with CNone => "" | _ => str_cell cl end;
                    x_pct := None; y_pct := None |}).
Proof.
  intros Hload Hnd Hfin Hrx. eexists. split; [|split; [reflexivity|]].
  - unfold search_excel_file. rewrite (compile_Some _ _ _ _ Hrx). simpl.
    by rewrite (search_excel_try_readable W fp rx wb []).
  - intros m. unfold Expected.excel_matches, Expected.row_matches.
    rewrite list_elem_of_bind. split.
    + intros ([sh ws] & Hm & Hin).
      apply list_elem_of_lookup in Hin as [s Hs].
      apply list_elem_of_bind in Hm as ([i row] & Hm & Hrow).
      apply elem_of_enumerate in Hrow as (r & Hr & ->).
      apply list_elem_of_bind in Hm as ([j cl] & Hm & Hcl).
      apply elem_of_enumerate in Hcl as (c & Hc & ->).
      rewrite <- cell_val_text in Hm.
      destruct (rx (cell_val cl)) eqn:E; [|by apply elem_of_nil in Hm].
      apply list_elem_of_singleton in Hm as ->.
      exists s, r, c, sh, ws, row, cl. rewrite !(Z.add_comm 1). done.
    + intros (s & r & c & sh & ws & row & cl & Hs & Hr & Hc & E & ->).
      exists (sh, ws). split; [|by eapply list_elem_of_lookup_2].
      apply list_elem_of_bind. exists ((1 + Z.of_nat r)%Z, row).
      split; [|apply elem_of_enumerate; eauto].
      apply list_elem_of_bind. exists ((1 + Z.of_nat c)%Z, cl).
      split; [|apply elem_of_enumerate; eauto].
      rewrite <- cell_val_text. unfold cell_val. rewrite E, !(Z.add_comm 1).
      by apply list_elem_of_singleton.
Qed.

Lemma excel_handler_matches_witness :
  ∃ out,
    search_excel_file (Sample.world false) "book.xlsx" "beta" 0 = Ok out
    ∧ ((λ m, (sheet m, line m, column m)) <$> out)
      = [(Some "Sheet1", "3", Some "2"); (Some "Totals", "1", Some "1")].
Proof.
  destruct (excel_handler_matches (Sample.world false) "book.xlsx" "beta" 0
              (λ s, PyStr.contains s "beta") Sample.book)
    as (out & Hout & -> & _).
  - reflexivity.
  - apply (bool_decide_unpack (NoDup (sheetnames Sample.book))). vm_compute. exact I.
  - intros sh ws Hin. unfold Sample.book in Hin.
    repeat (apply elem_of_cons in Hin as [[= -> ->] | Hin]; [reflexivity|]).
    by apply elem_of_nil in Hin.
  - reflexivity.
  - eexists. split; [exact Hout | reflexivity].
Defined.

(* ------------------------------------------------------------------ *)
(** ** The PDF handler *)

(** Binary64 multiplication commutes: [(x0 / page_width) * 100], as the
    source writes it, is [100 * (x0 / page_width)]. *)
Lemma SFmul_comm (x y : spec_float) : SFmul prec emax x y = SFmul prec emax y x.
Proof.
  destruct x as [sx|sx| |sx mx ex], y as [sy|sy| |sy my ey]; simpl; try reflexivity;
    try (rewrite (xorb_comm sx sy); reflexivity).
  by rewrite (xorb_comm sx sy), (Pos.mul_comm mx my), (Z.add_comm ex ey).
Qed.

Lemma float_mul_comm (x y : float) : (x * y)%float = (y * x)%float.
Proof.
  rewrite <- (SF2Prim_Prim2SF (x * y)), <- (SF2Prim_Prim2SF (y * x)).
  by rewrite !mul_spec, SFmul_comm.
Qed.

Lemma truediv_nonzero (a b : float) :
  PrimFloat.eqb b 0 = false → PyFloat.truediv a b = Some (a / b)%float.
Proof. intros H. unfold PyFloat.truediv. by rewrite H. Qed.

Section Pdf.

Variable W : World.
Variables (fp : string) (rx : Pattern) (reported : string).

Lemma pdf_word_emits (page_num : Z) (pg : Page) (w : Word) (out : list Match) :
  PrimFloat.eqb (rect_width pg) 0 = false →
  PrimFloat.eqb (rect_height pg) 0 = false →
  pdf_word rx reported page_num pg w out = (out ++ Expected.word_matches rx reported page_num pg w, Completed).
Proof.
  intros Hw Hh. unfold pdf_word, Expected.word_matches.
  destruct (rx (word w)); [|by rewrite app_nil_r].
  cbv zeta. rewrite (truediv_nonzero _ _ Hw), (truediv_nonzero _ _ Hh).
  unfold Expected.percent.
  by rewrite (float_mul_comm (x0 w / rect_width pg)), (float_mul_comm (y0 w / rect_height pg)).
Qed.

Lemma pdf_page_emits (page_num : Z) (pg : Page) (out : list Match) :
  Expected.page_readable pg →
  pdf_page rx reported page_num pg out
  = (out ++ (w ← default [] (get_text_words pg); Expected.word_matches rx reported page_num pg w), Completed).
Proof.
  intros ([words Hwords] & Hw & Hh). unfold pdf_page. rewrite Hwords. simpl.
  apply for_each_emits. intros w _ out'. by apply pdf_word_emits.
Qed.

End Pdf.

Lemma search_pdf_try_readable (W : World) (rx : Pattern) (fp : string)
    (fp_alias : option string) (doc : Document) (out : list Match) :
  fitz_open W fp = Some doc →
  finish doc = Exhausted →
  (∀ pg, pg ∈ yielded doc → Expected.page_readable pg) →
  search_pdf_try W rx fp fp_alias out
  = (out ++ Expected.pdf_matches rx (default fp fp_alias) doc, Completed).
Proof.
  intros Hopen Hfin Hpages. unfold search_pdf_try. cbv zeta. rewrite Hopen.
  rewrite for_iter_exhausted by done. simpl.
  replace (match fp_alias with Some a => a | None => fp end)
    with (default fp fp_alias) by by destruct fp_alias.
  apply for_each_emits. intros [page_num pg] Hin out'.
  apply pdf_page_emits. apply Hpages.
  apply elem_of_enumerate in Hin as (i & Hi & _). by eapply list_elem_of_lookup_2.
Qed.

Lemma search_pdf_file_unopened (W : World) (fp pattern : string) (flags : Z)
    (fp_alias : option string) (rx : Pattern) :
  re_compile W pattern flags = Some rx →
  fitz_open W fp = None →
  search_pdf_file W fp pattern flags fp_alias = Ok [].
Proof.
  intros Hrx Hopen. unfold search_pdf_file, search_pdf_try.
  by rewrite (compile_Some _ _ _ _ Hrx), Hopen.
Qed.

(** C7, as stated, does not hold for the position: the source takes the
    quotient first, [(x0 / page_width) * 100], and the specification the
    product, [100 * x0 / page_width]. In binary64 the two differ by their
    last bits for some tokens, and the rounding to one decimal can then fall
    on either side: a token at x0 = 57.5 on a page 200 wide is reported at
    28.7, where the formula of the specification gives 28.8. *)
Lemma position_not_product_first :
  let pg := {| get_text_words := Some [Sample.token (115 / 2) 0 "beta" 0];
               rect_width := 200; rect_height := 100 |} in
  ∃ m, search_pdf_file (Sample.holding (iter_of [pg])) "plan.pdf" "beta" 0 None = Ok [m]
       ∧ x_pct m = Some (287 / 10)%float
       ∧ claimed_percent (115 / 2) 200 = (288 / 10)%float
       ∧ x_pct m ≠ Some (claimed_percent (115 / 2) 200).
Proof.
  intros pg.
  exists {| path := "plan.pdf"; sheet := None; line := "0"; column := None;
            page := Some "1"; value := "beta";
            x_pct := Some (287 / 10)%float; y_pct := Some 0%float |}.
  split; [vm_compute; reflexivity|]. split; [reflexivity|].
  split; [vm_compute; reflexivity|].
  cbn [x_pct]. intros H.
  apply (f_equal (λ o, match o with
                       | Some x => PrimFloat.eqb x (287 / 10)
                       | None => false
                       end)) in H.
  vm_compute in H. discriminate.
Qed.

(** C7, amended: for a PDF that is read to its end, every word token whose
    text the pattern matches gives one match, and every match comes from
    such a token: [page] is the 1-based page number, [line] the token's line
    index, [column] is absent, [value] is the token text, and the two
    positions are [(x0 / page_width) * 100] and [(y0 / page_height) * 100]
    computed in binary64 in that order, the quotient first (the product
    with 100 commutes), each rounded to one decimal as [round] does (x0 = 0
    gives 0.0; x0 = 100 on a page 200 wide gives 50.0; x0 = 57.5 on that
    page gives 28.7). The match is reported under the alias when one is
    supplied, under the path of the PDF otherwise. *)
Theorem pdf_handler_matches (W : World) (fp pattern : string) (flags : Z)
    (fp_alias : option string) (rx : Pattern) (doc : Document) :
  fitz_open W fp = Some doc →
  finish doc = Exhausted →
  (∀ pg, pg ∈ yielded doc → Expected.page_readable pg) →
  re_compile W pattern flags = Some rx →
  ∃ out,
    search_pdf_file W fp pattern flags fp_alias = Ok out
    ∧ out = Expected.pdf_matches rx (default fp fp_alias) doc
    ∧ (∀ m, m ∈ out ↔
         ∃ (p k : nat) (pg : Page) (words : list Word) (w : Word),
           yielded doc !! p = Some pg ∧ get_text_words pg = Some words
           ∧ words !! k = Some w ∧ rx (word w) = true
           ∧ m = {| path := match fp_alias with Some a => a | None => fp end;
                    sheet := None;
                    line := PyStr.str_int (line_no w);
                    column := None;
                    page := Some (PyStr.str_int (Z.of_nat p + 1));
                    value := word w;
                    x_pct := Some (PyFloat.round1 (x0 w / rect_width pg * 100));
                    y_pct := Some (PyFloat.round1 (y0 w / rect_height pg * 100)) |})
    ∧ (∀ a, fp_alias = Some a → ∀ m, m ∈ out → path m = a)
    ∧ Expected.percent 0 200 = 0%float
    ∧ Expected.percent 0 100 = 0%float
    ∧ Expected.percent 100 200 = 50%float
    ∧ Expected.percent (115 / 2) 200 = (287 / 10)%float
    ∧ Expected.percent 72 842 = (86 / 10)%float.
Proof.
  intros Hopen Hfin Hpages Hrx.
  assert (Hmem : ∀ m, m ∈ Expected.pdf_matches rx (default fp fp_alias) doc ↔
    ∃ (p k : nat) (pg : Page) (words : list Word) (w : Word),
      yielded doc !! p = Some pg ∧ get_text_words pg = Some words
      ∧ words !! k = Some w ∧ rx (word w) = true
      ∧ m = {| path := match fp_alias with Some a => a | None => fp end;
               sheet := None; line := PyStr.str_int (line_no w); column := None;
               page := Some (PyStr.str_int (Z.of_nat p + 1)); value := word w;
               x_pct := Some (PyFloat.round1 (x0 w / rect_width pg * 100));
               y_pct := Some (PyFloat.round1 (y0 w / rect_height pg * 100)) |}).
  { intros m. unfold Expected.pdf_matches, Expected.word_matches, Expected.percent.
    replace (match fp_alias with Some a => a | None => fp end)
      with (default fp fp_alias) by by destruct fp_alias.
    rewrite list_elem_of_bind. split.
    - intros ([page_num pg] & Hm & Hin).
      apply elem_of_enumerate in Hin as (p & Hp & ->).
      apply list_elem_of_bind in Hm as (w & Hm & Hw).
      destruct (get_text_words pg) as [words|] eqn:Hwords;
        [|by apply elem_of_nil in Hw].
      apply list_elem_of_lookup in Hw as [k Hk].
      destruct (rx (word w)) eqn:E; [|by apply elem_of_nil in Hm].
      apply list_elem_of_singleton in Hm as ->.
      exists p, k, pg, words, w. rewrite (Z.add_comm 1).
      by rewrite (float_mul_comm (x0 w / rect_width pg)),
                 (float_mul_comm (y0 w / rect_height pg)).
    - intros (p & k & pg & words & w & Hp & Hwords & Hk & E & ->).
      exists ((1 + Z.of_nat p)%Z, pg). split; [|apply elem_of_enumerate; eauto].
      apply list_elem_of_bind. exists w. rewrite Hwords. simpl.
      split; [|by eapply list_elem_of_lookup_2].
      rewrite E, (Z.add_comm 1).
      rewrite (float_mul_comm (x0 w / rect_width pg)),
              (float_mul_comm (y0 w / rect_height pg)).
      by apply list_elem_of_singleton. }
  eexists. split; [|split; [reflexivity|split; [exact Hmem|split]]].
  - unfold search_pdf_file. rewrite (compile_Some _ _ _ _ Hrx). simpl.
    by rewrite (search_pdf_try_readable W rx fp fp_alias doc []).
  - intros a -> m (p & k & pg & words & w & _ & _ & _ & _ & ->)%Hmem. done.
  - repeat split; vm_compute; reflexivity.
Qed.

(** The same at another tie: the quotient first gives 28.7, the product
    first 28.8. *)
Example percent_quotient_first :
  Expected.percent 115 400 = (287 / 10)%float
  ∧ claimed_percent 115 400 = (288 / 10)%float.
Proof. split; vm_compute; reflexivity. Qed.

Lemma pdf_handler_matches_witness :
  let plan : Document :=
    iter_of [ {| get_text_words := Some [Sample.token (115 / 2) (25 / 2) "beta" 0;
                                         Sample.token 0 0 "alpha" 1;
                                         Sample.token (100 / 3) (1 / 3) "beta" 2];
                 rect_width := 200; rect_height := 100 |};
              {| get_text_words := Some [Sample.token 72 72 "beta" 3];
                 rect_width := 595; rect_height := 842 |} ] in
  ∃ out,
    search_pdf_file (Sample.holding plan) "plan.pdf" "beta" 0 (Some "plan.docx") = Ok out
    ∧ ((λ m, (path m, page m, line m, value m)) <$> out)
      = [("plan.docx", Some "1", "0", "beta"); ("plan.docx", Some "1", "2", "beta");
         ("plan.docx", Some "2", "3", "beta")]
    ∧ ((λ m, (x_pct m, y_pct m)) <$> out)
      = [(Some (287 / 10)%float, Some (125 / 10)%float);
         (Some (167 / 10)%float, Some (3 / 10)%float);
         (Some (121 / 10)%float, Some (86 / 10)%float)].
Proof.
  intros plan.
  destruct (pdf_handler_matches (Sample.holding plan) "plan.pdf" "beta" 0
              (Some "plan.docx") (λ s, PyStr.contains s "beta") plan)
    as (out & Hout & -> & _).
  - reflexivity.
  - reflexivity.
  - intros pg Hin. unfold plan in Hin. simpl in Hin.
    repeat (apply elem_of_cons in Hin as [-> | Hin];
            [split; [by eexists | split; vm_compute; reflexivity]|]).
    by apply elem_of_nil in Hin.
  - reflexivity.
  - eexists. split; [exact Hout|]. split; vm_compute; reflexivity.
Defined.


(* ------------------------------------------------------------------ *)
(** ** The process pool *)

Section Pool.

Variable W : World.

(** A future holds the outcome of its task as soon as its position occurs
    in the schedule. *)
Lemma run_workers_lookup (tasks : list Task) (sched : list nat) (i : nat) :
  i ∈ sched → run_workers W tasks sched !! i = run_task W <$> tasks !! i.
Proof.
  unfold run_workers.
  assert (Hgen : ∀ done : gmap nat (result (list Match)),
    foldl (λ done j, match tasks !! j with
                     | Some t => <[j := run_task W t]> done
                     | None => done
                     end) done sched !! i
    = match tasks !! i with
      | Some t => if decide (i ∈ sched) then Some (run_task W t) else done !! i
      | None => done !! i
      end).
  { induction sched as [|j sched IH]; intros done; cbn [foldl].
    - destruct (tasks !! i); [|done]. by rewrite decide_False by apply not_elem_of_nil.
    - rewrite IH. destruct (tasks !! i) as [t|] eqn:Hi.
      + destruct (decide (i ∈ sched)) as [Hin|Hnin].
        * by rewrite decide_True by by right.
        * destruct (decide (i = j)) as [->|Hne].
          -- rewrite Hi, lookup_insert_eq. by rewrite decide_True by by left.
          -- rewrite decide_False by (by intros [?|?]%elem_of_cons).
             destruct (tasks !! j); [by rewrite lookup_insert_ne|done].
      + destruct (tasks !! j) eqn:Hj; [|done].
        rewrite lookup_insert_ne; [done|]. intros ->. congruence. }
  intros Hin. rewrite Hgen. destruct (tasks !! i); simpl.
  - by rewrite decide_True.
  - by rewrite lookup_empty.
Qed.

(** Reading the futures in the order of submission gives the aggregate of
    the tasks' outcomes, once every future is completed. *)
Lemma gather_completed (done : gmap nat (result (list Match))) (tasks : list Task)
    (first : nat) (results : list Match) :
  (∀ i t, tasks !! i = Some t → done !! (first + i) = Some (run_task W t)) →
  gather done (seq first (length tasks)) results
  = outcome_of (Expected.aggregate (run_task W <$> tasks) results).
Proof.
  revert first results. induction tasks as [|t tasks IH]; intros first results Hdone.
  - reflexivity.
  - cbn [length seq gather fmap list_fmap Expected.aggregate].
    specialize (Hdone 0 t eq_refl) as H0. rewrite Nat.add_0_r in H0. rewrite H0.
    destruct (run_task W t) as [ms|e]; [|done].
    apply IH. intros i t' Hi.
    replace (S first + i) with (first + S i) by lia. by apply Hdone.
Qed.

Lemma gather_scheduled (tasks : list Task) (sched : list nat) :
  sched ≡ₚ seq 0 (length tasks) →
  gather (run_workers W tasks sched) (seq 0 (length tasks)) []
  = outcome_of (Expected.aggregate (run_task W <$> tasks) []).
Proof.
  intros Hperm. apply gather_completed. intros i t Hi. simpl.
  rewrite run_workers_lookup, Hi; [done|].
  rewrite Hperm. apply elem_of_seq. apply lookup_lt_Some in Hi. lia.
Qed.

End Pool.

(* ------------------------------------------------------------------ *)
(** ** The aggregate of a query *)


(** The aggregate raises exactly when some output does, and then with the
    exception of one of them. *)
Lemma aggregate_raise (outputs : list (result (list Match))) (results : list Match) (e : exn) :
  Expected.aggregate outputs results = Raise e → Raise e ∈ outputs.
Proof.
  revert results. induction outputs as [|[ms|e'] outputs IH]; intros results; simpl.
  - discriminate.
  - intros H%IH. by right.
  - intros [= ->]. by left.
Qed.


Section Query.

Variable W : World.
Variables (st : Server) (session_id pattern : string) (ignore_case : bool).
Variable paths : list string.
Hypothesis Hreg : SESSIONS st !! session_id = Some paths.

Let tasks : list Task := (λ fp, (fp, pattern, query_flags ignore_case)) <$> paths.
Let outputs : list (result (list Match)) :=
  (λ fp, search_file W fp pattern (query_flags ignore_case)) <$> paths.


End Query.

(* ------------------------------------------------------------------ *)
(** ** The result table *)

Lemma init_db_lookup (st : Server) (session_id : string) :
  databases (init_db st session_id) !! session_id
  = Some (default Results.empty (databases st !! session_id)).
Proof.
  unfold init_db. simpl. destruct (databases st !! session_id) eqn:E; simpl.
  - done.
  - by rewrite lookup_insert_eq.
Qed.

Lemma init_db_lookup_ne (st : Server) (session_id other : string) :
  other ≠ session_id →
  databases (init_db st session_id) !! other = databases st !! other.
Proof.
  intros Hne. unfold init_db. simpl. destruct (databases st !! session_id); [done|].
  by rewrite lookup_insert_ne.
Qed.

Lemma added_rows_cons (last : Z) (pattern : string) (m : Match) (ms : list Match) :
  Expected.added_rows last pattern (m :: ms)
  = Expected.row_of (last + 1) pattern m :: Expected.added_rows (last + 1) pattern ms.
Proof.
  unfold Expected.added_rows. rewrite imap_cons. f_equal.
  - by rewrite Z.add_0_r.
  - apply imap_ext. intros k x _. simpl. f_equal. lia.
Qed.

(** The rows added for a list of matches differ by their ids only. *)
Lemma added_rows_data (a b : Z) (pattern : string) (ms : list Match) :
  Results.data <$> Expected.added_rows a pattern ms
  = Results.data <$> Expected.added_rows b pattern ms.
Proof.
  revert a b. induction ms as [|m ms IH]; intros a b; [done|].
  rewrite !added_rows_cons, !fmap_cons. f_equal. apply IH.
Qed.

Lemma length_added_rows (last : Z) (pattern : string) (ms : list Match) :
  length (Expected.added_rows last pattern ms) = length ms.
Proof. unfold Expected.added_rows. by rewrite length_imap. Qed.

(** Saving a list of matches appends one row per match, in order, with the
    ids that follow the table's last id; nothing else changes. *)
Lemma foldl_save_match (conn pattern : string) (results : list Match) (st : Server)
    (t : Results.table) :
  databases st !! conn = Some t →
  let st' := foldl (save_match conn pattern) st results in
  SESSIONS st' = SESSIONS st
  ∧ submitted st' = submitted st
  ∧ databases st'
    = <[conn := {| Results.rows := Results.rows t
                                   ++ Expected.added_rows (Results.last_id t) pattern results;
                   Results.last_id := (Results.last_id t + Z.of_nat (length results))%Z |}]>
        (databases st).
Proof.
  revert st t. induction results as [|m ms IH]; intros st t Ht; cbn [foldl].
  - split; [done|]. split; [done|]. simpl.
    rewrite app_nil_r, Z.add_0_r. symmetry. apply insert_id. by destruct t.
  - set (st1 := save_match conn pattern st m).
    set (t1 := insert_row t (Some pattern) (Some (path m)) (sheet m) (Some (line m))
                          (column m) (page m) (Some (value m))).
    assert (Ht1 : databases st1 !! conn = Some t1).
    { unfold st1, save_match, save_result. simpl. by rewrite lookup_alter_eq, Ht. }
    destruct (IH st1 t1 Ht1) as (HS & Hsub & Hdb).
    split; [by rewrite HS|]. split; [by rewrite Hsub|].
    rewrite Hdb. apply map_eq. intros k. destruct (decide (k = conn)) as [->|Hne].
    + rewrite !lookup_insert_eq. f_equal. unfold t1, insert_row. simpl.
      rewrite added_rows_cons, <- (assoc_L (++)). simpl. f_equal.
      lia.
    + rewrite !lookup_insert_ne by done.
      unfold st1, save_match, save_result. simpl. by rewrite lookup_alter_ne.
Qed.


(* ------------------------------------------------------------------ *)
(** ** Loops that an exception may leave *)

Lemma appends_upto_exact {B} (full : list B) (blk : Block (list B)) :
  (∀ out, blk out = (out ++ full, Completed)) → appends_upto full blk.
Proof. intros H out. exists full, Completed. by rewrite H. Qed.


Lemma for_each_upto {A B} (g : A → list B) (body : A → Block (list B)) (xs : list A) :
  (∀ x, x ∈ xs → appends_upto (g x) (body x)) →
  appends_upto (xs ≫= g) (for_each body xs).
Proof.
  induction xs as [|x xs IH]; intros Hbody out.
  - exists [], Completed. simpl. by rewrite app_nil_r.
  - cbn [for_each]. rewrite bind_cons.
    destruct (Hbody x (list_elem_of_here _ _) out) as (l & st & -> & Hpre & Hfull).
    destruct st.
    + rewrite Hfull by done.
      destruct (IH (λ y Hy, Hbody y (list_elem_of_further _ _ _ Hy)) (out ++ g x))
        as (l' & st' & -> & Hpre' & Hfull').
      exists (g x ++ l'), st'. rewrite (assoc_L (++)).
      split; [done|]. split; [by apply prefix_app|].
      intros Hst. by rewrite Hfull'.
    + exists l, Excepted. split; [done|]. split; [by apply prefix_app_r | discriminate].
Qed.

Lemma for_iter_upto {A B} (g : A → list B) (body : A → Block (list B)) (it : Iter A) :
  (∀ x, x ∈ yielded it → appends_upto (g x) (body x)) →
  appends_upto (yielded it ≫= g) (for_iter body it).
Proof.
  intros Hbody out. unfold for_iter.
  destruct (for_each_upto g body (yielded it) Hbody out) as (l & st & -> & Hpre & Hfull).
  destruct st.
  - exists l. eexists. split; [reflexivity|]. split; [done|]. intros _. by apply Hfull.
  - exists l, Excepted. done.
Qed.


Section Upto.

Variable W : World.
Variables (fp : string) (rx : Pattern).

Lemma search_text_try_upto (fh : Iter string) :
  open_text W fp = Some fh →
  appends_upto (Expected.text_matches rx fp (yielded fh)) (search_text_try W rx fp).
Proof.
  intros Hopen out. unfold search_text_try. rewrite Hopen.
  apply (for_iter_upto (λ '(i, ln), if rx ln then [text_match fp i ln] else [])
                       _ (PyStr.enumerate_iter 1 fh)).
  intros [i ln] _. apply appends_upto_exact. intros out'. apply append_if_emits.
Qed.






End Upto.

(* ------------------------------------------------------------------ *)
(** ** Loops that an exception stops *)

(** A loop whose body appends [g x] and raises at the items where [stops]
    holds has appended [g x] for the items up to and with the first of
    those. *)
Lemma for_each_through {A B} (stops : A → bool) (g : A → list B)
    (body : A → Block (list B)) (xs : list A) :
  (∀ x, x ∈ xs → ∀ out,
        body x out = (out ++ g x, if stops x then Excepted else Completed)) →
  ∀ out, (for_each body xs out).1 = out ++ (through_first stops xs ≫= g).
Proof.
  induction xs as [|x xs IH]; intros Hbody out; cbn [for_each through_first].
  - by rewrite app_nil_r.
  - rewrite Hbody by left. rewrite bind_cons. destruct (stops x).
    + simpl. f_equal. symmetry. apply app_nil_r.
    + rewrite IH; [by rewrite (assoc_L (++))|].
      intros y Hy. apply Hbody. by right.
Qed.

Lemma through_first_fmap {A B} (f : A → B) (stops : B → bool) (xs : list A) :
  through_first stops (f <$> xs) = f <$> through_first (λ x, stops (f x)) xs.
Proof.
  induction xs as [|x xs IH]; [done|]. cbn [through_first fmap list_fmap].
  destruct (stops (f x)); [done|]. by rewrite <- IH.
Qed.

Lemma through_first_ext_in {A} (p q : A → bool) (xs : list A) :
  (∀ x, x ∈ xs → p x = q x) → through_first p xs = through_first q xs.
Proof.
  induction xs as [|x xs IH]; intros H; [done|]. cbn [through_first].
  rewrite (H x) by left. destruct (q x); [done|]. f_equal. apply IH.
  intros y Hy. apply H. by right.
Qed.

Lemma elem_of_through_first {A} (p : A → bool) (xs : list A) (x : A) :
  x ∈ through_first p xs → x ∈ xs.
Proof.
  induction xs as [|y xs IH]; [done|]. cbn [through_first].
  intros [->|Hin]%elem_of_cons; [by left|]. right.
  destruct (p y); [by apply elem_of_nil in Hin | by apply IH].
Qed.

Lemma elem_of_upto_first {A} (p : A → bool) (xs : list A) (x : A) :
  x ∈ upto_first p xs → p x = false.
Proof.
  induction xs as [|y xs IH]; cbn [upto_first]; [by intros ?%elem_of_nil|].
  destruct (p y) eqn:E; [by intros ?%elem_of_nil|].
  intros [->|Hin]%elem_of_cons; [done | by apply IH].
Qed.

(** When nothing is appended at the item that stops the loop, what was
    appended comes from the items in front of it. *)
Lemma bind_through_upto {A B} (stops : A → bool) (g : A → list B) (xs : list A) :
  (∀ x, stops x = true → g x = []) →
  through_first stops xs ≫= g = upto_first stops xs ≫= g.
Proof.
  intros Hg. induction xs as [|x xs IH]; [done|]. cbn [through_first upto_first].
  destruct (stops x) eqn:E.
  - rewrite bind_cons, (Hg x E). done.
  - by rewrite !bind_cons, IH.
Qed.

Lemma upto_first_enumerate {A} (stops : A → bool) (start : Z) (xs : list A) :
  upto_first (λ '(_, x), stops x) (PyStr.enumerate start xs)
  = PyStr.enumerate start (upto_first stops xs).
Proof.
  revert start. induction xs as [|x xs IH]; intros start; [done|].
  cbn [PyStr.enumerate upto_first]. destruct (stops x); [done|].
  cbn [PyStr.enumerate]. by rewrite IH.
Qed.

Section Stops.

Variable W : World.
Variables (fp : string) (rx : Pattern).

(** A sheet gives the matches of the rows it delivers, and stops the search
    when its rows end with an exception. *)
Lemma excel_sheet_through (wb : Workbook) (sh : string) (ws : Iter (list cell))
    (out : list Match) :
  getitem wb sh = Some ws →
  excel_sheet rx fp wb sh out
  = (out ++ ('(i, row) ← PyStr.enumerate 1 (yielded ws); Expected.row_matches rx fp sh i row),
     if broken ws then Excepted else Completed).
Proof.
  intros Hget. unfold excel_sheet, for_iter, broken. rewrite Hget. simpl.
  rewrite (for_each_emits (λ '(i, row), Expected.row_matches rx fp sh i row)).
  - by destruct (finish ws).
  - intros [i row] _ out'. apply excel_row_emits.
Qed.

Lemma search_excel_try_reached (wb : Workbook) (out : list Match) :
  load_workbook W fp = Some wb →
  NoDup (sheetnames wb) →
  (search_excel_try W rx fp out).1
  = out ++ Expected.excel_matches rx fp (sheets_reached wb).
Proof.
  intros Hload Hnd. unfold search_excel_try. rewrite Hload.
  rewrite (for_each_through
             (λ sh, match getitem wb sh with Some ws => broken ws | None => true end)
             (λ sh, match getitem wb sh with
                    | Some ws => '(i, row) ← PyStr.enumerate 1 (yielded ws);
                                 Expected.row_matches rx fp sh i row
                    | None => []
                    end)).
  - f_equal. unfold sheetnames, sheets_reached, Expected.excel_matches.
    rewrite through_first_fmap.
    rewrite (through_first_ext_in _ (λ '(_, ws), broken ws)).
    + rewrite bind_fmap. apply bind_ext_in. intros [sh ws] Hin%elem_of_through_first.
      simpl. by rewrite (getitem_declared wb sh ws).
    + intros [sh ws] Hin. simpl. by rewrite (getitem_declared wb sh ws).
  - intros sh Hsh out'. unfold sheetnames in Hsh.
    apply list_elem_of_fmap in Hsh as ([sh' ws] & -> & Hin). simpl.
    rewrite (getitem_declared wb sh' ws) by done.
    apply excel_sheet_through. by apply getitem_declared.
Qed.

(** On a page with an empty rectangle the first matching word raises, and
    nothing is appended in front of it. *)
Lemma pdf_word_empty_rect (reported : string) (page_num : Z) (pg : Page) (w : Word)
    (out : list Match) :
  PrimFloat.eqb (rect_width pg) 0 || PrimFloat.eqb (rect_height pg) 0 = true →
  pdf_word rx reported page_num pg w out
  = (out, if rx (word w) then Excepted else Completed).
Proof.
  intros Hzero. unfold pdf_word, PyFloat.truediv. destruct (rx (word w)); [|done].
  cbv zeta. destruct (PrimFloat.eqb (rect_width pg) 0); [done|].
  simpl in Hzero. by rewrite Hzero.
Qed.

Lemma pdf_words_empty_rect (reported : string) (page_num : Z) (pg : Page)
    (words : list Word) (out : list Match) :
  PrimFloat.eqb (rect_width pg) 0 || PrimFloat.eqb (rect_height pg) 0 = true →
  for_each (pdf_word rx reported page_num pg) words out
  = (out, if existsb (λ w, rx (word w)) words then Excepted else Completed).
Proof.
  intros Hzero. induction words as [|w words IH]; [done|]. cbn [for_each existsb].
  rewrite pdf_word_empty_rect by done. by destruct (rx (word w)).
Qed.

(** A page gives the matches of its words, or stops the search and gives
    nothing. *)
Lemma pdf_page_through (reported : string) (page_num : Z) (pg : Page) (out : list Match) :
  pdf_page rx reported page_num pg out
  = (out ++ (if page_stops rx pg then []
             else w ← default [] (get_text_words pg);
                  Expected.word_matches rx reported page_num pg w),
     if page_stops rx pg then Excepted else Completed).
Proof.
  unfold pdf_page, page_stops. destruct (get_text_words pg) as [words|] eqn:Hwords.
  - destruct (PrimFloat.eqb (rect_width pg) 0 || PrimFloat.eqb (rect_height pg) 0)
      eqn:Hzero.
    + rewrite pdf_words_empty_rect by done. rewrite andb_true_r.
      destruct (existsb _ words) eqn:Hany; [by rewrite app_nil_r|].
      simpl. f_equal. rewrite <- (app_nil_r out) at 1. f_equal. symmetry.
      clear -Hany. induction words as [|w words IH]; [done|].
      cbn [existsb] in Hany. apply orb_false_elim in Hany as [Hw Hany].
      rewrite bind_cons. unfold Expected.word_matches at 1. rewrite Hw. simpl.
      by apply IH.
    + rewrite andb_false_r. simpl. apply orb_false_elim in Hzero as [Hw Hh].
      apply for_each_emits. intros w _ out'. by apply pdf_word_emits.
  - by rewrite app_nil_r.
Qed.

Lemma search_pdf_try_passed (fp_alias : option string) (doc : Document) (out : list Match) :
  fitz_open W fp = Some doc →
  (search_pdf_try W rx fp fp_alias out).1
  = out ++ Expected.pdf_matches rx (default fp fp_alias) (pages_passed rx doc).
Proof.
  intros Hopen. unfold search_pdf_try. cbv zeta. rewrite Hopen, for_iter_fst.
  replace (match fp_alias with Some a => a | None => fp end)
    with (default fp fp_alias) by by destruct fp_alias.
  cbn [PyStr.enumerate_iter yielded].
  rewrite (for_each_through
             (λ '(_, pg), page_stops rx pg)
             (λ '(page_num, pg),
                if page_stops rx pg then []
                else w ← default [] (get_text_words pg);
                     Expected.word_matches rx (default fp fp_alias) page_num pg w)).
  - f_equal. rewrite bind_through_upto.
    + unfold Expected.pdf_matches, pages_passed. cbn [yielded iter_of].
      rewrite <- upto_first_enumerate. apply bind_ext_in.
      intros [page_num pg] Hin%elem_of_upto_first. by rewrite Hin.
    + intros [page_num pg] Hstop. by rewrite Hstop.
  - intros [page_num pg] _ out'. apply pdf_page_through.
Qed.

End Stops.

(* ------------------------------------------------------------------ *)
(** ** Failures inside a handler, failures of the conversion *)

Example damaged_workbook_keeps_first_sheet :
  (search_excel_try (Sample.world false) (λ s, PyStr.contains s "beta") "damaged.xlsx" []).2
    = Excepted
  ∧ search_excel_file (Sample.world false) "damaged.xlsx" "beta" 0
    = Ok [excel_match "damaged.xlsx" "Sheet1" 1 1 "beta"].
Proof. split; reflexivity. Qed.

(** C2, as stated, does not hold: a handler whose [try] block is left by
    an exception returns what it had appended to [out], which need not be
    empty. The workbook ["damaged.xlsx"] has a match on its first sheet and
    a second sheet that cannot be read. *)
Lemma swallowed_failure_not_always_empty :
  ¬ (∀ (W : World) (fp pattern : string) (flags : Z) (rx : Pattern),
       re_compile W pattern flags = Some rx →
       ((search_text_try W rx fp []).2 = Excepted →
        search_text_file W fp pattern flags = Ok [])
       ∧ ((search_excel_try W rx fp []).2 = Excepted →
          search_excel_file W fp pattern flags = Ok [])
       ∧ ((search_pdf_try W rx fp None []).2 = Excepted →
          search_pdf_file W fp pattern flags None = Ok [])).
Proof.
  intros H.
  destruct (H (Sample.world false) "damaged.xlsx" "beta" 0%Z
              (λ s, PyStr.contains s "beta") eq_refl) as (_ & Hexcel & _).
  specialize (Hexcel eq_refl). vm_compute in Hexcel. discriminate.
Qed.

(** C2, amended: a failure inside the text, spreadsheet or PDF handler never
    leaves it. The handler returns a list in every case, with nothing that
    tells a failure from a run without one: the empty list when the file
    cannot be opened, and otherwise exactly the matches of what it had read
    when the failure came, which are all the lines the file delivered for
    the text handler, the sheets up to and with the one whose rows end in an
    exception for the spreadsheet handler, and the pages in front of the
    first page that cannot be searched for the PDF handler. A failure of
    the conversion of a convertible document leaves [search_file] as an
    exception. *)
Theorem handler_failures_are_swallowed (W : World) (fp pattern : string) (flags : Z)
    (rx : Pattern) :
  re_compile W pattern flags = Some rx →
  (∃ out, search_text_file W fp pattern flags = Ok out
          ∧ (open_text W fp = None → out = [])
          ∧ (∀ fh, open_text W fp = Some fh →
                   out = Expected.text_matches rx fp (yielded fh)))
  ∧ (∃ out, search_excel_file W fp pattern flags = Ok out
            ∧ (load_workbook W fp = None → out = [])
            ∧ (∀ wb, load_workbook W fp = Some wb → NoDup (sheetnames wb) →
                     out = Expected.excel_matches rx fp (sheets_reached wb)))
  ∧ (∀ fp_alias,
       ∃ out, search_pdf_file W fp pattern flags fp_alias = Ok out
              ∧ (fitz_open W fp = None → out = [])
              ∧ (∀ doc, fitz_open W fp = Some doc →
                        out = Expected.pdf_matches rx (default fp fp_alias)
                                                   (pages_passed rx doc)))
  ∧ (∀ e, ext_of fp = "docx" → convert_word_to_pdf W fp None = Raise e →
          search_file W fp pattern flags = Raise e)
  ∧ (∀ e, ext_of fp = "pptx" → convert_ppt_to_pdf W fp None = Raise e →
          search_file W fp pattern flags = Raise e).
Proof.
  intros Hrx. split; [|split; [|split; [|split]]].
  - unfold search_text_file. rewrite (compile_Some _ _ _ _ Hrx). simpl.
    destruct (search_text_try W rx fp []) as [out st] eqn:E.
    exists out. split; [done|]. split.
    + intros Hopen. unfold search_text_try in E. rewrite Hopen in E. congruence.
    + intros fh Hopen. pose proof (search_text_try_fst W fp rx fh [] Hopen) as H.
      by rewrite E in H.
  - unfold search_excel_file. rewrite (compile_Some _ _ _ _ Hrx). simpl.
    destruct (search_excel_try W rx fp []) as [out st] eqn:E.
    exists out. split; [done|]. split.
    + intros Hload. unfold search_excel_try in E. rewrite Hload in E. congruence.
    + intros wb Hload Hnd.
      pose proof (search_excel_try_reached W fp rx wb [] Hload Hnd) as H.
      by rewrite E in H.
  - intros fp_alias. unfold search_pdf_file. rewrite (compile_Some _ _ _ _ Hrx). simpl.
    destruct (search_pdf_try W rx fp fp_alias []) as [out st] eqn:E.
    exists out. split; [done|]. split.
    + intros Hopen. unfold search_pdf_try in E. rewrite Hopen in E. congruence.
    + intros doc Hopen.
      pose proof (search_pdf_try_passed W fp rx fp_alias doc [] Hopen) as H.
      by rewrite E in H.
  - intros e Hext Hconv. rewrite dispatch_docx by done. by rewrite Hconv.
  - intros e Hext Hconv. rewrite dispatch_pptx by done. by rewrite Hconv.
Qed.

Lemma handler_failures_are_swallowed_witness :
  let unlisted := {| get_text_words := None; rect_width := 200; rect_height := 100 |} in
  let torn : Document :=
    iter_of [ Sample.sheet_of_paper [Sample.token 100 50 "beta" 1];
              unlisted;
              Sample.sheet_of_paper [Sample.token 100 0 "beta" 0] ] in
  let W := Sample.holding torn in
  search_excel_file W "damaged.xlsx" "beta" 0
    = Ok [excel_match "damaged.xlsx" "Sheet1" 1 1 "beta"]
  ∧ (∃ out, search_pdf_file W "torn.pdf" "beta" 0 None = Ok out
            ∧ ((λ m, (page m, line m, value m)) <$> out) = [(Some "1", "1", "beta")])
  ∧ search_text_file W "missing.txt" "beta" 0 = Ok []
  ∧ search_file W "report.docx" "beta" 0 = Raise CalledProcessError.
Proof.
  intros unlisted torn W. split; [|split; [|split]].
  - destruct (handler_failures_are_swallowed W "damaged.xlsx" "beta" 0
                (λ s, PyStr.contains s "beta") eq_refl)
      as (_ & (out & Hout & _ & Hexact) & _).
    rewrite Hout, (Hexact Sample.damaged eq_refl); [reflexivity|].
    apply (bool_decide_unpack (NoDup (sheetnames Sample.damaged))). vm_compute. exact I.
  - destruct (handler_failures_are_swallowed W "torn.pdf" "beta" 0
                (λ s, PyStr.contains s "beta") eq_refl)
      as (_ & _ & Hpdf & _).
    destruct (Hpdf None) as (out & Hout & _ & Hexact).
    exists out. split; [exact Hout|]. rewrite (Hexact torn eq_refl). vm_compute. reflexivity.
  - destruct (handler_failures_are_swallowed W "missing.txt" "beta" 0
                (λ s, PyStr.contains s "beta") eq_refl)
      as ((out & Hout & Hnone & _) & _).
    rewrite Hout. f_equal. apply Hnone. reflexivity.
  - destruct (handler_failures_are_swallowed W "report.docx" "beta" 0
                (λ s, PyStr.contains s "beta") eq_refl)
      as (_ & _ & _ & Hword & _).
    apply Hword; reflexivity.
Defined.

(* ------------------------------------------------------------------ *)
(** ** Order of the matches *)









(* ------------------------------------------------------------------ *)
(** ** A pattern that does not compile *)





(** A session whose targets all fall outside the mapping never compiles the
    pattern: the query succeeds with no match. *)
Example bad_pattern_unnoticed :
  (search (Sample.world false) [0]
          {| SESSIONS := {[ "s2" := ["photo.png"] ]}; databases := ∅; submitted := [] |}
          "s2" "(" false).1
  = Returned (Body {| matches := []; version := VERSION; program := PROGRAM |}).
Proof. reflexivity. Qed.

(* ------------------------------------------------------------------ *)
(** ** The result store only grows *)

(** Saving matches on one connection leaves the rows of every table in
    place and the other tables as they are. *)
Lemma foldl_save_match_keeps (conn pattern : string) (results : list Match) (st : Server)
    (file : string) (t : Results.table) :
  databases st !! file = Some t →
  ∃ t', databases (foldl (save_match conn pattern) st results) !! file = Some t'
        ∧ Results.rows t `prefix_of` Results.rows t'.
Proof.
  revert st t. induction results as [|m ms IH]; intros st t Ht; [by exists t|].
  cbn [foldl]. destruct (decide (file = conn)) as [->|Hne].
  - edestruct (IH (save_match conn pattern st m)) as (t' & Ht' & Hpre).
    { unfold save_match, save_result. simpl. by rewrite lookup_alter_eq, Ht. }
    exists t'. split; [done|]. etrans; [|exact Hpre]. simpl. by apply prefix_app_r.
  - apply IH. unfold save_match, save_result. simpl. by rewrite lookup_alter_ne.
Qed.

Lemma foldl_save_match_other (conn pattern : string) (results : list Match) (st : Server)
    (file : string) :
  file ≠ conn →
  databases (foldl (save_match conn pattern) st results) !! file = databases st !! file.
Proof.
  intros Hne. revert st. induction results as [|m ms IH]; intros st; [done|].
  cbn [foldl]. rewrite IH. unfold save_match, save_result. simpl.
  by rewrite lookup_alter_ne.
Qed.

Lemma foldl_save_match_SESSIONS (conn pattern : string) (results : list Match) (st : Server) :
  SESSIONS (foldl (save_match conn pattern) st results) = SESSIONS st.
Proof. revert st. induction results as [|m ms IH]; intros st; [done|]. simpl. by rewrite IH. Qed.

Lemma foldl_save_match_submitted (conn pattern : string) (results : list Match)
    (st : Server) :
  submitted (foldl (save_match conn pattern) st results) = submitted st.
Proof. revert st. induction results as [|m ms IH]; intros st; [done|]. simpl. by rewrite IH. Qed.

Section DiskStore.

Variable W : World.
Variable connect : string → result string.

(** Once the file is open, [init_db] is the creation of the table in it. *)
Lemma disk_init_db_Ok (st : Server) (session_id file : string) :
  connect session_id = Ok file →
  Disk.init_db connect st session_id = Ok (file, init_db st file).
Proof. intros H. unfold Disk.init_db. by rewrite H. Qed.

Lemma disk_init_db_Raise (st : Server) (session_id : string) (e : exn) :
  connect session_id = Raise e → Disk.init_db connect st session_id = Raise e.
Proof. intros H. unfold Disk.init_db. by rewrite H. Qed.

(** What was saved is the whole list, or its first [k] items when the
    next [INSERT] raised. *)
Lemma save_all_saved (ins : Disk.inserts) (conn pattern : string) (st : Server)
    (results : list Match) :
  ∃ saved, saved `prefix_of` results
           ∧ (Disk.save_all ins conn pattern st results).2
             = foldl (save_match conn pattern) st saved
           ∧ ((Disk.save_all ins conn pattern st results).1 = None → saved = results).
Proof.
  unfold Disk.save_all. destruct ins as [|k e].
  - by exists results.
  - destruct (k <? length results)%nat.
    + exists (take k results). split; [apply prefix_take|]. by split.
    + by exists results.
Qed.

Lemma disk_search_returned (sched : list nat) (ins : Disk.inserts) (st st' : Server)
    (session_id pattern file : string) (ignore_case : bool) (paths : list string)
    (body : SearchBody) :
  SESSIONS st !! session_id = Some paths →
  connect session_id = Ok file →
  Disk.search W connect sched ins st session_id pattern ignore_case
    = (Returned (Body body), st') →
  st' = foldl (save_match file pattern)
              (submit_all (init_db st file)
                          ((λ fp, (fp, pattern, query_flags ignore_case)) <$> paths))
              (matches body).
Proof.
  intros Hreg Hconn. unfold Disk.search. rewrite Hreg, (disk_init_db_Ok _ _ _ Hconn).
  cbv zeta. destruct (gather _ _ _) as [results| |]; [|discriminate..].
  destruct (save_all_saved ins file pattern
              (submit_all (init_db st file)
                 ((λ fp, (fp, pattern, query_flags ignore_case)) <$> paths)) results)
    as (saved & _ & Hst & Hall).
  destruct (Disk.save_all _ _ _ _ _) as [[e|] st'']; [discriminate|].
  intros [= <- <-]. simpl in *. by rewrite Hst, Hall.
Qed.

(** What [/search] does for a registered session whose file can be opened
    once the pool has completed every task, in whatever order. *)
Lemma disk_search_registered (sched : list nat) (ins : Disk.inserts) (st : Server)
    (session_id pattern file : string) (ignore_case : bool) (paths : list string) :
  SESSIONS st !! session_id = Some paths →
  connect session_id = Ok file →
  sched ≡ₚ seq 0 (length paths) →
  let tasks := (λ fp, (fp, pattern, query_flags ignore_case)) <$> paths in
  Disk.search W connect sched ins st session_id pattern ignore_case
  = match Expected.aggregate
            ((λ fp, search_file W fp pattern (query_flags ignore_case)) <$> paths) [] with
    | Ok results =>
        match Disk.save_all ins file pattern (submit_all (init_db st file) tasks) results with
        | (Some e, st') => (Uncaught e, st')
        | (None, st') =>
            (Returned (Body {| matches := results; version := VERSION;
                               program := PROGRAM |}), st')
        end
    | Raise e => (Uncaught e, submit_all (init_db st file) tasks)
    end.
Proof.
  intros Hreg Hconn Hperm tasks. unfold Disk.search.
  rewrite Hreg, (disk_init_db_Ok _ _ _ Hconn). cbv zeta. fold tasks.
  rewrite gather_scheduled by (by unfold tasks; rewrite length_fmap).
  replace (run_task W <$> tasks)
    with ((λ fp, search_file W fp pattern (query_flags ignore_case)) <$> paths)
    by (unfold tasks; by rewrite <- list_fmap_compose).
  by destruct (Expected.aggregate _ []).
Qed.

(** Whatever a request does, the rows a table held are still its first
    rows. *)
Lemma disk_handle_keeps_rows (req : Disk.request) (st : Server) (file : string)
    (t : Results.table) :
  databases st !! file = Some t →
  ∃ t', databases (Disk.handle W connect req st) !! file = Some t'
        ∧ Results.rows t `prefix_of` Results.rows t'.
Proof.
  intros Ht. destruct req as [sid paths | sid | sched ins sid pattern ic]; simpl;
    [by exists t..|].
  unfold Disk.search. destruct (SESSIONS st !! sid) as [paths|]; [|by exists t].
  destruct (connect sid) as [conn|e] eqn:Hconn.
  - rewrite (disk_init_db_Ok _ _ _ Hconn). cbv zeta.
    assert (Hinit : databases (init_db st conn) !! file = Some t).
    { destruct (decide (file = conn)) as [->|Hne].
      - by rewrite init_db_lookup, Ht.
      - by rewrite init_db_lookup_ne. }
    destruct (gather _ _ _) as [results| |]; simpl; [|by exists t..].
    destruct (save_all_saved ins conn pattern
                (submit_all (init_db st conn)
                   ((λ fp, (fp, pattern, query_flags ic)) <$> paths)) results)
      as (saved & _ & Hst & _).
    destruct (Disk.save_all _ _ _ _ _) as [[e|] st'']; simpl in *; subst st'';
      by apply foldl_save_match_keeps.
  - rewrite (disk_init_db_Raise _ _ _ Hconn). by exists t.
Qed.

(** A request leaves every file alone but the one its identifier leads to. *)
Lemma disk_search_other (sched : list nat) (ins : Disk.inserts) (st : Server)
    (session_id pattern file : string) (ignore_case : bool) :
  connect session_id ≠ Ok file →
  databases (Disk.search W connect sched ins st session_id pattern ignore_case).2 !! file
  = databases st !! file.
Proof.
  intros Hne. unfold Disk.search. destruct (SESSIONS st !! session_id) as [paths|]; [|done].
  destruct (connect session_id) as [conn|e] eqn:Hconn.
  - rewrite (disk_init_db_Ok _ _ _ Hconn). cbv zeta.
    assert (Hfile : file ≠ conn) by (intros ->; by apply Hne).
    destruct (gather _ _ _) as [results| |]; simpl; [|by apply init_db_lookup_ne..].
    destruct (save_all_saved ins conn pattern
                (submit_all (init_db st conn)
                   ((λ fp, (fp, pattern, query_flags ignore_case)) <$> paths)) results)
      as (saved & _ & Hst & _).
    destruct (Disk.save_all _ _ _ _ _) as [[e|] st'']; simpl in *; subst st'';
      rewrite foldl_save_match_other by done; by apply init_db_lookup_ne.
  - by rewrite (disk_init_db_Raise _ _ _ Hconn).
Qed.

End DiskStore.

(** When every identifier names a file of its own that can be opened and
    written, the store as files is the store by session. *)
Lemma disk_search_plain (W : World) (sched : list nat) (st : Server)
    (session_id pattern : string) (ignore_case : bool) :
  Disk.search W Ok sched Disk.TakesAll st session_id pattern ignore_case
  = search W sched st session_id pattern ignore_case.
Proof.
  unfold Disk.search, search. destruct (SESSIONS st !! session_id); [|done].
  simpl. by destruct (gather _ _ _).
Qed.

(** C9: the result store of a session only grows. A query that returns has
    appended one row per match of its response, in order, each with the next
    id of the table's counter, to the file of the session. A second run of
    the query appends the matches of its own response behind them, whatever
    the first run or anything else has done to the files in between; when
    every target gives in the second run what it gave in the first and the
    store takes the rows, the response is the same and the table holds its
    former rows followed by two copies that differ by their ids only (twice
    as many rows as after the first run when the store was new). No request
    changes or removes a row
    that a table holds, also when the file cannot be opened or an [INSERT]
    fails. *)
Theorem result_store_append_only (W1 W2 : World) (connect : string → result string)
    (s1 s2 : list nat) (ins1 : Disk.inserts) (st st1 : Server)
    (session_id pattern file : string) (ignore_case : bool) (paths : list string)
    (body1 : SearchBody) :
  SESSIONS st !! session_id = Some paths →
  connect session_id = Ok file →
  Disk.search W1 connect s1 ins1 st session_id pattern ignore_case
    = (Returned (Body body1), st1) →
  let t0 := default Results.empty (databases st !! file) in
  let k := Z.of_nat (length (matches body1)) in
  (∃ t1, databases st1 !! file = Some t1
         ∧ Results.rows t1
           = Results.rows t0 ++ Expected.added_rows (Results.last_id t0) pattern (matches body1)
         ∧ Results.last_id t1 = (Results.last_id t0 + k)%Z)
  ∧ (∀ ins2 body2 st2,
       Disk.search W2 connect s2 ins2 st1 session_id pattern ignore_case
         = (Returned (Body body2), st2) →
       ∃ t2, databases st2 !! file = Some t2
             ∧ Results.rows t2
               = Results.rows t0
                 ++ Expected.added_rows (Results.last_id t0) pattern (matches body1)
                 ++ Expected.added_rows (Results.last_id t0 + k) pattern (matches body2)
             ∧ length (Results.rows t2)
               = length (Results.rows t0) + length (matches body1)
                 + length (matches body2))
  ∧ (s1 ≡ₚ seq 0 (length paths) →
     s2 ≡ₚ seq 0 (length paths) →
     (∀ fp, fp ∈ paths →
        search_file W2 fp pattern (query_flags ignore_case)
        = search_file W1 fp pattern (query_flags ignore_case)) →
     ∃ st2 t2,
       Disk.search W2 connect s2 Disk.TakesAll st1 session_id pattern ignore_case
         = (Returned (Body body1), st2)
       ∧ databases st2 !! file = Some t2
       ∧ Results.rows t2
         = Results.rows t0
           ++ Expected.added_rows (Results.last_id t0) pattern (matches body1)
           ++ Expected.added_rows (Results.last_id t0 + k) pattern (matches body1)
       ∧ length (Results.rows t2)
         = length (Results.rows t0) + 2 * length (matches body1)
       ∧ Results.data <$> Expected.added_rows (Results.last_id t0) pattern (matches body1)
         = Results.data <$> Expected.added_rows (Results.last_id t0 + k) pattern
                                                (matches body1))
  ∧ (∀ (W : World) (connect' : string → result string) (req : Disk.request)
       (st' : Server) (f : string) (t : Results.table),
       databases st' !! f = Some t →
       ∃ t', databases (Disk.handle W connect' req st') !! f = Some t'
             ∧ Results.rows t `prefix_of` Results.rows t').
Proof.
  intros Hreg Hconn Hrun t0 k.
  set (tasks := (λ fp, (fp, pattern, query_flags ignore_case)) <$> paths).
  pose proof (disk_search_returned W1 connect s1 ins1 st st1 session_id pattern file
                ignore_case paths body1 Hreg Hconn Hrun) as Hst1.
  fold tasks in Hst1.
  destruct (foldl_save_match file pattern (matches body1)
              (submit_all (init_db st file) tasks) t0 (init_db_lookup st file))
    as (HS1 & _ & Hdb1).
  rewrite <- Hst1 in HS1, Hdb1. simpl in HS1, Hdb1.
  set (t1 := {| Results.rows := Results.rows t0
                                ++ Expected.added_rows (Results.last_id t0) pattern
                                                       (matches body1);
                Results.last_id := (Results.last_id t0
                                    + Z.of_nat (length (matches body1)))%Z |}) in *.
  assert (Ht1 : databases st1 !! file = Some t1) by by rewrite Hdb1, lookup_insert_eq.
  assert (Hreg1 : SESSIONS st1 !! session_id = Some paths) by by rewrite HS1.
  assert (Hsecond : ∀ results st2,
    st2 = foldl (save_match file pattern) (submit_all (init_db st1 file) tasks) results →
    ∃ t2, databases st2 !! file = Some t2
          ∧ Results.rows t2
            = Results.rows t0
              ++ Expected.added_rows (Results.last_id t0) pattern (matches body1)
              ++ Expected.added_rows (Results.last_id t0 + k) pattern results
          ∧ length (Results.rows t2)
            = length (Results.rows t0) + length (matches body1) + length results).
  { intros results st2 ->.
    assert (Hinit : databases (submit_all (init_db st1 file) tasks) !! file = Some t1).
    { change (databases (init_db st1 file) !! file = Some t1).
      by rewrite init_db_lookup, Ht1. }
    destruct (foldl_save_match file pattern results
                (submit_all (init_db st1 file) tasks) t1 Hinit) as (_ & _ & Hdb2).
    eexists. split; [by rewrite Hdb2, lookup_insert_eq|]. simpl.
    split; [by rewrite <- (assoc_L (++))|].
    rewrite !length_app, !length_added_rows. lia. }
  split; [by exists t1|]. split; [|split].
  - intros ins2 body2 st2 Hrun2. apply Hsecond.
    by apply (disk_search_returned W2 connect s2 ins2 st1 st2 session_id pattern file
                ignore_case paths body2).
  - intros Hs1 Hs2 Hsame.
    rewrite (disk_search_registered W1 connect s1 ins1 st session_id pattern file
               ignore_case paths Hreg Hconn Hs1) in Hrun.
    rewrite (disk_search_registered W2 connect s2 Disk.TakesAll st1 session_id pattern file
               ignore_case paths Hreg1 Hconn Hs2).
    replace ((λ fp, search_file W2 fp pattern (query_flags ignore_case)) <$> paths)
      with ((λ fp, search_file W1 fp pattern (query_flags ignore_case)) <$> paths)
      by (apply list_fmap_ext; intros i fp Hfp; symmetry; apply Hsame;
          by eapply list_elem_of_lookup_2).
    destruct (Expected.aggregate _ []) as [results|e]; [|discriminate].
    assert (Hbody : body1 = {| matches := results; version := VERSION;
                               program := PROGRAM |}).
    { destruct (Disk.save_all ins1 _ _ _ _) as [[e|] st'']; [discriminate|].
      by injection Hrun as <- _. }
    cbn [Disk.save_all]. fold tasks.
    destruct (Hsecond results _ eq_refl) as (t2 & Ht2 & Hrows & Hlen).
    rewrite Hbody in Hrows, Hlen |- *. cbn [matches] in *.
    eexists _, t2. split; [reflexivity|]. split; [exact Ht2|]. split; [exact Hrows|].
    split; [lia | apply added_rows_data].
  - intros W connect' req st' f t Ht. by apply disk_handle_keeps_rows.
Qed.

Lemma result_store_append_only_witness :
  let W := Sample.world false in
  let first := Disk.search W Disk.flat [0; 1; 2; 3] Disk.TakesAll Sample.registry
                           "s1" "beta" false in
  (∃ t2, databases (Disk.search W Disk.flat [3; 2; 1; 0] Disk.TakesAll first.2
                                "s1" "beta" false).2 !! "results/s1.sqlite" = Some t2
         ∧ (Results.id <$> Results.rows t2) = [1; 2; 3; 4; 5; 6; 7; 8; 9; 10]%Z
         ∧ (Results.file_path <$> take 5 (Results.rows t2))
           = (Results.file_path <$> drop 5 (Results.rows t2)))
  ∧ (∃ t2, databases (Disk.search (Sample.holding (iter_of [])) Disk.flat [3; 2; 1; 0]
                                  Disk.TakesAll first.2 "s1" "beta" false).2
             !! "results/s1.sqlite" = Some t2
           ∧ (Results.id <$> Results.rows t2) = [1; 2; 3; 4; 5; 6; 7; 8]%Z).
Proof.
  intros W first.
  set (rx := λ s : string, PyStr.contains s "beta").
  set (body := {| matches := Expected.text_matches rx "notes.txt" (yielded Sample.notes)
                             ++ Expected.excel_matches rx "book.xlsx" Sample.book
                             ++ Expected.pdf_matches rx "paper.pdf" Sample.paper;
                  version := VERSION; program := PROGRAM |}).
  set (fewer := {| matches := Expected.text_matches rx "notes.txt" (yielded Sample.notes)
                              ++ Expected.excel_matches rx "book.xlsx" Sample.book;
                   version := VERSION; program := PROGRAM |}).
  split.
  - destruct (result_store_append_only W W Disk.flat [0; 1; 2; 3] [3; 2; 1; 0]
                Disk.TakesAll Sample.registry first.2 "s1" "beta" "results/s1.sqlite"
                false ["notes.txt"; "book.xlsx"; "paper.pdf"; "photo.png"] body)
      as (_ & _ & Hsame & _); [reflexivity | reflexivity | vm_compute; reflexivity |].
    destruct Hsame as (st2 & t2 & Hrun & Hdb & Hrows & _).
    + reflexivity.
    + apply (bool_decide_unpack ([3; 2; 1; 0] ≡ₚ seq 0 4)). vm_compute. exact I.
    + reflexivity.
    + exists t2. rewrite Hrun. split; [exact Hdb|]. rewrite Hrows.
      split; vm_compute; reflexivity.
  - destruct (result_store_append_only W (Sample.holding (iter_of [])) Disk.flat
                [0; 1; 2; 3] [3; 2; 1; 0]
                Disk.TakesAll Sample.registry first.2 "s1" "beta" "results/s1.sqlite"
                false ["notes.txt"; "book.xlsx"; "paper.pdf"; "photo.png"] body)
      as (_ & Hown & _); [reflexivity | reflexivity | vm_compute; reflexivity |].
    destruct (Hown Disk.TakesAll fewer
                (Disk.search (Sample.holding (iter_of [])) Disk.flat [3; 2; 1; 0]
                             Disk.TakesAll first.2 "s1" "beta" false).2)
      as (t2 & Hdb & Hrows & _); [vm_compute; reflexivity|].
    exists t2. split; [exact Hdb|]. rewrite Hrows. vm_compute. reflexivity.
Defined.

(* ================================================================== *)
(** * Further properties of the server *)

(* ------------------------------------------------------------------ *)
(** ** Registering targets *)

(** X1: [submit_targets] registers the list under the session identifier
    and replaces what was registered before; [get_targets] then answers
    with exactly that list when it fits the display limit, and answers for
    every other identifier as it did before. The result tables and the task
    log are not touched. *)
Theorem submit_then_get_targets (L : Z) (st : Server) (session_id : string)
    (paths : list string) :
  (Z.of_nat (length paths) ≤ L)%Z →
  get_targets L (submit_targets st session_id paths) session_id = Body paths
  ∧ (∀ other, other ≠ session_id →
       get_targets L (submit_targets st session_id paths) other = get_targets L st other)
  ∧ (∀ earlier,
       submit_targets (submit_targets st session_id earlier) session_id paths
       = submit_targets st session_id paths)
  ∧ databases (submit_targets st session_id paths) = databases st
  ∧ submitted (submit_targets st session_id paths) = submitted st.
Proof.
  intros Hfit. split; [|split; [|split; [|done]]].
  - unfold get_targets, submit_targets. simpl. rewrite lookup_insert_eq. cbv zeta.
    rewrite slice_to_nonneg, take_ge by lia.
    by rewrite (proj2 (Z.ltb_ge _ _) Hfit).
  - intros other Hne. unfold get_targets, submit_targets. simpl.
    by rewrite lookup_insert_ne.
  - intros earlier. unfold submit_targets. simpl. by rewrite insert_insert_eq.
Qed.

Lemma submit_then_get_targets_witness :
  get_targets 99 (submit_targets Sample.registry "s1" ["a.txt"; "b.pdf"]) "s1"
  = Body ["a.txt"; "b.pdf"].
Proof.
  destruct (submit_then_get_targets 99 Sample.registry "s1" ["a.txt"; "b.pdf"])
    as (Hget & _); [simpl; lia | exact Hget].
Defined.

(** X2: with a negative display limit the slice counts from the end:
    [get_targets] leaves out the last |L| paths, and always appends the
    entry "...and (N-L) more", which announces more paths than the session
    has. *)
Theorem get_targets_below_zero (L : Z) (st : Server) (session_id : string)
    (paths : list string) :
  SESSIONS st !! session_id = Some paths →
  (L < 0)%Z →
  let N := Z.of_nat (length paths) in
  get_targets L st session_id
  = Body (take (length paths - Z.to_nat (- L)) paths
          ++ ["...and " +:+ PyStr.str_int (N - L) +:+ " more"])
  ∧ (N < N - L)%Z.
Proof.
  intros Hreg HL N. split; [|lia].
  unfold get_targets. rewrite Hreg. cbv zeta. fold N.
  rewrite (proj2 (Z.ltb_lt L N)) by lia.
  unfold PyStr.slice_to. rewrite (proj2 (Z.leb_gt 0 L)) by lia.
  do 3 f_equal. lia.
Qed.

Lemma get_targets_below_zero_witness :
  get_targets (-3) Sample.registry "s1" = Body ["notes.txt"; "...and 7 more"].
Proof.
  destruct (get_targets_below_zero (-3) Sample.registry "s1"
              ["notes.txt"; "book.xlsx"; "paper.pdf"; "photo.png"]) as (Hget & _);
    [reflexivity | lia | exact Hget].
Defined.

(* ------------------------------------------------------------------ *)
(** ** The result tables *)

Lemma insert_row_consecutive (t : Results.table)
    (query file_path sheet line column page value : option string) :
  consecutive_ids t →
  consecutive_ids (insert_row t query file_path sheet line column page value).
Proof.
  intros [Hids Hlast]. unfold consecutive_ids, insert_row. simpl.
  rewrite length_app, fmap_app, Hids, Hlast. simpl.
  replace (length (Results.rows t) + 1) with (S (length (Results.rows t))) by lia.
  rewrite seqZ_S. split; [|lia]. by rewrite (Z.add_comm 1).
Qed.

(** Every table of the state has consecutive ids. *)
Lemma save_match_consecutive (conn pattern : string) (st : Server) (r : Match) :
  (∀ sid t, databases st !! sid = Some t → consecutive_ids t) →
  ∀ sid t, databases (save_match conn pattern st r) !! sid = Some t → consecutive_ids t.
Proof.
  intros Hall sid t. unfold save_match, save_result. simpl.
  destruct (decide (sid = conn)) as [->|Hne].
  - rewrite lookup_alter_eq. destruct (databases st !! conn) as [t0|] eqn:E; [|done].
    intros [= <-]. apply insert_row_consecutive. by eapply Hall.
  - rewrite lookup_alter_ne by done. apply Hall.
Qed.

Lemma foldl_save_match_consecutive (conn pattern : string) (results : list Match)
    (st : Server) :
  (∀ sid t, databases st !! sid = Some t → consecutive_ids t) →
  ∀ sid t, databases (foldl (save_match conn pattern) st results) !! sid = Some t →
           consecutive_ids t.
Proof.
  revert st. induction results as [|r results IH]; intros st Hall; [done|].
  simpl. apply IH. by apply save_match_consecutive.
Qed.

Lemma init_db_consecutive (st : Server) (session_id : string) :
  (∀ sid t, databases st !! sid = Some t → consecutive_ids t) →
  ∀ sid t, databases (init_db st session_id) !! sid = Some t → consecutive_ids t.
Proof.
  intros Hall sid t. destruct (decide (sid = session_id)) as [->|Hne].
  - rewrite init_db_lookup. destruct (databases st !! session_id) as [t0|] eqn:E; simpl.
    + intros [= <-]. by eapply Hall.
    + intros [= <-]. done.
  - rewrite init_db_lookup_ne by done. apply Hall.
Qed.

Lemma handle_consecutive (W : World) (req : request) (st : Server) :
  (∀ sid t, databases st !! sid = Some t → consecutive_ids t) →
  ∀ sid t, databases (handle W req st) !! sid = Some t → consecutive_ids t.
Proof.
  intros Hall. destruct req as [sid' paths | sid' | sched sid' pattern ic]; simpl; [done..|].
  unfold search. destruct (SESSIONS st !! sid') as [paths|]; [|done]. cbv zeta.
  pose proof (init_db_consecutive st sid' Hall) as Hinit.
  destruct (gather _ _ _) as [results| |]; simpl; [|done..].
  by apply foldl_save_match_consecutive.
Qed.

(** X4: the ids of a result table are 1, 2, 3, ... in insertion order, and
    so pairwise distinct, with the counter at the number of rows: if this
    holds of every table, it holds of every table after any sequence of
    requests, whatever the queries return and in whatever order the workers
    finish. *)
Theorem ids_stay_consecutive (W : World) (reqs : list request) (st : Server) :
  (∀ sid t, databases st !! sid = Some t → consecutive_ids t) →
  ∀ sid t, databases (serve W reqs st) !! sid = Some t →
    consecutive_ids t ∧ NoDup (Results.id <$> Results.rows t).
Proof.
  intros Hall sid t Ht.
  assert (Hcons : consecutive_ids t).
  { revert st Hall Ht. unfold serve.
    induction reqs as [|req reqs IH]; intros st Hall Ht; [by eapply Hall|].
    simpl in Ht. eapply IH; [|exact Ht]. by apply handle_consecutive. }
  split; [done|]. destruct Hcons as [-> _]. apply NoDup_seqZ.
Qed.

Lemma ids_stay_consecutive_witness :
  ∃ t, databases (serve (Sample.world false)
                        [Search [0; 1; 2; 3] "s1" "beta" false;
                         SubmitTargets "s2" ["notes.txt"];
                         Search [3; 2; 1; 0] "s1" "alpha" true]
                        Sample.registry) !! "s1" = Some t
       ∧ (Results.id <$> Results.rows t) = [1; 2; 3; 4; 5; 6; 7; 8]%Z
       ∧ NoDup (Results.id <$> Results.rows t).
Proof.
  eexists. split; [vm_compute; reflexivity|]. split; [reflexivity|].
  refine (proj2 (ids_stay_consecutive (Sample.world false)
                   [Search [0; 1; 2; 3] "s1" "beta" false;
                    SubmitTargets "s2" ["notes.txt"];
                    Search [3; 2; 1; 0] "s1" "alpha" true]
                   Sample.registry _ "s1" _ _)).
  - intros sid t Ht. simpl in Ht. by rewrite lookup_empty in Ht.
  - vm_compute. reflexivity.
Defined.

(** X5: a request changes at most one file of the store, the one its
    session identifier leads to: unless it is a query on an identifier that
    leads to [file], it leaves the table in [file] exactly as it was.
    Identifiers that lead to one file share its table; the table of any
    other is out of reach. *)
Theorem query_writes_its_file_only (W : World) (connect : string → result string)
    (req : Disk.request) (st : Server) (file : string) :
  (∀ sched ins session_id pattern ignore_case,
     req = Disk.Search sched ins session_id pattern ignore_case →
     connect session_id ≠ Ok file) →
  databases (Disk.handle W connect req st) !! file = databases st !! file.
Proof.
  intros Hreq. destruct req as [sid paths | sid | sched ins sid pattern ic]; simpl;
    [done..|].
  apply disk_search_other. by eapply Hreq.
Qed.

Lemma query_writes_its_file_only_witness :
  let st := {| SESSIONS := {[ "s1" := ["notes.txt"]; "./s1" := ["book.xlsx"];
                              "s2" := ["notes.txt"] ]};
               databases := ∅; submitted := [] |} in
  let W := Sample.world false in
  let after := Disk.handle W Disk.flat
                 (Disk.Search [0] Disk.TakesAll "./s1" "beta" false)
                 (Disk.handle W Disk.flat
                    (Disk.Search [0] Disk.TakesAll "s1" "beta" false) st) in
  databases after !! "results/s2.sqlite" = None
  ∧ ((λ t, Results.file_path <$> Results.rows t) <$> databases after !! "results/s1.sqlite")
    = Some [Some "notes.txt"; Some "book.xlsx"; Some "book.xlsx"].
Proof.
  intros st W after. split; [|vm_compute; reflexivity].
  unfold after.
  rewrite (query_writes_its_file_only W Disk.flat
             (Disk.Search [0] Disk.TakesAll "./s1" "beta" false) _ "results/s2.sqlite").
  - rewrite (query_writes_its_file_only W Disk.flat
               (Disk.Search [0] Disk.TakesAll "s1" "beta" false) st "results/s2.sqlite").
    + reflexivity.
    + intros sched ins sid pattern ic [= _ _ <- _ _]. discriminate.
  - intros sched ins sid pattern ic [= _ _ <- _ _]. discriminate.
Defined.


(* ------------------------------------------------------------------ *)
(** ** What a query does to the state *)

(** X6: a query on a registered session first opens the file of the
    session. When that fails the query ends with the exception and the state
    is as before: no task has been handed to the pool and no table exists.
    When it succeeds the query hands the pool exactly one task per target,
    in the order of the target list and with the query's pattern and flags,
    whether it then returns, fails or waits; the registry is as before and
    the file holds a table afterwards, even when nothing was found. *)
Theorem search_submits_every_target (W : World) (connect : string → result string)
    (sched : list nat) (ins : Disk.inserts) (st : Server)
    (session_id pattern : string) (ignore_case : bool) (paths : list string) :
  SESSIONS st !! session_id = Some paths →
  match connect session_id with
  | Raise e =>
      Disk.search W connect sched ins st session_id pattern ignore_case = (Uncaught e, st)
  | Ok file =>
      let st' := (Disk.search W connect sched ins st session_id pattern ignore_case).2 in
      submitted st'
      = submitted st ++ ((λ fp, (fp, pattern, if ignore_case then 2%Z else 0%Z)) <$> paths)
      ∧ SESSIONS st' = SESSIONS st
      ∧ is_Some (databases st' !! file)
  end.
Proof.
  intros Hreg. unfold Disk.search. rewrite Hreg.
  destruct (connect session_id) as [file|e] eqn:Hconn.
  - rewrite (disk_init_db_Ok _ _ _ _ Hconn). cbv zeta.
    set (tasks := (λ fp, (fp, pattern, query_flags ignore_case)) <$> paths).
    assert (Htasks : tasks = (λ fp, (fp, pattern, if ignore_case then 2%Z else 0%Z)) <$> paths)
      by by destruct ignore_case.
    assert (Hinit : is_Some (databases (submit_all (init_db st file) tasks) !! file)).
    { change (is_Some (databases (init_db st file) !! file)).
      rewrite init_db_lookup. by eexists. }
    destruct Hinit as [t Ht]. rewrite <- Htasks.
    destruct (gather _ _ _) as [results| |]; cbn [snd]; [|by eauto..].
    destruct (save_all_saved ins file pattern (submit_all (init_db st file) tasks) results)
      as (saved & _ & Hst & _).
    destruct (foldl_save_match_keeps file pattern saved _ file t Ht) as (t' & Ht' & _).
    destruct (Disk.save_all _ _ _ _ _) as [[e|] st'']; cbn [snd] in Hst |- *; subst st'';
      rewrite foldl_save_match_submitted, foldl_save_match_SESSIONS; by eauto.
  - by rewrite (disk_init_db_Raise _ _ _ _ Hconn).
Qed.

Lemma search_submits_every_target_witness :
  let st := {| SESSIONS := {[ "s1" := ["notes.txt"; "photo.png"];
                              "a/b" := ["notes.txt"] ]};
               databases := ∅; submitted := [] |} in
  submitted (Disk.search (Sample.world false) Disk.flat [] Disk.TakesAll st
                         "s1" "beta" true).2
    = [("notes.txt", "beta", 2%Z); ("photo.png", "beta", 2%Z)]
  ∧ Disk.search (Sample.world false) Disk.flat [0] Disk.TakesAll st "a/b" "beta" false
    = (Uncaught OperationalError, st).
Proof.
  intros st. split.
  - pose proof (search_submits_every_target (Sample.world false) Disk.flat [] Disk.TakesAll
                  st "s1" "beta" true ["notes.txt"; "photo.png"] eq_refl) as H.
    exact (proj1 H).
  - exact (search_submits_every_target (Sample.world false) Disk.flat [0] Disk.TakesAll
             st "a/b" "beta" false ["notes.txt"] eq_refl).
Defined.




(* ------------------------------------------------------------------ *)
(** ** What [search_file] can raise, and when it does nothing *)

Lemma text_raise_inv (W : World) (fp pattern : string) (flags : Z) (e : exn) :
  search_text_file W fp pattern flags = Raise e →
  e = re_error ∧ re_compile W pattern flags = None.
Proof.
  unfold search_text_file, compile. destruct (re_compile W pattern flags) as [rx|]; simpl.
  - by destruct (search_text_try W rx fp []).
  - by intros [= <-].
Qed.

Lemma excel_raise_inv (W : World) (fp pattern : string) (flags : Z) (e : exn) :
  search_excel_file W fp pattern flags = Raise e →
  e = re_error ∧ re_compile W pattern flags = None.
Proof.
  unfold search_excel_file, compile. destruct (re_compile W pattern flags) as [rx|]; simpl.
  - by destruct (search_excel_try W rx fp []).
  - by intros [= <-].
Qed.

Lemma pdf_raise_inv (W : World) (fp pattern : string) (flags : Z)
    (fp_alias : option string) (e : exn) :
  search_pdf_file W fp pattern flags fp_alias = Raise e →
  e = re_error ∧ re_compile W pattern flags = None.
Proof.
  unfold search_pdf_file, compile. destruct (re_compile W pattern flags) as [rx|]; simpl.
  - by destruct (search_pdf_try W rx fp fp_alias []).
  - by intros [= <-].
Qed.

(** X9: [search_file] raises in two cases only: the pattern does not
    compile (and the path is one it handles), or the path is one it converts
    and the conversion failed. A file that is missing, unreadable or corrupt
    never makes it raise. *)
Theorem search_file_raises_only (W : World) (fp pattern : string) (flags : Z) (e : exn) :
  search_file W fp pattern flags = Raise e →
  (e = re_error ∧ re_compile W pattern flags = None ∧ handled fp = true)
  ∨ (converted fp = true
     ∧ (convert_word_to_pdf W fp None = Raise e ∨ convert_ppt_to_pdf W fp None = Raise e)).
Proof.
  unfold search_file, handled, converted. cbv zeta.
  destruct (PyStr.in_tuple (ext_of fp) ["xlsx"; "xlsm"; "xls"]); cbn [negb andb orb].
  { intros [-> Hrx]%excel_raise_inv. by left. }
  destruct (PyStr.contains "docx" (ext_of fp)); cbn [negb andb orb].
  { destruct (convert_word_to_pdf W fp None) as [pdf_fp|e'] eqn:Hconv;
      cbn [mbind result_bind].
    - intros [-> Hrx]%pdf_raise_inv. by left.
    - intros [= ->]. right. split; [done|]. by left. }
  destruct (PyStr.contains "pptx" (ext_of fp)); cbn [negb andb orb].
  { destruct (convert_ppt_to_pdf W fp None) as [pdf_fp|e'] eqn:Hconv;
      cbn [mbind result_bind].
    - intros [-> Hrx]%pdf_raise_inv. by left.
    - intros [= ->]. right. split; [done|]. by right. }
  destruct (String.eqb (ext_of fp) "pdf"); cbn [negb andb orb].
  { intros [-> Hrx]%pdf_raise_inv. by left. }
  destruct (PyStr.in_tuple (ext_of fp) ["txt"; "py"; "md"; "csv"]); cbn [negb andb orb].
  { intros [-> Hrx]%text_raise_inv. by left. }
  discriminate.
Qed.

Lemma search_file_raises_only_witness :
  (re_error = re_error
   ∧ re_compile (Sample.world false) "(" 0 = None ∧ handled "notes.txt" = true)
  ∨ (converted "notes.txt" = true
     ∧ (convert_word_to_pdf (Sample.world false) "notes.txt" None = Raise re_error
        ∨ convert_ppt_to_pdf (Sample.world false) "notes.txt" None = Raise re_error)).
Proof.
  apply (search_file_raises_only (Sample.world false) "notes.txt" "(" 0 re_error).
  reflexivity.
Defined.





(** With a pattern that compiles, a path that is not converted gives a
    list, whatever the state of the file. *)
Lemma search_file_returns (W : World) (fp pattern : string) (flags : Z) (rx : Pattern) :
  re_compile W pattern flags = Some rx →
  converted fp = false →
  ∃ ms, search_file W fp pattern flags = Ok ms.
Proof.
  intros Hrx. unfold converted, search_file. cbv zeta.
  assert (Hexcel : ∃ ms, search_excel_file W fp pattern flags = Ok ms).
  { unfold search_excel_file. rewrite (compile_Some _ _ _ _ Hrx). simpl.
    destruct (search_excel_try W rx fp []). by eexists. }
  assert (Hpdf : ∃ ms, search_pdf_file W fp pattern flags None = Ok ms).
  { unfold search_pdf_file. rewrite (compile_Some _ _ _ _ Hrx). simpl.
    destruct (search_pdf_try W rx fp None []). by eexists. }
  assert (Htext : ∃ ms, search_text_file W fp pattern flags = Ok ms).
  { unfold search_text_file. rewrite (compile_Some _ _ _ _ Hrx). simpl.
    destruct (search_text_try W rx fp []). by eexists. }
  destruct (PyStr.in_tuple (ext_of fp) ["xlsx"; "xlsm"; "xls"]); [done|].
  cbn [negb andb]. intros Hconv. apply orb_false_elim in Hconv as [-> ->].
  destruct (String.eqb (ext_of fp) "pdf"); [done|].
  destruct (PyStr.in_tuple (ext_of fp) ["txt"; "py"; "md"; "csv"]); [done|].
  by eexists.
Qed.

(** X11: with a pattern that compiles, a query on a session none of whose
    targets is converted returns a response as soon as the file of the
    session can be opened and takes the rows: missing, unreadable or corrupt
    targets only make it return fewer matches. When an [INSERT] raises
    instead, the query ends with that exception, the response is lost, and
    the rows saved before it stay in the file. *)
Theorem query_survives_bad_files (W : World) (connect : string → result string)
    (sched : list nat) (st : Server)
    (session_id pattern file : string) (ignore_case : bool) (paths : list string)
    (rx : Pattern) :
  SESSIONS st !! session_id = Some paths →
  sched ≡ₚ seq 0 (length paths) →
  re_compile W pattern (query_flags ignore_case) = Some rx →
  Forall (λ fp, converted fp = false) paths →
  connect session_id = Ok file →
  ∃ results,
    (∃ st', Disk.search W connect sched Disk.TakesAll st session_id pattern ignore_case
            = (Returned (Body {| matches := results; version := VERSION;
                                 program := PROGRAM |}), st'))
    ∧ ∀ k e, k < length results →
        ∃ st' t,
          Disk.search W connect sched (Disk.FailsAfter k e) st session_id pattern ignore_case
            = (Uncaught e, st')
          ∧ databases st' !! file = Some t
          ∧ let t0 := default Results.empty (databases st !! file) in
            Results.rows t
            = Results.rows t0
              ++ Expected.added_rows (Results.last_id t0) pattern (take k results).
Proof.
  intros Hreg Hperm Hrx Hconv Hconn.
  set (tasks := (λ fp, (fp, pattern, query_flags ignore_case)) <$> paths).
  destruct (Expected.aggregate
              ((λ fp, search_file W fp pattern (query_flags ignore_case)) <$> paths) [])
    as [results|e] eqn:Hagg.
  - exists results. split.
    + rewrite (disk_search_registered W connect sched Disk.TakesAll st session_id pattern
                 file ignore_case paths Hreg Hconn Hperm), Hagg.
      by eexists.
    + intros k e Hk.
      rewrite (disk_search_registered W connect sched (Disk.FailsAfter k e) st session_id
                 pattern file ignore_case paths Hreg Hconn Hperm), Hagg.
      cbn [Disk.save_all]. rewrite (proj2 (Nat.ltb_lt _ _) Hk). fold tasks.
      destruct (foldl_save_match file pattern (take k results)
                  (submit_all (init_db st file) tasks)
                  _ (init_db_lookup st file)) as (_ & _ & Hdb).
      eexists _, _. split; [reflexivity|]. split; [by rewrite Hdb, lookup_insert_eq|].
      reflexivity.
  - apply aggregate_raise, list_elem_of_fmap in Hagg as (fp & Hfp & Hin).
    rewrite Forall_forall in Hconv.
    destruct (search_file_returns W fp pattern _ rx Hrx (Hconv fp Hin)) as [ms Hms].
    congruence.
Qed.

Lemma query_survives_bad_files_witness :
  let st := {| SESSIONS := {[ "s5" := ["missing.txt"; "damaged.xlsx"; "notes.txt"] ]};
               databases := ∅; submitted := [] |} in
  ∃ results,
    (Disk.search (Sample.world false) Disk.flat [0; 1; 2] Disk.TakesAll st
                 "s5" "beta" false).1
      = Returned (Body {| matches := results; version := VERSION; program := PROGRAM |})
    ∧ path <$> results = ["damaged.xlsx"; "notes.txt"]
    ∧ ∃ st' t,
        Disk.search (Sample.world false) Disk.flat [0; 1; 2]
                    (Disk.FailsAfter 1 OperationalError) st "s5" "beta" false
          = (Uncaught OperationalError, st')
        ∧ databases st' !! "results/s5.sqlite" = Some t
        ∧ Results.file_path <$> Results.rows t = [Some "damaged.xlsx"].
Proof.
  intros st.
  destruct (query_survives_bad_files (Sample.world false) Disk.flat [0; 1; 2] st
              "s5" "beta" "results/s5.sqlite" false
              ["missing.txt"; "damaged.xlsx"; "notes.txt"]
              (λ s, PyStr.contains s "beta"))
    as (results & (st' & Hrun) & Hfail).
  - reflexivity.
  - reflexivity.
  - reflexivity.
  - repeat constructor.
  - reflexivity.
  - assert (Hres : results
                   = [excel_match "damaged.xlsx" "Sheet1" 1 1 "beta";
                      text_match "notes.txt" 2 ("beta" +:+ Sample.nl)]).
    { assert (Hval : (Disk.search (Sample.world false) Disk.flat [0; 1; 2] Disk.TakesAll st
                                  "s5" "beta" false).1
                     = Returned (Body {| matches := [excel_match "damaged.xlsx" "Sheet1" 1 1 "beta";
                                                      text_match "notes.txt" 2 ("beta" +:+ Sample.nl)];
                                         version := VERSION; program := PROGRAM |}))
        by (vm_compute; reflexivity).
      rewrite Hrun in Hval. by injection Hval as ->. }
    exists results. split; [by rewrite Hrun|]. split; [by rewrite Hres|].
    destruct (Hfail 1 OperationalError) as (st'' & t & Hrun' & Hdb & Hrows);
      [rewrite Hres; simpl; lia|].
    exists st'', t. split; [exact Hrun'|]. split; [exact Hdb|].
    rewrite Hrows, Hres. vm_compute. reflexivity.
Defined.

(* ------------------------------------------------------------------ *)
(** ** What a match looks like *)

(** A block that only appends items satisfying [P]. *)
Lemma for_each_keeps {A B} (P : B → Prop) (body : A → Block (list B)) (xs : list A) :
  (∀ x out, Forall P out → Forall P (body x out).1) →
  ∀ out, Forall P out → Forall P (for_each body xs out).1.
Proof.
  intros Hbody. induction xs as [|x xs IH]; intros out Hout; [done|].
  cbn [for_each]. specialize (Hbody x out Hout).
  destruct (body x out) as [out' []]; simpl in *; [by apply IH | done].
Qed.

Lemma for_iter_keeps {A B} (P : B → Prop) (body : A → Block (list B)) (it : Iter A) :
  (∀ x out, Forall P out → Forall P (body x out).1) →
  ∀ out, Forall P out → Forall P (for_iter body it out).1.
Proof.
  intros Hbody out Hout. rewrite for_iter_fst. by apply for_each_keeps.
Qed.

Lemma append_if_keeps {B} (P : B → Prop) (test : bool) (x : B) (out : list B) :
  P x → Forall P out → Forall P (append_if test x out).1.
Proof.
  intros Hx Hout. unfold append_if. destruct test; simpl; [|done].
  apply Forall_app. split; [done|]. by constructor.
Qed.

Section Shapes.

Variable W : World.
Variables (rx : Pattern) (fp : string).

Lemma search_text_try_keeps (out : list Match) :
  Forall (λ m, path m = fp ∧ text_shaped m) out →
  Forall (λ m, path m = fp ∧ text_shaped m) (search_text_try W rx fp out).1.
Proof.
  intros Hout. unfold search_text_try. destruct (open_text W fp) as [fh|]; [|done].
  apply for_iter_keeps; [|done]. intros [i ln] out' Hout'.
  apply append_if_keeps; [|done]. by repeat split.
Qed.

Lemma search_excel_try_keeps (out : list Match) :
  Forall (λ m, path m = fp ∧ excel_shaped m) out →
  Forall (λ m, path m = fp ∧ excel_shaped m) (search_excel_try W rx fp out).1.
Proof.
  intros Hout. unfold search_excel_try. destruct (load_workbook W fp) as [wb|]; [|done].
  apply for_each_keeps; [|done]. intros sh out1 Hout1.
  unfold excel_sheet. destruct (getitem wb sh) as [ws|]; [|done].
  apply for_iter_keeps; [|done]. intros [i row] out2 Hout2.
  unfold excel_row. apply for_each_keeps; [|done]. intros [j c] out3 Hout3. cbv zeta.
  apply append_if_keeps; [|done]. unfold excel_shaped. simpl. by repeat split; eexists.
Qed.

Lemma search_pdf_try_keeps (fp_alias : option string) (out : list Match) :
  Forall (λ m, path m = default fp fp_alias ∧ pdf_shaped m) out →
  Forall (λ m, path m = default fp fp_alias ∧ pdf_shaped m)
         (search_pdf_try W rx fp fp_alias out).1.
Proof.
  intros Hout. unfold search_pdf_try. cbv zeta.
  replace (match fp_alias with Some a => a | None => fp end)
    with (default fp fp_alias) by by destruct fp_alias.
  destruct (fitz_open W fp) as [doc|]; [|done].
  apply for_iter_keeps; [|done]. intros [page_num pg] out1 Hout1.
  unfold pdf_page. destruct (get_text_words pg) as [words|]; [|done].
  apply for_each_keeps; [|done]. intros w out2 Hout2.
  unfold pdf_word. destruct (rx (word w)); [|done]. cbv zeta.
  destruct (PyFloat.truediv (x0 w) (rect_width pg)) as [qx|]; [|done].
  destruct (PyFloat.truediv (y0 w) (rect_height pg)) as [qy|]; [|done].
  simpl. apply Forall_app. split; [done|]. constructor; [|done].
  unfold pdf_shaped. simpl. by repeat split; eexists.
Qed.

End Shapes.

Lemma search_pdf_file_keeps (W : World) (fp pattern : string) (flags : Z)
    (fp_alias : option string) (out : list Match) :
  search_pdf_file W fp pattern flags fp_alias = Ok out →
  Forall (λ m, path m = default fp fp_alias ∧ pdf_shaped m) out.
Proof.
  unfold search_pdf_file, compile. destruct (re_compile W pattern flags) as [rx|]; [|done].
  simpl. pose proof (search_pdf_try_keeps W rx fp fp_alias [] (Forall_nil_2 _)) as H.
  destruct (search_pdf_try W rx fp fp_alias []) as [out' s]. by intros [= <-].
Qed.

(** X12: every match [search_file] returns for a path reports that very
    path, also when the content searched was a PDF converted from it, and
    fills its keys in one of three ways: a text match has no sheet, column,
    page or position; a spreadsheet match has a sheet and a column but no
    page or position; a PDF match has a page and both positions but no sheet
    or column. This holds whatever the state of the file. *)
Theorem search_file_matches_shaped (W : World) (fp pattern : string) (flags : Z)
    (out : list Match) :
  search_file W fp pattern flags = Ok out →
  Forall (λ m, path m = fp ∧ (text_shaped m ∨ excel_shaped m ∨ pdf_shaped m)) out.
Proof.
  unfold search_file. cbv zeta.
  destruct (PyStr.in_tuple (ext_of fp) ["xlsx"; "xlsm"; "xls"]).
  { unfold search_excel_file, compile.
    destruct (re_compile W pattern flags) as [rx|]; [|done]. simpl.
    pose proof (search_excel_try_keeps W rx fp [] (Forall_nil_2 _)) as H.
    destruct (search_excel_try W rx fp []) as [out' s]. intros [= <-].
    eapply Forall_impl; [exact H|]. intros m [? ?]. auto. }
  destruct (PyStr.contains "docx" (ext_of fp)).
  { destruct (convert_word_to_pdf W fp None) as [pdf_fp|e]; [|done].
    cbn [mbind result_bind]. intros H%search_pdf_file_keeps.
    eapply Forall_impl; [exact H|]. intros m [? ?]. auto. }
  destruct (PyStr.contains "pptx" (ext_of fp)).
  { destruct (convert_ppt_to_pdf W fp None) as [pdf_fp|e]; [|done].
    cbn [mbind result_bind]. intros H%search_pdf_file_keeps.
    eapply Forall_impl; [exact H|]. intros m [? ?]. auto. }
  destruct (String.eqb (ext_of fp) "pdf").
  { intros H%search_pdf_file_keeps.
    eapply Forall_impl; [exact H|]. intros m [? ?]. auto. }
  destruct (PyStr.in_tuple (ext_of fp) ["txt"; "py"; "md"; "csv"]).
  { unfold search_text_file, compile.
    destruct (re_compile W pattern flags) as [rx|]; [|done]. simpl.
    pose proof (search_text_try_keeps W rx fp [] (Forall_nil_2 _)) as H.
    destruct (search_text_try W rx fp []) as [out' s]. intros [= <-].
    eapply Forall_impl; [exact H|]. intros m [? ?]. auto. }
  intros [= <-]. constructor.
Qed.

Lemma search_file_matches_shaped_witness :
  ∃ out, search_file (Sample.world true) "main.docx" "beta" 0 = Ok out
         ∧ length out = 2
         ∧ Forall (λ m, path m = "main.docx") out.
Proof.
  eexists. split; [reflexivity|]. split; [reflexivity|].
  eapply Forall_impl.
  - apply (search_file_matches_shaped (Sample.world true) "main.docx" "beta" 0).
    reflexivity.
  - intros m [Hpath _]. exact Hpath.
Defined.


(* ------------------------------------------------------------------ *)
(** ** The extension of a path *)

Lemma split_dotless (s : string) : dotless s = true → PyStr.split "." s = [s].
Proof.
  induction s as [|c r IH]; [done|]. simpl.
  destruct (Ascii.eqb c "."); [done|]. simpl. intros Hr. by rewrite IH.
Qed.

Lemma split_dotted (s : string) :
  dotless s = false → ∃ h x t, PyStr.split "." s = h :: x :: t.
Proof.
  induction s as [|c r IH]; [done|]. simpl.
  destruct (Ascii.eqb c ".") eqn:Ec; simpl.
  - intros _. destruct (dotless r) eqn:Hd.
    + rewrite split_dotless by done. by eexists _, _, _.
    + destruct (IH eq_refl) as (h & x & t & ->). by eexists _, _, _.
  - intros Hr. destruct (IH Hr) as (h & x & t & ->). by eexists _, _, _.
Qed.

(** The last field of a string that continues after a dot is the last
    field of what follows the dot. *)
Lemma last_item_after_dot (a e : string) :
  PyStr.last_item (PyStr.split "." (a +:+ String "." e))
  = PyStr.last_item (PyStr.split "." e).
Proof.
  unfold PyStr.last_item. induction a as [|c a IH].
  - change (EmptyString +:+ String "." e) with (String "." e).
    cbn [PyStr.split]. change (Ascii.eqb "." ".") with true. cbv iota.
    destruct (dotless e) eqn:Hd.
    + by rewrite split_dotless.
    + by destruct (split_dotted e Hd) as (h & x & t & ->).
  - change (String c a +:+ String "." e) with (String c (a +:+ String "." e)).
    cbn [PyStr.split].
    assert (Hdot : dotless (a +:+ String "." e) = false).
    { clear. induction a as [|c' a IH]; [done|].
      change (String c' a +:+ String "." e) with (String c' (a +:+ String "." e)).
      simpl. rewrite IH. apply andb_false_r. }
    destruct (split_dotted _ Hdot) as (h & x & t & Hsplit).
    rewrite Hsplit in IH |- *. destruct (Ascii.eqb c "."); exact IH.
Qed.

Lemma lower_ascii_dot (c : ascii) :
  Ascii.eqb (PyStr.lower_ascii c) "." = Ascii.eqb c ".".
Proof. destruct c as [[] [] [] [] [] [] [] []]; reflexivity. Qed.

Lemma dotless_lower (s : string) : dotless (PyStr.lower s) = dotless s.
Proof.
  induction s as [|c r IH]; [done|]. simpl. by rewrite IH, lower_ascii_dot.
Qed.

Lemma lower_app (a b : string) :
  PyStr.lower (a +:+ b) = PyStr.lower a +:+ PyStr.lower b.
Proof.
  induction a as [|c a IH]; [done|].
  change (String c a +:+ b) with (String c (a +:+ b)). simpl. by rewrite IH.
Qed.

(** X13: [search_file] classifies a path by the text after its last dot,
    lower-cased, whatever precedes it (other dots included); a path
    without any dot is classified by its whole lower-cased text, so a file
    named [csv] or [PDF] is searched as text or as a PDF, and one named
    [doc] is converted. *)
Theorem ext_of_last_dot (a e : string) :
  (dotless e = true → ext_of (a +:+ String "." e) = PyStr.lower e)
  ∧ (dotless a = true → ext_of a = PyStr.lower a)
  ∧ dotless (ext_of a) = true.
Proof.
  split; [|split].
  - intros He. unfold ext_of. rewrite lower_app. cbn [PyStr.lower].
    change (PyStr.lower_ascii ".") with "."%char.
    rewrite last_item_after_dot, split_dotless by by rewrite dotless_lower.
    reflexivity.
  - intros Ha. unfold ext_of. by rewrite split_dotless by by rewrite dotless_lower.
  - unfold ext_of. generalize (PyStr.lower a). clear. intros s.
    induction s as [|c r IH]; [done|]. cbn [PyStr.split].
    destruct (Ascii.eqb c ".") eqn:Ec.
    + unfold PyStr.last_item in *. destruct (dotless r) eqn:Hd.
      * by rewrite split_dotless.
      * destruct (split_dotted r Hd) as (h & x & t & Hs). by rewrite Hs in IH |- *.
    + unfold PyStr.last_item in *. destruct (dotless r) eqn:Hd.
      * rewrite split_dotless by done. simpl. by rewrite Ec, Hd.
      * destruct (split_dotted r Hd) as (h & x & t & Hs). by rewrite Hs in IH |- *.
Qed.

Example ext_of_many_dots : ext_of "backup/2024.01.report.final.XLSX" = "xlsx".
Proof. vm_compute. reflexivity. Qed.

Example bare_name_is_converted (W : World) (pattern : string) (flags : Z) :
  search_file W "doc" pattern flags
  = (pdf_fp ← convert_word_to_pdf W "doc" None;
     search_pdf_file W pdf_fp pattern flags (Some "doc")).
Proof. reflexivity. Qed.

(* ------------------------------------------------------------------ *)
(** ** Conversion *)

Lemma convert_word_Ok (W : World) (input_path : string) (output_path : option string)
    (p : string) :
  convert_word_to_pdf W input_path output_path = Ok p →
  p = default_output W input_path output_path.
Proof.
  unfold convert_word_to_pdf. cbv zeta.
  destruct (String.eqb _ _); [destruct (word_save_as_pdf _ _ _) | destruct (subprocess_run _ _)];
    by intros [= <-].
Qed.

Lemma convert_ppt_Ok (W : World) (input_path : string) (output_path : option string)
    (p : string) :
  convert_ppt_to_pdf W input_path output_path = Ok p →
  p = default_output W input_path output_path.
Proof.
  unfold convert_ppt_to_pdf. cbv zeta.
  destruct (_ && _); [|destruct (subprocess_run _ _)]; by intros [= <-].
Qed.

(** X14: for a path it converts, [search_file] searches the PDF named
    after the document, its path up to the extension followed by [.pdf],
    and reports the matches under the document's own path; when the
    conversion fails it raises the converter's exception and searches
    nothing. *)
Theorem converted_document_is_searched_as_pdf (W : World) (fp pattern : string)
    (flags : Z) :
  converted fp = true →
  ∃ conversion,
    (conversion = convert_word_to_pdf W fp None
     ∨ conversion = convert_ppt_to_pdf W fp None)
    ∧ search_file W fp pattern flags
      = match conversion with
        | Ok _ => search_pdf_file W (splitext_root W fp +:+ ".pdf") pattern flags (Some fp)
        | Raise e => Raise e
        end.
Proof.
  unfold converted, search_file. cbv zeta.
  destruct (PyStr.in_tuple (ext_of fp) ["xlsx"; "xlsm"; "xls"]); [done|].
  cbn [negb andb]. destruct (PyStr.contains "docx" (ext_of fp)).
  - intros _. exists (convert_word_to_pdf W fp None). split; [by left|].
    destruct (convert_word_to_pdf W fp None) as [p|e] eqn:Hconv; [|done].
    apply convert_word_Ok in Hconv as ->. reflexivity.
  - cbn [orb]. intros Hppt. rewrite Hppt.
    exists (convert_ppt_to_pdf W fp None). split; [by right|].
    destruct (convert_ppt_to_pdf W fp None) as [p|e] eqn:Hconv; [|done].
    apply convert_ppt_Ok in Hconv as ->. reflexivity.
Qed.

Lemma converted_document_is_searched_as_pdf_witness :
  search_file (Sample.world true) "main.docx" "beta" 0
  = search_pdf_file (Sample.world true) "main.pdf" "beta" 0 (Some "main.docx").
Proof.
  destruct (converted_document_is_searched_as_pdf (Sample.world true) "main.docx" "beta" 0)
    as (conversion & [-> | ->] & Hsearch); [reflexivity | exact Hsearch | exact Hsearch].
Defined.

(* ------------------------------------------------------------------ *)
(** ** Page sizes *)

Lemma pdf_word_emits_if (rx : Pattern) (reported : string) (page_num : Z) (pg : Page)
    (w : Word) (out : list Match) :
  (rx (word w) = true →
   PrimFloat.eqb (rect_width pg) 0 = false ∧ PrimFloat.eqb (rect_height pg) 0 = false) →
  pdf_word rx reported page_num pg w out
  = (out ++ Expected.word_matches rx reported page_num pg w, Completed).
Proof.
  intros Hsize. destruct (rx (word w)) eqn:E.
  - destruct (Hsize eq_refl) as [Hw Hh]. by apply pdf_word_emits.
  - unfold pdf_word, Expected.word_matches. by rewrite E, app_nil_r.
Qed.

(** X16: the PDF handler reads the size of a page only for a word that
    matches. A document with an empty page rectangle (width or height 0) is
    searched in full as long as no word on such a page matches; the division
    by zero, which would end the search, happens at a matching word only. *)
Theorem page_size_read_on_match_only (W : World) (fp pattern : string) (flags : Z)
    (fp_alias : option string) (rx : Pattern) (doc : Document) :
  fitz_open W fp = Some doc →
  finish doc = Exhausted →
  (∀ pg, pg ∈ yielded doc → is_Some (get_text_words pg)) →
  (∀ pg w, pg ∈ yielded doc → w ∈ default [] (get_text_words pg) → rx (word w) = true →
     PrimFloat.eqb (rect_width pg) 0 = false ∧ PrimFloat.eqb (rect_height pg) 0 = false) →
  re_compile W pattern flags = Some rx →
  search_pdf_file W fp pattern flags fp_alias
  = Ok (Expected.pdf_matches rx (default fp fp_alias) doc).
Proof.
  intros Hopen Hfin Hwords Hsize Hrx.
  unfold search_pdf_file. rewrite (compile_Some _ _ _ _ Hrx). simpl.
  unfold search_pdf_try. rewrite Hopen, for_iter_exhausted by done. simpl.
  replace (match fp_alias with Some a => a | None => fp end)
    with (default fp fp_alias) by by destruct fp_alias.
  rewrite (for_each_emits
             (λ '(page_num, pg), w ← default [] (get_text_words pg);
                Expected.word_matches rx (default fp fp_alias) page_num pg w)).
  - reflexivity.
  - intros [page_num pg] Hin out.
    apply elem_of_enumerate in Hin as (i & Hi & _).
    apply list_elem_of_lookup_2 in Hi.
    destruct (Hwords pg Hi) as [words Hw]. unfold pdf_page. rewrite Hw. simpl.
    apply for_each_emits. intros w Hwin out'. apply pdf_word_emits_if.
    intros Hmatch. apply (Hsize pg w Hi); [by rewrite Hw | done].
Qed.

Lemma page_size_read_on_match_only_witness :
  ∃ out,
    search_pdf_file
      {| re_compile := Sample.literal;
         open_text := λ _, None; load_workbook := λ _, None;
         fitz_open := λ _, Some (iter_of
           [ {| get_text_words := Some [Sample.token 10 10 "cover" 0];
                rect_width := 0; rect_height := 0 |};
             Sample.sheet_of_paper [Sample.token 100 50 "beta" 1] ]);
         platform_system := "Linux"; splitext_root := Sample.root; dirname := λ _, "";
         subprocess_run := λ _, false;
         word_save_as_pdf := λ _ _, false; powerpoint_save_as_pdf := λ _ _, false |}
      "odd.pdf" "beta" 0 None = Ok out
    ∧ (page <$> out) = [Some "2"].
Proof.
  eexists. split.
  - apply (page_size_read_on_match_only _ "odd.pdf" "beta" 0 None
             (λ s, PyStr.contains s "beta")
             (iter_of
                [ {| get_text_words := Some [Sample.token 10 10 "cover" 0];
                     rect_width := 0; rect_height := 0 |};
                  Sample.sheet_of_paper [Sample.token 100 50 "beta" 1] ])).
    + reflexivity.
    + reflexivity.
    + intros pg Hin. simpl in Hin.
      repeat (apply elem_of_cons in Hin as [-> | Hin]; [by eexists|]).
      by apply elem_of_nil in Hin.
    + intros pg w Hin Hw Hmatch. simpl in Hin.
      apply elem_of_cons in Hin as [-> | Hin].
      { simpl in Hw. apply list_elem_of_singleton in Hw as ->. discriminate Hmatch. }
      apply list_elem_of_singleton in Hin as ->. split; reflexivity.
    + reflexivity.
  - reflexivity.
Defined.

(* ------------------------------------------------------------------ *)
(** ** The configuration file *)

Ltac append_cons :=
  repeat change (String ?c ?s +:+ ?r) with (String c (s +:+ r)) in *;
  repeat change (EmptyString +:+ ?r) with r in *.

Lemma append_empty_r (s : string) : s +:+ EmptyString = s.
Proof. induction s as [|c s IH]; [done|]. append_cons. by f_equal. Qed.

Lemma append_cons_assoc (s : string) (c : ascii) (r : string) :
  (s +:+ String c EmptyString) +:+ r = s +:+ String c r.
Proof. induction s as [|d s IH]; [done|]. append_cons. by f_equal. Qed.

Lemma append_cons_ne (s : string) (c : ascii) : s +:+ String c EmptyString ≠ EmptyString.
Proof. by destruct s. Qed.

Lemma spaceless_snoc (s : string) (c : ascii) :
  PyText.spaceless s = true → PyText.is_space c = false →
  PyText.spaceless (s +:+ String c EmptyString) = true.
Proof.
  intros Hs Hc. induction s as [|d s IH]; append_cons; cbn [PyText.spaceless] in *.
  - by rewrite Hc.
  - apply andb_true_iff in Hs as [Hd Hs]. rewrite Hd. by apply IH.
Qed.

Lemma split_from_words (s cur : string) :
  PyText.spaceless cur = true →
  Forall (λ w, w ≠ EmptyString ∧ PyText.spaceless w = true) (PyText.split_from cur s).
Proof.
  revert cur. induction s as [|c s IH]; intros cur Hcur; cbn [PyText.split_from].
  - destruct cur; [constructor|]. by repeat constructor.
  - destruct (PyText.is_space c) eqn:Hc.
    + destruct cur; [by apply IH|]. constructor; [done|]. by apply IH.
    + apply IH. by apply spaceless_snoc.
Qed.

Lemma split_from_head (s cur : string) :
  cur ≠ EmptyString →
  ∃ rest ws, PyText.split_from cur s = (cur +:+ rest) :: ws.
Proof.
  revert cur. induction s as [|c s IH]; intros cur Hcur; cbn [PyText.split_from].
  - destruct cur; [done|]. exists EmptyString, []. by rewrite append_empty_r.
  - destruct (PyText.is_space c).
    + destruct cur; [done|]. eexists EmptyString, _. by rewrite append_empty_r.
    + destruct (IH (cur +:+ String c EmptyString)) as (rest & ws & ->);
        [apply append_cons_ne|].
      exists (String c rest), ws. by rewrite append_cons_assoc.
Qed.

Lemma split_lstrip (s : string) : PyText.split (PyText.lstrip s) = PyText.split s.
Proof.
  unfold PyText.split. induction s as [|c s IH]; [done|].
  cbn [PyText.lstrip]. destruct (PyText.is_space c) eqn:Hc.
  - rewrite IH. cbn [PyText.split_from]. by rewrite Hc.
  - done.
Qed.

Lemma split_from_rstrip (s cur : string) :
  PyText.split_from cur (PyText.rstrip s) = PyText.split_from cur s.
Proof.
  revert cur. induction s as [|c s IH]; intros cur; [done|].
  cbn [PyText.rstrip]. destruct (PyText.rstrip s) as [|d r'] eqn:Hr.
  - destruct (PyText.is_space c) eqn:Hc; cbn [PyText.split_from]; rewrite Hc.
    + rewrite <- (IH EmptyString). cbn [PyText.split_from]. by destruct cur.
    + by rewrite <- IH.
  - cbn [PyText.split_from]. destruct (PyText.is_space c); [|by rewrite <- IH].
    by rewrite <- IH.
Qed.

Lemma split_strip (s : string) : PyText.split (PyText.strip s) = PyText.split s.
Proof.
  unfold PyText.strip. transitivity (PyText.split (PyText.lstrip s)).
  - apply split_from_rstrip.
  - apply split_lstrip.
Qed.

Lemma lstrip_head (s : string) (c : ascii) (r : string) :
  PyText.lstrip s = String c r → PyText.is_space c = false.
Proof.
  induction s as [|d s IH]; [done|]. cbn [PyText.lstrip].
  destruct (PyText.is_space d) eqn:Hd; [done|]. by intros [= <- _].
Qed.

Lemma rstrip_head (s : string) (c : ascii) (r : string) :
  PyText.rstrip s = String c r → ∃ r0, s = String c r0.
Proof.
  destruct s as [|d s]; [done|]. cbn [PyText.rstrip].
  destruct (PyText.rstrip s); [destruct (PyText.is_space d)|]; intros [= <- _]; eauto.
Qed.

Lemma strip_head (s : string) (c : ascii) (r : string) :
  PyText.strip s = String c r → PyText.is_space c = false.
Proof.
  unfold PyText.strip. intros H. apply rstrip_head in H as [r0 H].
  by apply lstrip_head in H.
Qed.

Lemma prefix_empty (s : string) : String.prefix EmptyString s = true.
Proof. by destruct s. Qed.

Lemma startswith_hash_head (c : ascii) (r rest : string) :
  PyText.startswith (String c r +:+ rest) "#" = PyText.startswith (String c r) "#".
Proof.
  unfold PyText.startswith. append_cons. cbn [String.prefix].
  by rewrite !prefix_empty.
Qed.

(** What one line of the file adds to the arguments. *)
Lemma config_line_words (ln : string) (argv : list string) :
  Config.config_line ln argv =
    (argv ++ match PyText.split ln with
             | [] => []
             | w :: ws => if PyText.startswith w "#" then [] else w :: ws
             end, Completed).
Proof.
  unfold Config.config_line. rewrite <- (split_strip ln).
  destruct (PyText.strip ln) as [|c r] eqn:Hs.
  - cbn. by rewrite app_nil_r.
  - pose proof (strip_head _ _ _ Hs) as Hc.
    replace (String.eqb (String c r) EmptyString) with false by done.
    cbn [orb]. unfold PyText.split. cbn [PyText.split_from]. rewrite Hc.
    destruct (split_from_head r (String c EmptyString)) as (rest & ws & Heq); [done|].
    append_cons. rewrite Heq.
    change (String c rest) with (String c EmptyString +:+ rest).
    rewrite startswith_hash_head.
    change (String c r) with (String c EmptyString +:+ r) at 1.
    rewrite startswith_hash_head.
    destruct (PyText.startswith (String c EmptyString) "#"); [by rewrite app_nil_r | done].
Qed.

(** X17: a configuration file within ASCII that can be read to its end
    gives, line by line and in order, the whitespace-separated words of each
    line, except that a line whose first word starts with [#] gives nothing.
    A [#] further along a line is an argument like any other. *)
Theorem load_config_file_words (fs : Config.Files) (file_path : string) (f : Iter string) :
  Config.path_exists fs file_path = true →
  Config.open_utf8 fs file_path = Some f →
  finish f = Exhausted →
  Forall (λ ln, PyText.is_ascii ln = true) (yielded f) →
  Config.load_config_file fs file_path =
    Some (yielded f ≫= λ ln,
            match PyText.split ln with
            | [] => []
            | w :: ws => if PyText.startswith w "#" then [] else w :: ws
            end).
Proof.
  intros Hex Hopen Hfin _. unfold Config.load_config_file.
  rewrite Hex, Hopen. cbn [negb]. rewrite for_iter_exhausted by done.
  by rewrite (for_each_emits _ _ _ (λ ln _ out, config_line_words ln out)).
Qed.

Lemma load_config_file_words_witness :
  let fs := {| Config.path_exists := λ _, true;
               Config.open_utf8 := λ _, Some (MkIter
                 [ "# server" +:+ Sample.nl;
                   "  --port 8000   # not a comment" +:+ Sample.nl;
                   Sample.nl;
                   "--host" +:+ Sample.nl;
                   "  #--results_dir r" ] Exhausted) |} in
  Config.load_config_file fs "dapis.conf" =
    Some ["--port"; "8000"; "#"; "not"; "a"; "comment"; "--host"].
Proof.
  intros fs.
  rewrite (load_config_file_words fs "dapis.conf" _ eq_refl eq_refl eq_refl).
  - reflexivity.
  - repeat constructor.
Defined.

(** X18: whatever the file holds, every argument read from it is a
    non-empty word without whitespace; and a file that does not exist gives
    no argument and no error. *)
Theorem load_config_file_arguments (fs : Config.Files) (file_path : string) (argv : list string) :
  Config.load_config_file fs file_path = Some argv →
  Forall (λ w, w ≠ EmptyString ∧ PyText.spaceless w = true) argv
  ∧ (Config.path_exists fs file_path = false → argv = []).
Proof.
  unfold Config.load_config_file. destruct (Config.path_exists fs file_path); cbn [negb].
  - destruct (Config.open_utf8 fs file_path) as [f|]; [|done].
    pose proof (for_iter_keeps (λ w, w ≠ EmptyString ∧ PyText.spaceless w = true)
                  Config.config_line f) as Hkeep.
    destruct (for_iter Config.config_line f []) as [out []] eqn:Hrun; [|done].
    intros [= <-]. split; [|done].
    change out with (out, Completed).1. rewrite <- Hrun. apply Hkeep; [|done].
    intros ln acc Hacc. rewrite config_line_words. cbn [fst].
    apply Forall_app. split; [done|]. rewrite <- (split_strip ln).
    pose proof (split_from_words (PyText.strip ln) EmptyString eq_refl) as Hw.
    fold (PyText.split (PyText.strip ln)) in Hw.
    destruct (PyText.split (PyText.strip ln)) as [|w ws]; [done|].
    by destruct (PyText.startswith w "#").
  - intros [= <-]. by split.
Qed.

Lemma load_config_file_arguments_witness :
  let fs := {| Config.path_exists := λ _, true;
               Config.open_utf8 := λ _, Some (MkIter
                 [ "--port  8000" +:+ Sample.nl; "--host h" ] Exhausted) |} in
  Forall (λ w, w ≠ EmptyString ∧ PyText.spaceless w = true)
         ["--port"; "8000"; "--host"; "h"].
Proof.
  intros fs.
  exact (proj1 (load_config_file_arguments fs "dapis.conf" _ eq_refl)).
Defined.

(* ------------------------------------------------------------------ *)
(** ** Configured values *)

Lemma DEFAULTS_lookup :
  Config.DEFAULTS !! "host" = Some (Config.VStr "127.0.0.1")
  ∧ Config.DEFAULTS !! "port" = Some (Config.VInt 8000)
  ∧ Config.DEFAULTS !! "results_dir" = Some (Config.VStr "results")
  ∧ Config.DEFAULTS !! "targets_count_default" = Some (Config.VInt 99).
Proof. repeat split; vm_compute; reflexivity. Qed.

Lemma ENV_VARS_lookup :
  Config.ENV_VARS !! "host" = Some "DAPIS_HOST"
  ∧ Config.ENV_VARS !! "port" = Some "DAPIS_PORT"
  ∧ Config.ENV_VARS !! "results_dir" = Some "DAPIS_RESULTS_DIR"
  ∧ Config.ENV_VARS !! "targets_count_default" = Some "DAPIS_TARGETS_COUNT_DEFAULT".
Proof. repeat split; vm_compute; reflexivity. Qed.

(** X19: for each of the four configured keys [Config.get] returns a value
    and never fails. The value has the type of the key's default (text for
    the host and the results directory, an integer for the port and the
    display limit) with one exception: when neither the command line nor
    the file sets an integer key and its environment variable holds text
    that [int] rejects, that text is returned as it is. *)
Theorem config_get_known_key (int_of_str : string → option Z)
    (environ : gmap string string) (self : Config.t) (key : string) :
  key ∈ ["host"; "port"; "results_dir"; "targets_count_default"] →
  ∃ v, Config.get int_of_str environ self key = Config.Got v
       ∧ (Config.typed key v
          ∨ ∃ env_var raw,
              Config.getattr (Config.args self) key = None
              ∧ Config.getattr (Config.file_args self) key = None
              ∧ Config.ENV_VARS !! key = Some env_var
              ∧ environ !! env_var = Some raw
              ∧ int_of_str raw = None
              ∧ Config.typed key (Config.VInt 0)
              ∧ v = Config.VStr raw).
Proof.
  destruct DEFAULTS_lookup as (Dh & Dp & Dr & Dt).
  destruct ENV_VARS_lookup as (Eh & Ep & Er & Et).
  destruct self as [[ah ap ar at_ ac] [fh fp fr ft fc]].
  intros Hkey. rewrite !elem_of_cons in Hkey. rewrite elem_of_nil in Hkey.
  destruct Hkey as [->|[->|[->|[->|[]]]]];
    unfold Config.get, Config.default_of, Config.typed; cbn.
  - rewrite Eh, Dh. cbn.
    destruct ah as [x|]; [by eauto|]. destruct fh as [x|]; [by eauto|]. cbn.
    destruct (environ !! "DAPIS_HOST") as [raw|]; by eauto.
  - rewrite Ep, Dp. cbn.
    destruct ap as [x|]; [by eauto|]. destruct fp as [x|]; [by eauto|]. cbn.
    destruct (environ !! "DAPIS_PORT") as [raw|] eqn:Henv; [|by eauto].
    destruct (int_of_str raw) as [n|] eqn:Hint; [by eauto|].
    eexists. split; [done|]. right. by exists "DAPIS_PORT", raw.
  - rewrite Er, Dr. cbn.
    destruct ar as [x|]; [by eauto|]. destruct fr as [x|]; [by eauto|]. cbn.
    destruct (environ !! "DAPIS_RESULTS_DIR") as [raw|]; by eauto.
  - rewrite Et, Dt. cbn.
    destruct at_ as [x|]; [by eauto|]. destruct ft as [x|]; [by eauto|]. cbn.
    destruct (environ !! "DAPIS_TARGETS_COUNT_DEFAULT") as [raw|] eqn:Henv; [|by eauto].
    destruct (int_of_str raw) as [n|] eqn:Hint; [by eauto|].
    eexists. split; [done|]. right. by exists "DAPIS_TARGETS_COUNT_DEFAULT", raw.
Qed.

Lemma config_get_known_key_witness :
  let unset := {| Config.host := None; Config.port := None; Config.results_dir := None;
                  Config.targets_count_default := None; Config.config_file := None |} in
  ∃ v, Config.get (λ _, None) {[ "DAPIS_PORT" := "http" ]}
         {| Config.args := unset; Config.file_args := unset |} "port" = Config.Got v
       ∧ v = Config.VStr "http".
Proof.
  intros unset.
  destruct (config_get_known_key (λ _, None) {[ "DAPIS_PORT" := "http" ]}
              {| Config.args := unset; Config.file_args := unset |} "port")
    as (v & Hget & Hv).
  - apply (bool_decide_unpack
             ("port" ∈ ["host"; "port"; "results_dir"; "targets_count_default"])).
    vm_compute. exact I.
  - exists v. split; [exact Hget|].
    vm_compute in Hget. by injection Hget as <-.
Defined.

(** X20: a configuration file named on the command line that does not
    exist is ignored without an error: the configuration is the one the
    same command line gives with an empty file, and the file system is not
    read any further. *)
Theorem missing_config_file_is_ignored (parse_args : list string → option Config.Namespace)
    (fs : Config.Files) (argv : list string) (a : Config.Namespace) (file_path : string) :
  parse_args argv = Some a →
  Config.config_file a = Some file_path →
  Config.path_exists fs file_path = false →
  Config.init parse_args fs argv
  = (fa ← parse_args []; Some {| Config.args := a; Config.file_args := fa |})
  ∧ ∀ other, Config.path_exists other file_path = false →
      Config.init parse_args other argv = Config.init parse_args fs argv.
Proof.
  intros Hargs Hfile Hmissing.
  assert (∀ o, Config.path_exists o file_path = false →
               Config.init parse_args o argv
               = (fa ← parse_args []; Some {| Config.args := a; Config.file_args := fa |}))
    as Hinit.
  { intros o Ho. unfold Config.init. rewrite Hargs. cbn. rewrite Hfile.
    unfold Config.load_config_file. rewrite Ho. cbn [negb].
    by destruct (String.eqb file_path EmptyString). }
  split; [by apply Hinit|]. intros other Hother. by rewrite !Hinit.
Qed.

Lemma missing_config_file_is_ignored_witness :
  let unset := {| Config.host := None; Config.port := None; Config.results_dir := None;
                  Config.targets_count_default := None; Config.config_file := None |} in
  let named := {| Config.host := None; Config.port := Some 9000%Z;
                  Config.results_dir := None; Config.targets_count_default := None;
                  Config.config_file := Some "gone.conf" |} in
  let parse_args := λ argv : list string, Some (match argv with [] => unset | _ => named end) in
  let fs := {| Config.path_exists := λ _, false; Config.open_utf8 := λ _, None |} in
  Config.init parse_args fs ["--port"; "9000"; "--config_file"; "gone.conf"]
  = Some {| Config.args := named; Config.file_args := unset |}.
Proof.
  intros unset named parse_args fs.
  exact (proj1 (missing_config_file_is_ignored parse_args fs
                  ["--port"; "9000"; "--config_file"; "gone.conf"] named "gone.conf"
                  eq_refl eq_refl eq_refl)).
Defined.

(* ------------------------------------------------------------------ *)
(** ** The client *)

Lemma get_after_submit (L : Z) (st : Server) (session_id : string) (paths : list string) :
  (Z.of_nat (length paths) ≤ L)%Z →
  get_targets L (submit_targets st session_id paths) session_id = Body paths.
Proof.
  intros Hfit. unfold get_targets, submit_targets. simpl. rewrite lookup_insert_eq.
  cbv zeta. rewrite slice_to_nonneg, take_ge by lia.
  by rewrite (proj2 (Z.ltb_ge _ _) Hfit).
Qed.

Ltac client_acts H :=
  repeat (apply elem_of_cons in H as [H|H]);
  try (by apply elem_of_nil in H); try discriminate H.

(** X21: the client posts at most once, and only when it was given a
    path: the absolute paths of its arguments, in order, under the
    identifier it has just drawn. It starts a browser only after the server
    answered with a true ["ok"], at most once, on the search page of that
    same identifier; and its exit status is 0 exactly when that command
    could be started. *)
Theorem client_opens_browser_after_ok (h : Client.Host) (prog : string)
    (args : list string) (acts : list Client.action) (code : Z) :
  Client.main h prog args = (acts, code) →
  (∀ url sid paths, Client.Post url sid paths ∈ acts →
     args ≠ [] ∧ url = Client.SUBMIT ∧ sid = Client.uuid4 h
     ∧ paths = Client.abspath h <$> args
     ∧ acts !! 0%nat = Some (Client.Post url sid paths))
  ∧ (∀ cmd shell, Client.Run cmd shell ∈ acts →
       (∃ shown, Client.urlopen h Client.SUBMIT (Client.uuid4 h) (Client.abspath h <$> args)
                 = Client.Answered true shown)
       ∧ last cmd = Some (Client.search_page (Client.uuid4 h))
       ∧ acts !! 1%nat = Some (Client.Run cmd shell)
       ∧ (code = 0%Z ↔ Client.spawn h cmd shell = true))
  ∧ (code = 0%Z ∨ code = 1%Z)
  ∧ (code = 0%Z → ∃ cmd shell, Client.Run cmd shell ∈ acts).
Proof.
  unfold Client.main. destruct args as [|p ps].
  { intros [= <- <-]. split; [|split; [|split; [by right|done]]].
    - intros url sid ps' H. by client_acts H.
    - intros cmd shell H. by client_acts H. }
  set (sent := Client.abspath h <$> p :: ps).
  destruct (Client.urlopen h Client.SUBMIT (Client.uuid4 h) sent) as [shown|[] shown] eqn:Hpost.
  - intros [= <- <-]. split; [|split; [|split; [by right|done]]].
    + intros url sid ps' H. client_acts H. by injection H as <- <- <-.
    + intros cmd shell H. by client_acts H.
  - destruct (Client.browser h (Client.search_page (Client.uuid4 h))) as [cmd0 shell0] eqn:Hb.
    assert (last cmd0 = Some (Client.search_page (Client.uuid4 h))) as Hlast.
    { unfold Client.browser in Hb.
      destruct (String.eqb (Client.platform_system h) "Darwin");
        [|destruct (String.eqb (Client.platform_system h) "Windows")];
        by injection Hb as <- <-. }
    destruct (Client.spawn h cmd0 shell0) eqn:Hrun; intros [= <- <-].
    + split; [|split; [|split; [by left|]]].
      * intros url sid ps' H. client_acts H. by injection H as <- <- <-.
      * intros cmd shell H. client_acts H. injection H as <- <-.
        split; [by eauto|]. by rewrite Hrun.
      * intros _. exists cmd0, shell0. rewrite !elem_of_cons. auto.
    + split; [|split; [|split; [by right|done]]].
      * intros url sid ps' H. client_acts H. by injection H as <- <- <-.
      * intros cmd shell H. client_acts H. injection H as <- <-.
        split; [by eauto|]. by rewrite Hrun.
  - intros [= <- <-]. split; [|split; [|split; [by right|done]]].
    + intros url sid ps' H. client_acts H. by injection H as <- <- <-.
    + intros cmd shell H. by client_acts H.
Qed.

Lemma client_opens_browser_after_ok_witness :
  let h := {| Client.abspath := λ p, "/home/u/" +:+ p;
              Client.uuid4 := "1f0e";
              Client.urlopen := λ _ _ _, Client.Answered true "ok";
              Client.platform_system := "Windows";
              Client.spawn := λ _ _, true |} in
  Client.main h "dapis_client.py" ["a.txt"; "b.pdf"]
  = ([Client.Post "http://127.0.0.1:8000/submit_targets" "1f0e"
        ["/home/u/a.txt"; "/home/u/b.pdf"];
      Client.Run ["start"; "http://127.0.0.1:8000/?session_id=1f0e"] true;
      Client.Print "Targets submitted. Browser opened for session_id=1f0e"], 0%Z)
  ∧ last ["start"; "http://127.0.0.1:8000/?session_id=1f0e"]
    = Some (Client.search_page "1f0e").
Proof.
  intros h. split; [reflexivity|].
  refine (proj1 (proj2 (proj1 (proj2
    (client_opens_browser_after_ok h "dapis_client.py" ["a.txt"; "b.pdf"] _ _ eq_refl))
    ["start"; "http://127.0.0.1:8000/?session_id=1f0e"] true _))).
  apply list_elem_of_further, list_elem_of_here.
Defined.

(** X22: when the client ends with status 0, the server that received its
    request lists, for the identifier in the address the browser was sent
    to, the absolute paths of the client's arguments in the order they were
    given (as long as they fit the display limit), and answers for every
    other identifier as before. *)
Theorem client_targets_reach_the_page (L : Z) (h : Client.Host) (prog : string)
    (args : list string) (st : Server) :
  (Client.main h prog args).2 = 0%Z →
  (Z.of_nat (length args) ≤ L)%Z →
  let st' := foldl Client.deliver st (Client.main h prog args).1 in
  get_targets L st' (Client.uuid4 h) = Body (Client.abspath h <$> args)
  ∧ (∀ other, other ≠ Client.uuid4 h → get_targets L st' other = get_targets L st other)
  ∧ databases st' = databases st.
Proof.
  unfold Client.main. destruct args as [|p ps]; [done|].
  set (sent := Client.abspath h <$> p :: ps).
  assert (length sent = length (p :: ps)) as Hlen by apply length_fmap.
  destruct (Client.urlopen h Client.SUBMIT (Client.uuid4 h) sent) as [shown|[] shown];
    [done| |done].
  destruct (Client.browser h (Client.search_page (Client.uuid4 h))) as [cmd shell].
  destruct (Client.spawn h cmd shell); [|done].
  intros _ Hfit. cbn [fst foldl Client.deliver]. split; [|split; [|done]].
  - apply get_after_submit. by rewrite Hlen.
  - intros other Hne. unfold get_targets, submit_targets. simpl.
    by rewrite lookup_insert_ne.
Qed.

Lemma client_targets_reach_the_page_witness :
  let h := {| Client.abspath := λ p, "/home/u/" +:+ p;
              Client.uuid4 := "1f0e";
              Client.urlopen := λ _ _ _, Client.Answered true "ok";
              Client.platform_system := "Linux";
              Client.spawn := λ _ _, true |} in
  get_targets 99
    (foldl Client.deliver Sample.registry (Client.main h "dapis_client.py" ["a.txt"; "b.pdf"]).1)
    "1f0e"
  = Body ["/home/u/a.txt"; "/home/u/b.pdf"].
Proof.
  intros h.
  refine (proj1 (client_targets_reach_the_page 99 h "dapis_client.py" ["a.txt"; "b.pdf"]
                   Sample.registry eq_refl _)).
  simpl. lia.
Defined.
